(** * Loan portfolio ETL: transformation and validated load

    A shallow embedding of the cleaning stage ([src/etl/transform.py]),
    of the batched SQLite loader ([src/etl/load_sqlite.py]), of the loader
    the pipeline calls ([src/etl/load_ultra_simple.py]) and of the column
    selection of [src/etl/pipeline.py], followed by the properties proved
    about them.

    Conventions of the embedding.
    - A pandas column is a [Series]: its dtype is the constructor, its
      cells an [option] list where [None] is the missing value (NaN, NaT).
    - Numbers are exact rationals ([Q]); a float NaN is the missing value.
    - Text is a byte string; case mapping and whitespace are ASCII.
    - Python exceptions are the [Raise] results of type [result].
    - What pandas, the date parser and the square root compute is taken
      as parameters of the sections that need them. *)

From Stdlib Require Import String Ascii List ZArith QArith Lia Bool Arith.
From Stdlib Require OrderedTypeEx.
Import ListNotations.
Open Scope string_scope.
Open Scope Z_scope.
Open Scope list_scope.

(* ================================================================== *)
(** * Part I. Definitions *)
(* ================================================================== *)

(** ** Exceptions and results *)

Inductive exn : Type :=
| UnboundLocalError (var : string)
| KeyError (key : string)
| TypeError
| ZeroDivisionError
| SqliteError
| AttributeError.

Inductive result (A : Type) : Type :=
| Ok (a : A)
| Raise (e : exn).

Arguments Ok {A} a.
Arguments Raise {A} e.

Definition bind {A B : Type} (r : result A) (k : A -> result B) : result B :=
  match r with
  | Ok a => k a
  | Raise e => Raise e
  end.

Notation "x <- r ;; k" := (bind r (fun x => k))
  (at level 61, r at next level, right associativity).

(** ** Text *)

Definition is_upper (c : ascii) : bool :=
  let n := nat_of_ascii c in (65 <=? n)%nat && (n <=? 90)%nat.

Definition is_lower (c : ascii) : bool :=
  let n := nat_of_ascii c in (97 <=? n)%nat && (n <=? 122)%nat.

Definition is_digit (c : ascii) : bool :=
  let n := nat_of_ascii c in (48 <=? n)%nat && (n <=? 57)%nat.

(** [str.isspace] on one-byte characters: tab to carriage return, the
    four separators 28..31 and the blank. *)
Definition is_space (c : ascii) : bool :=
  let n := nat_of_ascii c in
  ((9 <=? n)%nat && (n <=? 13)%nat) || ((28 <=? n)%nat && (n <=? 32)%nat).

(** The class [\w] of [re]: letters, digits and the underscore; a byte of
    a multi-byte character counts as a letter. *)
Definition is_word (c : ascii) : bool :=
  let n := nat_of_ascii c in
  is_upper c || is_lower c || is_digit c || (n =? 95)%nat || (128 <=? n)%nat.

Definition lower_char (c : ascii) : ascii :=
  if is_upper c then ascii_of_nat (nat_of_ascii c + 32) else c.

Definition upper_char (c : ascii) : ascii :=
  if is_lower c then ascii_of_nat (nat_of_ascii c - 32) else c.

Fixpoint map_string (f : ascii -> ascii) (s : string) : string :=
  match s with
  | EmptyString => EmptyString
  | String c t => String (f c) (map_string f t)
  end.

Definition lower (s : string) : string := map_string lower_char s.
Definition upper (s : string) : string := map_string upper_char s.

Fixpoint lstrip (s : string) : string :=
  match s with
  | EmptyString => EmptyString
  | String c t => if is_space c then lstrip t else s
  end.

Fixpoint rev_string (acc s : string) : string :=
  match s with
  | EmptyString => acc
  | String c t => rev_string (String c acc) t
  end.

Definition rstrip (s : string) : string :=
  rev_string EmptyString (lstrip (rev_string EmptyString s)).

Definition strip (s : string) : string := rstrip (lstrip s).

(** [sub in s] on Python strings. *)
Fixpoint contains (sub s : string) : bool :=
  prefix sub s ||
  match s with
  | EmptyString => false
  | String _ t => contains sub t
  end.

(** [x in xs] on a list of strings. *)
Definition mem (x : string) (xs : list string) : bool :=
  existsb (String.eqb x) xs.

(** Whether the strings of a list are pairwise different. *)
Fixpoint distinct (xs : list string) : bool :=
  match xs with
  | [] => true
  | x :: t => negb (mem x t) && distinct t
  end.

(** The character at index [i], as [s[i]] reads it. *)
Definition char_at (i : nat) (s : string) : option ascii := String.get i s.

(** ** Rationals as booleans *)

Definition Qlt_bool (x y : Q) : bool := negb (Qle_bool y x).

(** ** The data model of the cleaning stage *)

Record Date : Type := mkDate { year : Z; month : Z; day : Z }.

Definition Date_eqb (a b : Date) : bool :=
  (year a =? year b) && (month a =? month b) && (day a =? day b).

(** A value of a cell, whatever the dtype of its column. *)
Inductive scalar : Type :=
| SText (s : string)
| SNumber (q : Q)
| SDate (d : Date).

(** A column with its dtype: [object] (text), a numeric dtype,
    [datetime64[ns]] or [category] (whose values are text, or numbers when a
    numeric column was made categorical). *)
Inductive Series : Type :=
| ObjectS (cells : list (option string))
| NumericS (cells : list (option Q))
| DatetimeS (cells : list (option Date))
| CategoryS (cells : list (option scalar)).

(** A frame is its columns in order, each under its label. *)
Definition DataFrame : Type := list (string * Series).

Definition columns (df : DataFrame) : list string := map fst df.

Definition isnull {A : Type} (x : option A) : bool :=
  match x with
  | None => true
  | Some _ => false
  end.

Definition notna {A : Type} (x : option A) : bool := negb (isnull x).

Definition series_len (s : Series) : nat :=
  match s with
  | ObjectS xs => length xs
  | NumericS xs => length xs
  | DatetimeS xs => length xs
  | CategoryS xs => length xs
  end.

(** [s.isnull()] as a mask. *)
Definition null_mask (s : Series) : list bool :=
  match s with
  | ObjectS xs => map isnull xs
  | NumericS xs => map isnull xs
  | DatetimeS xs => map isnull xs
  | CategoryS xs => map isnull xs
  end.

Definition count_true (m : list bool) : nat := length (filter (fun b => b) m).

(** [s.isnull().sum()]. *)
Definition isnull_count (s : Series) : nat := count_true (null_mask s).

(** [len(df)]: the length of the index, read off the first column. *)
Definition len (df : DataFrame) : nat :=
  match df with
  | [] => O
  | (_, s) :: _ => series_len s
  end.

(** [df[col]]: the column under the label. *)
Fixpoint get_col (col : string) (df : DataFrame) : option Series :=
  match df with
  | [] => None
  | (c, s) :: rest => if String.eqb c col then Some s else get_col col rest
  end.

Definition has_col (col : string) (df : DataFrame) : bool := mem col (columns df).

(** [df[col] = s]: every column under the label is replaced; a new label is
    appended as the last column. *)
Definition set_col (col : string) (s : Series) (df : DataFrame) : DataFrame :=
  if has_col col df
  then map (fun cs => if String.eqb (fst cs) col then (fst cs, s) else cs) df
  else df ++ [(col, s)].

(** Rows kept by a boolean mask. *)
Fixpoint keep {A : Type} (mask : list bool) (xs : list A) : list A :=
  match mask, xs with
  | b :: m, x :: t => if b then x :: keep m t else keep m t
  | _, _ => []
  end.

Definition series_keep (mask : list bool) (s : Series) : Series :=
  match s with
  | ObjectS xs => ObjectS (keep mask xs)
  | NumericS xs => NumericS (keep mask xs)
  | DatetimeS xs => DatetimeS (keep mask xs)
  | CategoryS xs => CategoryS (keep mask xs)
  end.

Definition frame_keep (mask : list bool) (df : DataFrame) : DataFrame :=
  map (fun cs => (fst cs, series_keep mask (snd cs))) df.

(** A frame is well formed when its labels are distinct and its columns
    have the length of the index. *)
Definition well_formed (df : DataFrame) : Prop :=
  NoDup (columns df) /\ Forall (fun cs => series_len (snd cs) = len df) df.

(** [x.fillna(v)] on the cells of a column. *)
Definition fillna {A : Type} (v : A) (xs : list (option A)) : list (option A) :=
  map (fun x => match x with None => Some v | Some _ => x end) xs.

(** The non-missing cells, in order ([dropna]). *)
Fixpoint dropna_cells {A : Type} (xs : list (option A)) : list A :=
  match xs with
  | [] => []
  | None :: t => dropna_cells t
  | Some a :: t => a :: dropna_cells t
  end.

Definition scalar_eqb (a b : scalar) : bool :=
  match a, b with
  | SText x, SText y => String.eqb x y
  | SNumber x, SNumber y => Qeq_bool x y
  | SDate x, SDate y => Date_eqb x y
  | _, _ => false
  end.

(** Two cells are equal when both are missing or both hold the same value
    (the equality [duplicated] uses). *)
Definition cell_eqb (a b : option scalar) : bool :=
  match a, b with
  | None, None => true
  | Some x, Some y => scalar_eqb x y
  | _, _ => false
  end.

(** ** Statistics of a column *)

Fixpoint zip_with {A B C : Type} (f : A -> B -> C) (xs : list A) (ys : list B)
  : list C :=
  match xs, ys with
  | x :: xt, y :: yt => f x y :: zip_with f xt yt
  | _, _ => []
  end.

Fixpoint insert_by {A : Type} (le : A -> A -> bool) (x : A) (l : list A) : list A :=
  match l with
  | [] => [x]
  | y :: t => if le x y then x :: l else y :: insert_by le x t
  end.

Definition sort_by {A : Type} (le : A -> A -> bool) (l : list A) : list A :=
  fold_right (insert_by le) [] l.

Definition occurrences (x : string) (xs : list string) : nat :=
  length (filter (String.eqb x) xs).

Definition max_occurrences (xs : list string) : nat :=
  fold_right Nat.max O (map (fun x => occurrences x xs) xs).

(** [s.mode()] on the text of a column: the values met most often among
    the non-missing cells, each once, in increasing order. *)
Definition mode (cells : list (option string)) : list string :=
  let xs := dropna_cells cells in
  sort_by String.leb
    (nodup string_dec
       (filter (fun x => (occurrences x xs =? max_occurrences xs)%nat) xs)).

(** [s.median()]: the middle of the sorted non-missing values, the mean of
    the two middle ones when their number is even, NaN when there is none. *)
Definition median (cells : list (option Q)) : option Q :=
  let v := sort_by Qle_bool (dropna_cells cells) in
  let n := length v in
  if (n =? 0)%nat then None
  else if Nat.odd n then Some (nth (n / 2) v 0%Q)
  else Some ((nth (n / 2 - 1) v 0%Q + nth (n / 2) v 0%Q) / 2)%Q.

(** ** [DataTransformer._standardize_column_names] *)

(** [re.sub(r'[^\w\s]', '_', name)]. *)
Definition sub_special (s : string) : string :=
  map_string (fun c => if is_word c || is_space c then c else "_"%char) s.

(** [re.sub(r'\s+', '_', name)]: every run of blanks becomes one underscore. *)
Fixpoint sub_spaces (in_run : bool) (s : string) : string :=
  match s with
  | EmptyString => EmptyString
  | String c t =>
      if is_space c
      then if in_run then sub_spaces true t else String "_"%char (sub_spaces true t)
      else String c (sub_spaces false t)
  end.

Definition standard_name (col : string) : string :=
  sub_spaces false (sub_special (lower (strip col))).

(** The mapping holds [col -> new_name] for every label that changes, so
    renaming with it sends every label to its standard name. *)
Definition _standardize_column_names (df : DataFrame) : DataFrame :=
  map (fun cs => (standard_name (fst cs), snd cs)) df.

(** ** [DataTransformer._handle_missing_values] *)

Definition critical_columns : list string := ["loan_amnt"; "issue_d"; "loan_status"].

(** [(missing_count / len(df)) * 100]. *)
Definition percentage (missing_count n : nat) : Q :=
  ((Z.of_nat missing_count # Pos.of_nat n) * 100)%Q.

(** ['rate' in col.lower() or 'pct' in col.lower()]. *)
Definition rate_like (col : string) : bool :=
  contains "rate" (lower col) || contains "pct" (lower col).

(** [x.fillna(v)] where [v] may be NaN, which fills nothing. *)
Definition fillna_opt {A : Type} (v : option A) (xs : list (option A))
  : list (option A) :=
  match v with
  | Some a => fillna a xs
  | None => xs
  end.

(** The body of the loop for one column that has missing values: the
    branch is chosen by the dtype and by the missing percentage. *)
Definition impute_column (col : string) (n : nat) (s : Series) : Series :=
  let missing_pct := percentage (isnull_count s) n in
  match s with
  | ObjectS xs =>
      if Qlt_bool 30 missing_pct
      then ObjectS (fillna "UNKNOWN" xs)
      else
        let mode_val := match mode xs with
                        | m :: _ => m
                        | [] => "UNKNOWN"
                        end in
        ObjectS (fillna mode_val xs)
  | NumericS xs =>
      if Qlt_bool 30 missing_pct
      then if rate_like col
           then NumericS (fillna 0%Q xs)
           else NumericS (fillna_opt (median xs) xs)
      else NumericS (fillna_opt (median xs) xs)
  | DatetimeS xs => DatetimeS xs
  | CategoryS xs => CategoryS xs
  end.

(** The loop over [df.columns]. [bound] records whether the assignment
    to [critical_columns], which stands in the loop body after the
    [continue], has been executed. *)
Fixpoint impute_loop (cols : list string) (df : DataFrame) (bound : bool)
  : DataFrame * bool :=
  match cols with
  | [] => (df, bound)
  | col :: rest =>
      match get_col col df with
      | None => impute_loop rest df bound
      | Some s =>
          if (isnull_count s =? 0)%nat
          then impute_loop rest df bound
          else impute_loop rest (set_col col (impute_column col (len df) s) df) true
      end
  end.

(** The mask of the rows that [dropna(subset=...)] keeps: no missing cell in
    any column of the subset. *)
Fixpoint notnull_rows (subset : list string) (df : DataFrame) : list bool :=
  match subset with
  | [] => repeat true (len df)
  | c :: rest =>
      match get_col c df with
      | Some s => zip_with andb (map negb (null_mask s)) (notnull_rows rest df)
      | None => notnull_rows rest df
      end
  end.

(** [df.dropna(subset=subset)]: a label of the subset that is no column of
    the frame is a [KeyError]. *)
Definition dropna_subset (subset : list string) (df : DataFrame)
  : result DataFrame :=
  match find (fun c => negb (has_col c df)) subset with
  | Some c => Raise (KeyError c)
  | None => Ok (frame_keep (notnull_rows subset df) df)
  end.

(** What the loop makes of one column of a frame of [n] rows, and whether
    it reaches the assignment to [critical_columns] on it. *)
Definition impute_if_missing (n : nat) (cs : string * Series) : string * Series :=
  if (isnull_count (snd cs) =? 0)%nat
  then cs
  else (fst cs, impute_column (fst cs) n (snd cs)).

Definition has_missing (cs : string * Series) : bool :=
  negb (isnull_count (snd cs) =? 0)%nat.

Definition _handle_missing_values (df : DataFrame) : result DataFrame :=
  let '(df1, bound) := impute_loop (columns df) df false in
  if bound
  then dropna_subset critical_columns df1
  else Raise (UnboundLocalError "critical_columns").

(** ** [DataTransformer._clean_text_columns] *)

Definition null_values : list string := ["nan"; "none"; "null"; "na"; ""].

Definition upper_columns : list string :=
  ["loan_status"; "grade"; "sub_grade"; "emp_title"].

(** [astype(str).str.strip()] followed by [replace(null_values, np.nan)]
    on one cell. A text is stripped. A missing cell is printed first, and
    [printed] is what [str] makes of it: [nan] for the NaN that [read_csv]
    leaves, [None] for a cell that holds the object [None]; the data model
    has one missing value, so the printed form comes with the cell. The
    replacement then turns the five null texts into missing cells. *)
Definition clean_text_cell (printed : string) (x : option string) : option string :=
  let s := strip (match x with
                  | Some s => s
                  | None => printed
                  end) in
  if mem s null_values then None else Some s.

(** The cells of a column from the position [i] on; [na i] is the printed
    form of the cell at position [i] when it is missing. *)
Fixpoint clean_text_cells (na : nat -> string) (i : nat)
  (xs : list (option string)) : list (option string) :=
  match xs with
  | [] => []
  | x :: t => clean_text_cell (na i) x :: clean_text_cells na (S i) t
  end.

(** The body of the loop for one text column. When the replacement leaves
    no text in a column that has rows, [replace] returns the column as
    [float64]: [.str.upper()] then raises [AttributeError] for the four
    columns put in upper case, and the other columns stay numeric. *)
Definition clean_text_series (na : nat -> string) (col : string)
  (xs : list (option string)) : result Series :=
  let cleaned := clean_text_cells na 0 xs in
  if negb (length xs =? 0)%nat && forallb isnull cleaned
  then
    if mem col upper_columns
    then Raise AttributeError
    else Ok (NumericS (map (fun _ => None) cleaned))
  else
    Ok (ObjectS (if mem col upper_columns
                 then map (option_map upper) cleaned
                 else cleaned)).

Definition is_object (s : Series) : bool :=
  match s with
  | ObjectS _ => true
  | _ => false
  end.

Definition text_columns (df : DataFrame) : list string :=
  map fst (filter (fun cs => is_object (snd cs)) df).

(** The loop over the text columns, listed before the loop starts. *)
Fixpoint clean_text_loop (na_repr : string -> nat -> string)
  (cols : list string) (df : DataFrame) : result DataFrame :=
  match cols with
  | [] => Ok df
  | col :: rest =>
      match get_col col df with
      | Some (ObjectS xs) =>
          s <- clean_text_series (na_repr col) col xs ;;
          clean_text_loop na_repr rest (set_col col s df)
      | _ => clean_text_loop na_repr rest df
      end
  end.

Definition _clean_text_columns (na_repr : string -> nat -> string)
  (df : DataFrame) : result DataFrame :=
  clean_text_loop na_repr (text_columns df) df.

(** ** [DataTransformer._create_derived_features] *)

Definition cells_of (s : Series) : list (option scalar) :=
  match s with
  | ObjectS xs => map (option_map SText) xs
  | NumericS xs => map (option_map SNumber) xs
  | DatetimeS xs => map (option_map SDate) xs
  | CategoryS xs => xs
  end.

Definition default_statuses : list string :=
  ["CHARGED OFF"; "DEFAULT"; "LATE (31-120 DAYS)"; "LATE (16-30 DAYS)";
   "IN GRACE PERIOD"].

(** [s.isin(values)] and [s == value] on one cell: a missing cell and a
    cell that holds no text compare unequal to every status. *)
Definition cell_isin (values : list string) (x : option scalar) : bool :=
  match x with
  | Some (SText s) => mem s values
  | _ => false
  end.

Definition cell_equals (value : string) (x : option scalar) : bool :=
  match x with
  | Some (SText s) => String.eqb s value
  | _ => false
  end.

(** [mask.astype(int)]. *)
Definition astype_int (mask : list bool) : Series :=
  NumericS (map (fun b : bool => Some (if b then 1%Q else 0%Q)) mask).

Definition is_default_of (loan_status : Series) : Series :=
  astype_int (map (cell_isin default_statuses) (cells_of loan_status)).

Definition is_fully_paid_of (loan_status : Series) : Series :=
  astype_int (map (cell_equals "FULLY PAID") (cells_of loan_status)).

(** Block 1: the target labels. *)
Definition derive_labels (df : DataFrame) : DataFrame :=
  match get_col "loan_status" df with
  | Some s =>
      let df1 := set_col "is_default" (is_default_of s) df in
      match get_col "loan_status" df1 with
      | Some s1 => set_col "is_fully_paid" (is_fully_paid_of s1) df1
      | None => df1
      end
  | None => df
  end.

(** [pd.cut] with right-closed bins whose last edge is infinite: [uppers]
    are the finite upper edges, [lowest] the first edge. *)
Fixpoint bucket (x : Q) (uppers : list Q) (labels : list string) : option string :=
  match uppers, labels with
  | u :: us, l :: ls => if Qle_bool x u then Some l else bucket x us ls
  | [], l :: _ => Some l
  | _, [] => None
  end.

Definition pd_cut (include_lowest : bool) (lowest : Q) (uppers : list Q)
  (labels : list string) (x : option Q) : option string :=
  match x with
  | None => None
  | Some q =>
      if Qlt_bool lowest q || (include_lowest && Qeq_bool q lowest)
      then bucket q uppers labels
      else None
  end.

(** The categorical column [pd.cut] returns. *)
Definition labelled (xs : list (option string)) : Series :=
  CategoryS (map (option_map SText) xs).

(** The cells of a column used as numbers; arithmetic and binning on a
    column of another dtype are reported as [TypeError]. *)
Definition numeric_cells (s : Series) : result (list (option Q)) :=
  match s with
  | NumericS xs => Ok xs
  | _ => Raise TypeError
  end.

(** Block 2: income brackets. *)
Definition derive_income_category (df : DataFrame) : result DataFrame :=
  match get_col "annual_inc" df with
  | Some s =>
      xs <- numeric_cells s ;;
      Ok (set_col "income_category"
            (labelled
               (map (pd_cut true 0 [30000#1; 60000#1; 100000#1; 200000#1]
                       ["Très faible"; "Faible"; "Moyen"; "Élevé"; "Très élevé"])
                    xs))
            df)
  | None => Ok df
  end.

(** [s.replace(0, np.nan)]. *)
Definition replace_zero (xs : list (option Q)) : list (option Q) :=
  map (fun x => match x with
                | Some q => if Qeq_bool q 0 then None else Some q
                | None => None
                end) xs.

(** The quotient of two cells; NaN on either side gives NaN. *)
Definition div_cell (a b : option Q) : option Q :=
  match a, b with
  | Some x, Some y => Some (x / y)%Q
  | _, _ => None
  end.

Definition loan_to_income_ratio_of (loan_amnt annual_inc : list (option Q))
  : Series :=
  NumericS (zip_with div_cell loan_amnt (replace_zero annual_inc)).

(** Block 3: the loan to income ratio. *)
Definition derive_loan_to_income_ratio (df : DataFrame) : result DataFrame :=
  match get_col "loan_amnt" df, get_col "annual_inc" df with
  | Some la, Some ai =>
      a <- numeric_cells la ;;
      b <- numeric_cells ai ;;
      Ok (set_col "loan_to_income_ratio" (loan_to_income_ratio_of a b) df)
  | _, _ => Ok df
  end.

(** Days since 1970-01-01 of a calendar date (proleptic Gregorian). *)
Definition days_from_civil (d : Date) : Z :=
  let y := if month d <=? 2 then year d - 1 else year d in
  let era := y / 400 in
  let yoe := y - era * 400 in
  let mp := (month d + 9) mod 12 in
  let doy := (153 * mp + 2) / 5 + day d - 1 in
  let doe := yoe * 365 + yoe / 4 - yoe / 100 + doy in
  era * 146097 + doe - 719468.

(** [(issue_d - earliest_cr_line).dt.days / 365.25] on one row. *)
Definition credit_age_cell (issue_d earliest : option Date) : option Q :=
  match issue_d, earliest with
  | Some i, Some e =>
      Some (inject_Z (days_from_civil i - days_from_civil e) / (1461 # 4))%Q
  | _, _ => None
  end.

(** Block 4: the age of the credit history, when both columns are dates. *)
Definition derive_credit_age (df : DataFrame) : DataFrame :=
  match get_col "earliest_cr_line" df, get_col "issue_d" df with
  | Some (DatetimeS es), Some (DatetimeS ds) =>
      let years := zip_with credit_age_cell ds es in
      let df1 := set_col "credit_age_years" (NumericS years) df in
      set_col "credit_age_category"
        (labelled
           (map (pd_cut false 0 [2#1; 5#1; 10#1; 20#1]
                   ["0-2 ans"; "2-5 ans"; "5-10 ans"; "10-20 ans"; "20+ ans"])
                years))
        df1
  | _, _ => df
  end.

Definition grade_risk_map : list (string * string) :=
  [("A", "Faible risque"); ("B", "Risque modéré"); ("C", "Risque moyen");
   ("D", "Risque élevé"); ("E", "Risque très élevé"); ("F", "Risque extrême");
   ("G", "Risque extrême")].

Fixpoint lookup (k : string) (m : list (string * string)) : option string :=
  match m with
  | [] => None
  | (k', v) :: rest => if String.eqb k' k then Some v else lookup k rest
  end.

(** [s.map(grade_risk_map)] on one cell. *)
Definition map_cell (m : list (string * string)) (x : option scalar)
  : option string :=
  match x with
  | Some (SText g) => lookup g m
  | _ => None
  end.

(** Block 5: the risk class of the grade. *)
Definition derive_risk_category (df : DataFrame) : DataFrame :=
  match get_col "grade" df with
  | Some s =>
      set_col "risk_category" (ObjectS (map (map_cell grade_risk_map) (cells_of s))) df
  | None => df
  end.

Definition mem_q (x : Q) (xs : list Q) : bool := existsb (Qeq_bool x) xs.

(** [DataTransformer._get_season]; a missing month is in none of the three
    lists and falls to the last branch. *)
Definition _get_season (month : option Q) : string :=
  match month with
  | Some m =>
      if mem_q m [12#1; 1#1; 2#1] then "Hiver"
      else if mem_q m [3#1; 4#1; 5#1] then "Printemps"
      else if mem_q m [6#1; 7#1; 8#1] then "Été"
      else "Automne"
  | None => "Automne"
  end%Q.

(** Block 6: the calendar fields of the issue date. *)
Definition derive_seasonality (df : DataFrame) : DataFrame :=
  match get_col "issue_d" df with
  | Some (DatetimeS ds) =>
      let months := map (option_map (fun d => inject_Z (month d))) ds in
      let df1 := set_col "issue_year"
                   (NumericS (map (option_map (fun d => inject_Z (year d))) ds)) df in
      let df2 := set_col "issue_month" (NumericS months) df1 in
      let df3 := set_col "issue_quarter"
                   (NumericS (map (option_map
                                     (fun d => inject_Z ((month d - 1) / 3 + 1))) ds))
                   df2 in
      set_col "issue_season" (ObjectS (map (fun m => Some (_get_season m)) months)) df3
  | _ => df
  end.

(** Block 7: interest rate brackets. *)
Definition derive_int_rate_category (df : DataFrame) : result DataFrame :=
  match get_col "int_rate" df with
  | Some s =>
      xs <- numeric_cells s ;;
      Ok (set_col "int_rate_category"
            (labelled
               (map (pd_cut false 0 [5#1; 10#1; 15#1; 20#1; 30#1]
                       ["0-5%"; "5-10%"; "10-15%"; "15-20%"; "20-30%"; "30%+"])
                    xs))
            df)
  | None => Ok df
  end.

Definition _create_derived_features (df : DataFrame) : result DataFrame :=
  let df1 := derive_labels df in
  df2 <- derive_income_category df1 ;;
  df3 <- derive_loan_to_income_ratio df2 ;;
  let df4 := derive_credit_age df3 in
  let df5 := derive_risk_category df4 in
  let df6 := derive_seasonality df5 in
  derive_int_rate_category df6.

(** ** [DataTransformer._validate_cleaned_data] *)

Inductive Status : Type := PASS | WARNING | FAIL.

(** The messages appended to [validation['issues']], by their content. *)
Inductive issue : Type :=
| EmptyFrame
| DuplicateRows (n : nat)
| TooManyMissing (n : nat)
| MissingRequired (cols : list string)
| NonPositiveIncome (n : nat).

Record Stats : Type := mkStats {
  total_rows : nat;
  total_columns : nat;
  missing_values : nat;
  duplicate_rows : nat
}.

Record ValidationReport : Type := mkReport {
  status : Status;
  issues : list issue;
  stats : Stats
}.

Definition row_at (i : nat) (df : DataFrame) : list (option scalar) :=
  map (fun cs => nth i (cells_of (snd cs)) None) df.

Definition rows_of (df : DataFrame) : list (list (option scalar)) :=
  map (fun i => row_at i df) (seq 0 (len df)).

Fixpoint row_eqb (a b : list (option scalar)) : bool :=
  match a, b with
  | [], [] => true
  | x :: a', y :: b' => cell_eqb x y && row_eqb a' b'
  | _, _ => false
  end.

(** [df.duplicated()]: a row is marked when an earlier row equals it. *)
Fixpoint duplicated (seen rows : list (list (option scalar))) : list bool :=
  match rows with
  | [] => []
  | r :: rest => existsb (row_eqb r) seen :: duplicated (r :: seen) rest
  end.

(** [df.isnull().sum().sum()]. *)
Definition total_missing (df : DataFrame) : nat :=
  fold_right (fun cs acc => (isnull_count (snd cs) + acc)%nat) O df.

(** [df.empty]. *)
Definition empty (df : DataFrame) : bool :=
  (len df =? 0)%nat || (length (columns df) =? 0)%nat.

Definition required_columns : list string :=
  ["loan_amnt"; "int_rate"; "issue_d"; "loan_status"; "is_default"].

(** [(s <= 0).sum()]: a missing cell compares false; comparing text, a
    timestamp or a category with a number is a [TypeError]. *)
Definition nonpositive_count (s : Series) : result nat :=
  match s with
  | NumericS xs =>
      Ok (length (filter (fun x => match x with
                                   | Some q => Qle_bool q 0
                                   | None => false
                                   end) xs))
  | ObjectS xs => if forallb isnull xs then Ok O else Raise TypeError
  | DatetimeS _ => Raise TypeError
  | CategoryS _ => Raise TypeError
  end.

Definition _validate_cleaned_data (df : DataFrame) : result ValidationReport :=
  let st := {| total_rows := len df;
               total_columns := length (columns df);
               missing_values := total_missing df;
               duplicate_rows := count_true (duplicated [] (rows_of df)) |} in
  let v0 := (PASS, @nil issue) in
  let v1 := if empty df then (FAIL, snd v0 ++ [EmptyFrame]) else v0 in
  let v2 := if (0 <? duplicate_rows st)%nat
            then (fst v1, snd v1 ++ [DuplicateRows (duplicate_rows st)])
            else v1 in
  let v3 := if Qlt_bool
                 (inject_Z (Z.of_nat (len df)) *
                  inject_Z (Z.of_nat (length (columns df))) * (5 # 100))%Q
                 (inject_Z (Z.of_nat (missing_values st)))
            then (fst v2, snd v2 ++ [TooManyMissing (missing_values st)])
            else v2 in
  let missing_required := filter (fun c => negb (has_col c df)) required_columns in
  let v4 := match missing_required with
            | [] => v3
            | _ :: _ => (FAIL, snd v3 ++ [MissingRequired missing_required])
            end in
  v5 <- match get_col "annual_inc" df with
        | Some s =>
            negative_income <- nonpositive_count s ;;
            Ok (if (0 <? negative_income)%nat
                then (fst v4, snd v4 ++ [NonPositiveIncome negative_income])
                else v4)
        | None => Ok v4
        end ;;
  Ok {| status := fst v5; issues := snd v5; stats := st |}.

(** ** The steps that call into pandas' parsers *)

(** The attributes of a [DataTransformer]. *)
Record DataTransformer : Type := mkTransformer {
  date_columns : list string;
  categorical_columns : list string;
  numeric_columns : list string
}.

Record Config : Type := mkConfig {
  handle_missing : bool;
  convert_dates : bool;
  create_features : bool;
  remove_outliers : bool;
  outlier_threshold : Q
}.

Definition default_config : Config :=
  {| handle_missing := true;
     convert_dates := true;
     create_features := true;
     remove_outliers := false;
     outlier_threshold := 3 |}.

Definition date_terms : list string :=
  ["date"; "d_"; "_d"; "issue"; "last_"; "next_"; "earliest"].

Definition is_date_name (col : string) : bool :=
  existsb (fun date_term => contains date_term (lower col)) date_terms.

Definition is_numeric (s : Series) : bool :=
  match s with
  | NumericS _ => true
  | _ => false
  end.

Definition is_datetime (s : Series) : bool :=
  match s with
  | DatetimeS _ => true
  | _ => false
  end.

(** [s.nunique()] of a text column. *)
Definition nunique (xs : list (option string)) : nat :=
  length (nodup string_dec (dropna_cells xs)).

(** The first loop of [_convert_data_types]: every label goes to at most
    one of the three lists. *)
Fixpoint classify (cols : list string) (df : DataFrame) (self : DataTransformer)
  : DataTransformer :=
  match cols with
  | [] => self
  | col :: rest =>
      let self' :=
        if is_date_name col
        then {| date_columns := date_columns self ++ [col];
                categorical_columns := categorical_columns self;
                numeric_columns := numeric_columns self |}
        else match get_col col df with
             | Some (NumericS _) =>
                 {| date_columns := date_columns self;
                    categorical_columns := categorical_columns self;
                    numeric_columns := numeric_columns self ++ [col] |}
             | Some (ObjectS xs) =>
                 let unique_count := nunique xs in
                 if (unique_count <? 50)%nat &&
                    Qlt_bool (inject_Z (Z.of_nat unique_count))
                             (inject_Z (Z.of_nat (len df)) * (1 # 10))%Q
                 then {| date_columns := date_columns self;
                         categorical_columns := categorical_columns self ++ [col];
                         numeric_columns := numeric_columns self |}
                 else self
             | _ => self
             end in
      classify rest df self'
  end.

Definition remove_percent (s : string) : string :=
  let fix go (s : string) : string :=
    match s with
    | EmptyString => EmptyString
    | String c t => if Ascii.eqb c "%"%char then go t else String c (go t)
    end in
  go s.

(** [s.astype('category')]. *)
Definition astype_category (s : Series) : Series := CategoryS (cells_of s).

Section Pandas.

(** [str(v)] of a number or of a timestamp. *)
Variable py_str : scalar -> string.
(** [pd.to_numeric(text, errors='coerce')] on one value. *)
Variable to_numeric : string -> option Q.
(** [pd.to_datetime(v, format=..., errors='coerce')] on one value that is
    neither missing nor a timestamp; no format means that pandas infers it. *)
Variable parse_datetime : option string -> scalar -> option Date.
(** The square root of floating-point arithmetic. *)
Variable sqrtQ : Q -> Q.
(** [str(v)] of the missing cell of a text column at a position: [nan] for
    NaN, [None] for the object [None]. *)
Variable na_repr : string -> nat -> string.

(** [s.astype(str)]. *)
Definition astype_str (s : Series) : list string :=
  match s with
  | DatetimeS xs =>
      map (fun x => match x with
                    | Some d => py_str (SDate d)
                    | None => "NaT"
                    end) xs
  | _ =>
      map (fun x => match x with
                    | Some (SText t) => t
                    | Some v => py_str v
                    | None => "nan"
                    end) (cells_of s)
  end.

(** [pd.to_numeric(s.astype(str).str.replace('%', ''), errors='coerce')]. *)
Definition percent_to_numeric (s : Series) : Series :=
  NumericS (map (fun t => to_numeric (remove_percent t)) (astype_str s)).

Definition convert_known (col : string) (df : DataFrame) : DataFrame :=
  match get_col col df with
  | Some s => set_col col (percent_to_numeric s) df
  | None => df
  end.

Definition _convert_data_types (df : DataFrame) : DataTransformer * DataFrame :=
  let self := classify (columns df) df
                {| date_columns := []; categorical_columns := [];
                   numeric_columns := [] |} in
  let df1 := convert_known "int_rate" df in
  let df2 := convert_known "revol_util" df1 in
  let df3 := fold_left
               (fun d col =>
                  match get_col col d with
                  | Some s => set_col col (astype_category s) d
                  | None => d
                  end)
               (categorical_columns self) df2 in
  (self, df3).

Definition date_patterns : list string :=
  ["%b-%Y"; "%Y-%m-%d"; "%m/%d/%Y"; "%d-%m-%Y"].

(** [pd.to_datetime(s, format=format, errors='coerce')]: a column of
    timestamps comes back as it is, every other value is parsed and
    becomes NaT when it does not parse. *)
Definition to_datetime (format : option string) (s : Series) : Series :=
  match s with
  | DatetimeS xs => DatetimeS xs
  | _ =>
      DatetimeS (map (fun x => match x with
                               | Some v => parse_datetime format v
                               | None => None
                               end) (cells_of s))
  end.

(** [s.notna().any()]. *)
Definition any_notna (s : Series) : bool := existsb negb (null_mask s).

(** The loop over [date_patterns]: the column is overwritten by each
    attempt, and the loop stops at the first attempt that leaves a value. *)
Fixpoint try_patterns (patterns : list string) (s : Series) : Series :=
  match patterns with
  | [] => s
  | pattern :: rest =>
      let s' := to_datetime (Some pattern) s in
      if any_notna s' then s' else try_patterns rest s'
  end.

Definition convert_date_column (s : Series) : Series :=
  let s1 := try_patterns date_patterns s in
  if is_datetime s1 then s1 else to_datetime None s1.

Definition _convert_date_columns (self : DataTransformer) (df : DataFrame)
  : DataFrame :=
  fold_left
    (fun d col =>
       match get_col col d with
       | Some s => set_col col (convert_date_column s) d
       | None => d
       end)
    (date_columns self) df.

(** [s.mean()] and [s.std()] skip the missing cells; the standard
    deviation divides by [n - 1] and is NaN below two values. *)
Definition sum_q (xs : list Q) : Q := fold_right Qplus 0%Q xs.

Definition mean (cells : list (option Q)) : option Q :=
  match dropna_cells cells with
  | [] => None
  | v => Some (sum_q v / inject_Z (Z.of_nat (length v)))%Q
  end.

Definition std (cells : list (option Q)) : option Q :=
  let v := dropna_cells cells in
  match mean cells with
  | Some m =>
      if (length v <=? 1)%nat then None
      else Some (sqrtQ (sum_q (map (fun x => (x - m) * (x - m)) v)
                        / inject_Z (Z.of_nat (length v) - 1)))%Q
  | None => None
  end.

Definition bound_of (m s : option Q) (f : Q -> Q -> Q) : option Q :=
  match m, s with
  | Some a, Some b => Some (f a b)
  | _, _ => None
  end.

(** A comparison with NaN on either side is false. *)
Definition lt_cell (a b : option Q) : bool :=
  match a, b with
  | Some x, Some y => Qlt_bool x y
  | _, _ => false
  end.

(** [np.where(mask, v, xs)]. *)
Definition np_where (mask : list bool) (v : option Q) (xs : list (option Q))
  : list (option Q) :=
  zip_with (fun (m : bool) x => if m then v else x) mask xs.

Definition winsorize (threshold : Q) (xs : list (option Q)) : list (option Q) :=
  let lower_bound := bound_of (mean xs) (std xs) (fun m s => m - threshold * s)%Q in
  let upper_bound := bound_of (mean xs) (std xs) (fun m s => m + threshold * s)%Q in
  let outliers := map (fun x => lt_cell x lower_bound || lt_cell upper_bound x) xs in
  if (0 <? count_true outliers)%nat
  then
    let xs1 := np_where (map (fun x => lt_cell x lower_bound) xs) lower_bound xs in
    np_where (map (fun x => lt_cell upper_bound x) xs1) upper_bound xs1
  else xs.

Fixpoint outliers_loop (cols : list string) (threshold : Q) (df : DataFrame)
  : result DataFrame :=
  match cols with
  | [] => Ok df
  | col :: rest =>
      if mem col ["is_default"; "is_fully_paid"]
      then outliers_loop rest threshold df
      else
        match get_col col df with
        | Some s =>
            xs <- numeric_cells s ;;
            outliers_loop rest threshold
              (set_col col (NumericS (winsorize threshold xs)) df)
        | None => Raise (KeyError col)
        end
  end.

Definition _handle_outliers (self : DataTransformer) (df : DataFrame)
  (threshold : Q) : result DataFrame :=
  outliers_loop (numeric_columns self) threshold df.

(** [DataTransformer.clean_loan_data]; no configuration means the default
    one. The validation report is computed and logged, the frame is what
    the method returns. *)
Definition clean_loan_data (df : DataFrame) (config : option Config)
  : result DataFrame :=
  let config := match config with
                | Some c => c
                | None => default_config
                end in
  let df1 := _standardize_column_names df in
  df2 <- (if handle_missing config then _handle_missing_values df1 else Ok df1) ;;
  let '(self, df3) := _convert_data_types df2 in
  let df4 := if convert_dates config then _convert_date_columns self df3 else df3 in
  df5 <- _clean_text_columns na_repr df4 ;;
  df6 <- (if create_features config then _create_derived_features df5 else Ok df5) ;;
  df7 <- (if remove_outliers config
          then _handle_outliers self df6 (outlier_threshold config)
          else Ok df6) ;;
  validation_report <- _validate_cleaned_data df7 ;;
  Ok df7.

(** The steps 1 to 7 of [clean_loan_data], which build the frame that the
    method validates and returns. *)
Definition cleaning_steps (df : DataFrame) (config : option Config)
  : result DataFrame :=
  let config := match config with
                | Some c => c
                | None => default_config
                end in
  let df1 := _standardize_column_names df in
  df2 <- (if handle_missing config then _handle_missing_values df1 else Ok df1) ;;
  let '(self, df3) := _convert_data_types df2 in
  let df4 := if convert_dates config then _convert_date_columns self df3 else df3 in
  df5 <- _clean_text_columns na_repr df4 ;;
  df6 <- (if create_features config then _create_derived_features df5 else Ok df5) ;;
  if remove_outliers config
  then _handle_outliers self df6 (outlier_threshold config)
  else Ok df6.

End Pandas.

(* ------------------------------------------------------------------ *)
(** ** The SQLite loader ([src/etl/load_sqlite.py]) *)

(** A Python value as the loader tells values apart: an instance of
    [int] or [np.integer], an instance of [float] or [np.floating], a
    [str], or anything else, kept with its [str()]. *)
Inductive pyval : Type :=
| PyInt (z : Z)
| PyFloat (q : Q)
| PyStr (s : string)
| PyOther (repr : string).

(** A cell of the prepared frame; [None] is [None] or NaN. *)
Definition cell : Type := option pyval.

Definition row : Type := list cell.

(** The prepared frame: its columns in order, each under its label. *)
Definition Prepared : Type := list (string * list cell).

Inductive sql_type : Type := INTEGER | REAL | DATE | TEXT.

Definition schema : Type := list (string * sql_type).

(** [isinstance(v, str) and len(v) == 10 and v[4] == '-']. *)
Definition looks_like_date (s : string) : bool :=
  (String.length s =? 10)%nat &&
  match char_at 4 s with
  | Some c => Ascii.eqb c "-"%char
  | None => false
  end.

(** The type chosen for one column from [df[col].dropna()]. *)
Definition sql_type_of (values : list cell) : sql_type :=
  match dropna_cells values with
  | sample_value :: _ =>
      match sample_value with
      | PyInt _ => INTEGER
      | PyFloat _ => REAL
      | PyStr s => if looks_like_date s then DATE else TEXT
      | PyOther _ => TEXT
      end
  | [] => TEXT
  end.

Definition columns_def (df : Prepared) : schema :=
  map (fun cs => (fst cs, sql_type_of (snd cs))) df.

(** The specification's wording of the date test, for comparison with
    [looks_like_date]: ten characters, digits around dashes at the indexes
    4 and 7 (YYYY-MM-DD). *)
Definition matches_yyyy_mm_dd (s : string) : bool :=
  match list_ascii_of_string s with
  | [y1; y2; y3; y4; d1; m1; m2; d2; a1; a2] =>
      is_digit y1 && is_digit y2 && is_digit y3 && is_digit y4 &&
      Ascii.eqb d1 "-"%char && is_digit m1 && is_digit m2 &&
      Ascii.eqb d2 "-"%char && is_digit a1 && is_digit a2
  | _ => false
  end.

(** The column type as the specification words it. *)
Definition spec_sql_type (values : list cell) : sql_type :=
  match dropna_cells values with
  | PyInt _ :: _ => INTEGER
  | PyFloat _ :: _ => REAL
  | PyStr s :: _ => if matches_yyyy_mm_dd s then DATE else TEXT
  | _ => TEXT
  end.

(** The calls made on the connection, in order. *)
Inductive event : Type :=
| EvDropTable
| EvCreateTable (s : schema)
| EvExecutemany (batch : list row)
| EvCommit
| EvRollback.

(** The connection and the one table the loader writes: its schema when
    it exists, the rows of committed transactions, the rows of the open
    transaction, and the journal of the calls. *)
Record Conn : Type := mkConn {
  table : option schema;
  committed : list row;
  pending : list row;
  journal : list event
}.

Definition log (e : event) (c : Conn) : Conn :=
  {| table := table c; committed := committed c; pending := pending c;
     journal := journal c ++ [e] |}.

Definition commit (c : Conn) : Conn :=
  log EvCommit
    {| table := table c; committed := committed c ++ pending c; pending := [];
       journal := journal c |}.

Definition rollback (c : Conn) : Conn :=
  log EvRollback
    {| table := table c; committed := committed c; pending := [];
       journal := journal c |}.

(** [len(df)] of the prepared frame. *)
Definition prepared_len (df : Prepared) : nat :=
  match df with
  | [] => O
  | (_, xs) :: _ => length xs
  end.

(** The dtype of a column of the prepared frame is read off its cells, as
    pandas infers it: [int64] when every cell is an integer, [float64] when
    every cell is a float or NaN, [object] otherwise. *)
Definition is_int_column (xs : list cell) : bool :=
  forallb (fun x => match x with
                    | Some (PyInt _) => true
                    | _ => false
                    end) xs.

Definition is_float_column (xs : list cell) : bool :=
  forallb (fun x => match x with
                    | None => true
                    | Some (PyFloat _) => true
                    | _ => false
                    end) xs.

(** [DataFrame.iterrows] builds each row as one Series: when every column
    is numeric and one of them is a float column, the row is a [float64]
    Series and the integers of the other columns come out as floats. *)
Definition upcasts (df : Prepared) : bool :=
  forallb (fun cs => is_int_column (snd cs) || is_float_column (snd cs)) df &&
  existsb (fun cs => negb (is_int_column (snd cs))) df.

Definition upcast (x : cell) : cell :=
  match x with
  | Some (PyInt z) => Some (PyFloat (inject_Z z))
  | _ => x
  end.

Definition iterrows (df : Prepared) : list row :=
  map (fun i => map (fun cs => let x := nth i (snd cs) None in
                               if upcasts df then upcast x else x) df)
      (seq 0 (prepared_len df)).

Definition null_tokens : list string := [""; "nan"; "NaN"; "NaT"; "None"; "null"].

(** The conversion of one value before it is bound to the statement. *)
Definition convert_value (val : cell) : cell :=
  match val with
  | None => None
  | Some (PyInt z) => Some (PyInt z)
  | Some (PyFloat q) => Some (PyFloat q)
  | Some (PyStr s) =>
      let clean_val := strip s in
      if mem clean_val null_tokens then None else Some (PyStr clean_val)
  | Some (PyOther repr) => Some (PyStr repr)
  end.

(** [range(0, stop, step)]: empty for a negative step, [ceil(stop / step)]
    multiples of a positive one. *)
Definition py_range (stop step : Z) : list Z :=
  if 0 <? step
  then map (fun k => Z.of_nat k * step) (seq 0 (Z.to_nat ((stop + step - 1) / step)))
  else [].

(** [data[i:j]] for [0 <= i]. *)
Definition slice {A : Type} (data : list A) (i j : Z) : list A :=
  firstn (Z.to_nat (j - i)) (skipn (Z.to_nat i) data).

(** The batches the loop of [_insert_data_simple] goes through. *)
Definition batches_of (data : list row) (batch_size : Z) : list (list row) :=
  map (fun i => slice data i (i + batch_size))
      (py_range (Z.of_nat (length data)) batch_size).

Section SQLite.

(** What the engine accepts: a [CREATE TABLE] with the given columns, and
    the insertion of one row. *)
Variable accepts_schema : schema -> bool.
Variable accepts_row : row -> bool.

(** [SQLiteDataLoader._create_table_simple]: drop, create with one type per
    column, commit; a refused statement is re-raised. *)
Definition _create_table_simple (df : Prepared) (c : Conn) : Conn * result unit :=
  let c1 := log EvDropTable
              {| table := None; committed := []; pending := pending c;
                 journal := journal c |} in
  let c2 := log (EvCreateTable (columns_def df)) c1 in
  if accepts_schema (columns_def df)
  then (commit {| table := Some (columns_def df); committed := committed c2;
                  pending := pending c2; journal := journal c2 |}, Ok tt)
  else (c2, Raise SqliteError).

(** The rows of [cursor.executemany]: each goes into the open transaction
    until one is refused. *)
Fixpoint insert_rows (batch : list row) (c : Conn) : Conn * result unit :=
  match batch with
  | [] => (c, Ok tt)
  | r :: rest =>
      if accepts_row r
      then insert_rows rest
             {| table := table c; committed := committed c;
                pending := pending c ++ [r]; journal := journal c |}
      else (c, Raise SqliteError)
  end.

Definition executemany (batch : list row) (c : Conn) : Conn * result unit :=
  let c1 := log (EvExecutemany batch) c in
  match table c1 with
  | Some _ => insert_rows batch c1
  | None => (c1, Raise SqliteError)
  end.

(** The loop over the batches. [batch_num] is assigned after the commit of
    a batch; the handler of a refused batch reads it for its message
    before it rolls back, so a refusal of the first batch leaves through
    [UnboundLocalError] to the outer handler. *)
Fixpoint insert_batches (starts : list Z) (data : list row) (batch_size : Z)
  (batch_num : option Z) (c : Conn) : Conn * result bool :=
  match starts with
  | [] => (c, Ok true)
  | i :: rest =>
      let batch := slice data i (i + batch_size) in
      match executemany batch c with
      | (c1, Ok _) =>
          insert_batches rest data batch_size (Some (i / batch_size + 1)) (commit c1)
      | (c1, Raise _) =>
          match batch_num with
          | Some _ => (rollback c1, Ok false)
          | None => (c1, Raise (UnboundLocalError "batch_num"))
          end
      end
  end.

Definition _insert_data_simple (df : Prepared) (batch_size : Z) (c : Conn)
  : Conn * bool :=
  let data : list row := map (map convert_value) (iterrows df) in
  if batch_size =? 0
  then (rollback c, false)
  else
    match insert_batches (py_range (Z.of_nat (length data)) batch_size)
            data batch_size None c with
    | (c1, Ok success) => (c1, success)
    | (c1, Raise _) => (rollback c1, false)
    end.

End SQLite.

(** *** [SQLiteDataLoader._validate_load] *)

Inductive load_issue : Type :=
| RowCountMismatch (actual expected : Z)
| NullValues (col : string) (null_count : nat)
| ValidationError.

Record LoadValidation : Type := mkLoadValidation {
  success : bool;
  load_issues : list load_issue;
  actual_rows : Z;
  expected_rows : Z
}.

Definition load_critical_columns : list string :=
  ["loan_amnt"; "int_rate"; "loan_status"].

Fixpoint index_of (col : string) (names : list string) : option nat :=
  match names with
  | [] => None
  | n :: rest =>
      if String.eqb n col then Some O else option_map S (index_of col rest)
  end.

(** [SELECT COUNT( * ) FROM table]: the rows the connection sees. *)
Definition select_count (c : Conn) : result Z :=
  match table c with
  | Some _ => Ok (Z.of_nat (length (committed c ++ pending c)))
  | None => Raise SqliteError
  end.

(** [SELECT COUNT( * ) FROM table WHERE col IS NULL]. *)
Definition select_null_count (col : string) (c : Conn) : result nat :=
  match table c with
  | Some sch =>
      match index_of col (map fst sch) with
      | Some i =>
          Ok (length (filter (fun r : row => isnull (nth i r None))
                        (committed c ++ pending c)))
      | None => Raise SqliteError
      end
  | None => Raise SqliteError
  end.

(** [abs(actual_rows - expected_rows) > expected_rows * 0.01]. *)
Definition beyond_tolerance (actual expected : Z) : bool :=
  Qlt_bool (inject_Z expected * (1 # 100))%Q (inject_Z (Z.abs (actual - expected))).

Definition _validate_load (c : Conn) (expected_rows : Z) : LoadValidation :=
  match select_count c with
  | Ok actual_rows =>
      let mismatch := beyond_tolerance actual_rows expected_rows in
      let issues0 := if mismatch
                     then [RowCountMismatch actual_rows expected_rows]
                     else [] in
      let issues1 :=
        fold_left
          (fun acc col =>
             match select_null_count col c with
             | Ok null_count =>
                 if (0 <? null_count)%nat then acc ++ [NullValues col null_count]
                 else acc
             | Raise _ => acc
             end)
          load_critical_columns issues0 in
      {| success := negb mismatch; load_issues := issues1;
         actual_rows := actual_rows; expected_rows := expected_rows |}
  | Raise _ =>
      {| success := false; load_issues := [ValidationError];
         actual_rows := 0; expected_rows := expected_rows |}
  end.

(* ------------------------------------------------------------------ *)
(** ** The loader the pipeline calls ([src/etl/load_ultra_simple.py]) *)

Definition priority_cols : list string :=
  ["loan_amnt"; "int_rate"; "term"; "grade"; "issue_d";
   "loan_status"; "annual_inc"; "dti"; "home_ownership";
   "emp_length"; "purpose"; "addr_state"; "delinq_2yrs";
   "revol_util"; "total_pymnt"; "is_default"; "is_fully_paid"].

(** [df[labels]]: for each label in turn, the columns under it. *)
Definition select_columns (labels : list string) (df : DataFrame) : DataFrame :=
  flat_map (fun l => filter (fun cs => String.eqb (fst cs) l) df) labels.

(** The labels kept when the frame has more than 20 columns. *)
Definition cols_to_keep (df : DataFrame) : list string :=
  let kept := filter (fun col => mem col (columns df)) priority_cols in
  if (length kept <? 15)%nat
  then
    let other_cols := filter (fun c => negb (mem c kept)) (columns df) in
    kept ++ firstn (20 - length kept) other_cols
  else kept.

(** The frame handed to [to_sql]. *)
Definition frame_to_store (df : DataFrame) : DataFrame :=
  if (20 <? length (columns df))%nat
  then select_columns (cols_to_keep df) df
  else df.

Section Store.

(** [df.to_sql(..., if_exists='replace')] followed by the index creation:
    whether the write goes through. *)
Variable to_sql : DataFrame -> result unit.

(** The table the call leaves in the store when the write goes through,
    and the boolean it returns. *)
Definition load_to_sqlite_ultra_simple (df : DataFrame) : option DataFrame * bool :=
  let df' := frame_to_store df in
  match to_sql df' with
  | Ok _ => (Some df', true)
  | Raise _ => (None, false)
  end.

(** [run_simple_load]: the views are created after a successful load and
    do not change the table. *)
Definition run_simple_load (df : DataFrame) : option DataFrame * bool :=
  load_to_sqlite_ultra_simple df.

End Store.

(** ** The column selection of the pipeline ([src/etl/pipeline.py]) *)

Definition essential_columns : list string := priority_cols.

Definition additional_columns : list string :=
  ["funded_amnt"; "installment"; "sub_grade"; "verification_status";
   "earliest_cr_line"; "inq_last_6mths"; "open_acc"; "pub_rec";
   "revol_bal"; "total_acc"; "total_rec_prncp"; "total_rec_int";
   "last_pymnt_d"; "last_pymnt_amnt"].

(** The loop that appends additional columns while the selection is below
    the limit. *)
Fixpoint add_until (max_cols : Z) (additional selected : list string) : list string :=
  match additional with
  | [] => selected
  | col :: rest =>
      if Z.of_nat (length selected) <? max_cols
      then add_until max_cols rest (selected ++ [col])
      else selected
  end.

Definition _select_columns (max_cols : Z) (df : DataFrame) : DataFrame :=
  let available_essential := filter (fun col => mem col (columns df)) essential_columns in
  let available_additional := filter (fun col => mem col (columns df)) additional_columns in
  select_columns (add_until max_cols available_additional available_essential) df.

(* ------------------------------------------------------------------ *)
(** ** [SQLiteDataLoader.load_to_sqlite] ([src/etl/load_sqlite.py]) *)

Section Loader.

Variable accepts_schema : schema -> bool.
Variable accepts_row : row -> bool.

(** [SQLiteDataLoader._create_indexes]: the four [CREATE INDEX IF NOT
    EXISTS] statements change no row and a refused one is only logged;
    then the connection commits. *)
Definition _create_indexes (c : Conn) : Conn := commit c.

(** [SQLiteDataLoader.load_to_sqlite] from the prepared frame on: the
    table is created, the rows are inserted, and after a successful
    insertion the indexes are created and the load is validated. The
    validation report is logged and does not enter the returned boolean;
    an exception of the table creation is caught and gives [False]. *)
Definition load_to_sqlite (df_prepared : Prepared) (batch_size : Z) (c : Conn)
  : Conn * option LoadValidation * bool :=
  let total_rows := Z.of_nat (prepared_len df_prepared) in
  match _create_table_simple accepts_schema df_prepared c with
  | (c1, Raise _) => (c1, None, false)
  | (c1, Ok _) =>
      match _insert_data_simple accepts_row df_prepared batch_size c1 with
      | (c2, true) =>
          let c3 := _create_indexes c2 in
          (c3, Some (_validate_load c3 total_rows), true)
      | (c2, false) => (c2, None, false)
      end
  end.

End Loader.

(** ** [LoanETLPipeline.transform] ([src/etl/pipeline.py]) *)

Section Transform.

Variable py_str : scalar -> string.
Variable to_numeric : string -> option Q.
Variable parse_datetime : option string -> scalar -> option Date.
Variable sqrtQ : Q -> Q.
Variable na_repr : string -> nat -> string.

(** The cleaning with the default configuration, then the column
    selection; an exception of the cleaning is logged and raised again.
    The copy written to [cleaned_data.csv] is the returned frame. *)
Definition transform (max_cols : Z) (df_raw : DataFrame) : result DataFrame :=
  df_clean <- clean_loan_data py_str to_numeric parse_datetime sqrtQ na_repr
                df_raw None ;;
  Ok (_select_columns max_cols df_clean).

End Transform.

(** The columns that [_create_derived_features] adds apart from the two
    target labels. *)
Definition derived_feature_columns : list string :=
  ["income_category"; "loan_to_income_ratio"; "credit_age_years";
   "credit_age_category"; "risk_category"; "issue_year"; "issue_month";
   "issue_quarter"; "issue_season"; "int_rate_category"].


(** ** Characters of a label, and what the text cleaning makes of a column *)

(** Whether every character of a text passes a test. *)
Fixpoint all_chars (p : ascii -> bool) (s : string) : bool :=
  match s with
  | EmptyString => true
  | String c t => p c && all_chars p t
  end.

(** A character of [\w] that is no upper-case letter. *)
Definition label_char (c : ascii) : bool := is_word c && negb (is_upper c).

(** What the loop of [_clean_text_columns] makes of one column when it
    goes through. *)
Definition cleaned_column (na_repr : string -> nat -> string)
  (cs : string * Series) : string * Series :=
  match snd cs with
  | ObjectS xs =>
      match clean_text_series (na_repr (fst cs)) (fst cs) xs with
      | Ok s => (fst cs, s)
      | Raise _ => cs
      end
  | _ => cs
  end.

(** Whether the loop stops on a column: a text column put in upper case
    that has rows and in which the replacement leaves no text. *)
Definition left_without_text (na_repr : string -> nat -> string)
  (cs : string * Series) : bool :=
  match snd cs with
  | ObjectS xs =>
      mem (fst cs) upper_columns &&
      (negb (length xs =? 0)%nat &&
       forallb isnull (clean_text_cells (na_repr (fst cs)) 0 xs))
  | _ => false
  end.
(* ------------------------------------------------------------------ *)
(** ** Example inputs *)

Definition blank_column (label : string) : string * Series := (label, ObjectS []).

(** A frame with the 17 essential and the 14 additional columns, and what
    the pipeline selects from it with [max_columns = 25]. *)
Definition wide_frame : DataFrame :=
  map blank_column (("id" :: essential_columns) ++ additional_columns).

Definition pipeline_frame : DataFrame := _select_columns 25 wide_frame.

(** A store whose writes go through. *)
Definition to_sql_ok (df : DataFrame) : result unit := Ok tt.

(** Two raw loans without missing value in the critical columns: the
    issue date of the second is written in another format than the first,
    its status is the text [na]; one employer title is missing. *)
Definition two_raw_loans : DataFrame :=
  [("loan_amnt", NumericS [Some (10000 # 1); Some (20000 # 1)]);
   ("issue_d", ObjectS [Some "Dec-2018"; Some "2018-12-01"]);
   ("loan_status", ObjectS [Some "Fully Paid"; Some "na"]);
   ("emp_title", ObjectS [Some "Engineer"; None])].

(** Stand-ins for the parsers of pandas in the examples: the date parser
    knows the text [Dec-2018] under the format [%b-%Y], no text is a
    number, the square root is not taken. *)
Definition example_parse_datetime (format : option string) (v : scalar)
  : option Date :=
  match format, v with
  | Some "%b-%Y", SText "Dec-2018" => Some (mkDate 2018 12 1)
  | _, _ => None
  end.

Definition example_py_str (v : scalar) : string := "".

(** Every missing cell of a text column is NaN and prints as [nan]. *)
Definition example_na_repr (col : string) (i : nat) : string := "nan".

Definition example_to_numeric (s : string) : option Q := None.
Definition example_sqrt (q : Q) : Q := q.

(** Four loans with missing values: a quarter of the amounts and of
    the statuses, three quarters of the rates and of the incomes. *)
Definition four_raw_loans : DataFrame :=
  [("loan_amnt", NumericS [Some (1000 # 1); None; Some (3000 # 1); Some (5000 # 1)]);
   ("issue_d", ObjectS [Some "Dec-2018"; Some "Jan-2019"; Some "Feb-2019";
                        Some "Mar-2019"]);
   ("loan_status", ObjectS [Some "Current"; Some "Current"; None; Some "Late"]);
   ("int_rate", NumericS [None; None; Some (10 # 1); None]);
   ("annual_inc", NumericS [None; None; Some (50000 # 1); None])].

Definition four_raw_loans_imputed : DataFrame :=
  [("loan_amnt",
    NumericS [Some (1000 # 1); Some (3000 # 1); Some (3000 # 1); Some (5000 # 1)]);
   ("issue_d", ObjectS [Some "Dec-2018"; Some "Jan-2019"; Some "Feb-2019";
                        Some "Mar-2019"]);
   ("loan_status",
    ObjectS [Some "Current"; Some "Current"; Some "Current"; Some "Late"]);
   ("int_rate", NumericS [Some 0%Q; Some 0%Q; Some (10 # 1); Some 0%Q]);
   ("annual_inc",
    NumericS [Some (50000 # 1); Some (50000 # 1); Some (50000 # 1);
              Some (50000 # 1)])].

(** Two loans whose income, employer title and last payment date are
    empty columns. *)
Definition loans_without_income : DataFrame :=
  [("loan_amnt", NumericS [Some (1000 # 1); Some (2000 # 1)]);
   ("issue_d", ObjectS [Some "Dec-2018"; Some "Jan-2019"]);
   ("loan_status", ObjectS [Some "Current"; Some "Late"]);
   ("annual_inc", NumericS [None; None]);
   ("emp_title", ObjectS [None; None]);
   ("last_pymnt_d", DatetimeS [None; None])].

(** A cleaned frame with the required columns and nothing but quality
    issues: its two rows are equal, the incomes are zero and one column
    out of seven is empty. *)
Definition twin_loans : DataFrame :=
  [("loan_amnt", NumericS [Some (1000 # 1); Some (1000 # 1)]);
   ("int_rate", NumericS [Some (10 # 1); Some (10 # 1)]);
   ("issue_d", DatetimeS [Some (mkDate 2018 12 1); Some (mkDate 2018 12 1)]);
   ("loan_status", ObjectS [Some "CURRENT"; Some "CURRENT"]);
   ("is_default", NumericS [Some 0%Q; Some 0%Q]);
   ("annual_inc", NumericS [Some 0%Q; Some 0%Q]);
   ("emp_title", ObjectS [None; None])].

(** Four loans after cleaning: a fully paid one with no income, a charged
    off one, a current one without amount and one without status. *)
Definition four_loans : DataFrame :=
  [("loan_status",
    ObjectS [Some "FULLY PAID"; Some "CHARGED OFF"; Some "CURRENT"; None]);
   ("loan_amnt", NumericS [Some (5000 # 1); Some (10000 # 1); None; Some (2000 # 1)]);
   ("annual_inc", NumericS [Some 0%Q; Some (50000 # 1); Some (40000 # 1); None])].

(** Five loans to load in batches of two, an engine that refuses the
    third row, and the connection after the table was created. *)
Definition five_loans : Prepared :=
  [("loan_amnt",
    [Some (PyInt 1000); Some (PyInt 2000); Some (PyInt 3000); Some (PyInt 4000);
     Some (PyInt 5000)])].

Definition refuses_3000 (r : row) : bool :=
  match r with
  | [Some (PyInt z)] => negb (z =? 3000)
  | _ => true
  end.

Definition fresh_table : Conn :=
  {| table := Some [("loan_amnt", INTEGER)]; committed := []; pending := [];
     journal := [] |}.

(** The connection with the first batch of [five_loans] committed. *)
Definition after_first_batch : Conn :=
  {| table := Some [("loan_amnt", INTEGER)];
     committed := [[Some (PyInt 1000)]; [Some (PyInt 2000)]];
     pending := [];
     journal := [] |}.

(** Two loans without any missing value. *)
Definition complete_loans : DataFrame :=
  [("loan_amnt", NumericS [Some (1000 # 1); Some (2000 # 1)]);
   ("issue_d", ObjectS [Some "Dec-2018"; Some "Jan-2019"]);
   ("loan_status", ObjectS [Some "Current"; Some "Fully Paid"])].

(** Two loans with a missing rate and no status column. *)
Definition loans_without_status : DataFrame :=
  [("loan_amnt", NumericS [Some (1000 # 1); Some (2000 # 1)]);
   ("issue_d", ObjectS [Some "Dec-2018"; Some "Jan-2019"]);
   ("int_rate", NumericS [Some (10 # 1); None])].

(** Two loans whose funded amount is a number and whose issue date is text. *)
Definition funded_loans : DataFrame :=
  [("funded_amnt", NumericS [Some (1000 # 1); Some (2000 # 1)]);
   ("issue_d", ObjectS [Some "Dec-2018"; Some "2018-12-01"])].

(** A connection whose table holds one row of an earlier load. *)
Definition used_table : Conn :=
  {| table := Some [("loan_amnt", INTEGER)];
     committed := [[Some (PyInt 7)]];
     pending := [];
     journal := [] |}.

Definition accepts_all_schemas (s : schema) : bool := true.
Definition refuses_all_schemas (s : schema) : bool := false.
Definition accepts_all_rows (r : row) : bool := true.


(** Three loans issued in January, in an unknown month and in July; the
    incomes are zero, negative and missing. *)
Definition dated_loans : DataFrame :=
  [("issue_d", DatetimeS [Some (mkDate 2019 1 1); None; Some (mkDate 2019 7 1)]);
   ("annual_inc", NumericS [Some 0%Q; Some (-(5 # 1))%Q; None])].

(** A status, a purpose and an amount to clean; the missing status holds
    the object [None], a grade column has no text to keep. *)
Definition none_in_status (col : string) (i : nat) : string :=
  if String.eqb col "loan_status" then "None" else "nan".

Definition blank_grades : DataFrame :=
  [("grade", ObjectS [None; Some " "; Some "null"])].

Definition status_column : DataFrame :=
  [("loan_status", ObjectS [Some " Fully Paid "; Some "na"; None]);
   ("purpose", ObjectS [Some "car "; Some "NA"; Some ""]);
   ("loan_amnt", NumericS [Some (1000 # 1); None; Some (3000 # 1)])].

(** A transformer whose numeric columns are the amount and the default
    label, and five amounts of which the last is far from the others. *)
Definition amount_transformer : DataTransformer :=
  {| date_columns := []; categorical_columns := [];
     numeric_columns := ["loan_amnt"; "is_default"] |}.

Definition five_amounts : DataFrame :=
  [("loan_amnt",
    NumericS [Some (1000 # 1); Some (1000 # 1); None; Some (1000 # 1);
              Some (9000 # 1)]);
   ("is_default", NumericS [Some 0%Q; Some 0%Q; Some 0%Q; Some 0%Q; Some 1%Q]);
   ("grade", ObjectS [Some "A"; Some "A"; Some "B"; None; Some "G"])].

(** Four rates: zero, ten and a half, missing, thirty-five. *)
Definition rated_loans : DataFrame :=
  [("int_rate", NumericS [Some 0%Q; Some (21 # 2); None; Some (35 # 1)])].

(** Rates written as percentages, and a stand-in for [pd.to_numeric] that
    knows the text [10.5]. *)
Definition percent_loans : DataFrame :=
  [("int_rate", ObjectS [Some "10.5%"; Some "n/a"; None]);
   ("loan_amnt", NumericS [Some (1000 # 1); Some (2000 # 1); Some (3000 # 1)])].

Definition percent_to_numeric_example (s : string) : option Q :=
  if String.eqb s "10.5" then Some (21 # 2) else None.



(** A connection without table. *)
Definition no_table : Conn :=
  {| table := None; committed := []; pending := []; journal := [] |}.

(* ================================================================== *)
(** * Part II. Properties *)
(* ================================================================== *)

(** ** Columns of a frame *)

Lemma mem_true_iff (x : string) (xs : list string) :
  mem x xs = true <-> In x xs.
Proof.
  unfold mem. rewrite existsb_exists. split.
  - intros (y & Hy & Heq). apply String.eqb_eq in Heq. now subst.
  - intros H. exists x. split; [assumption | apply String.eqb_refl].
Qed.

Lemma mem_false_iff (x : string) (xs : list string) :
  mem x xs = false <-> ~ In x xs.
Proof.
  rewrite <- mem_true_iff. destruct (mem x xs); split; congruence.
Qed.

Lemma distinct_NoDup (xs : list string) : distinct xs = true -> NoDup xs.
Proof.
  induction xs as [| x t IH]; simpl; intros H; constructor.
  - apply andb_prop in H as [H _]. apply mem_false_iff.
    now destruct (mem x t).
  - apply andb_prop in H as [_ H]. now apply IH.
Qed.

Lemma has_col_get_col (c : string) (df : DataFrame) :
  has_col c df = match get_col c df with Some _ => true | None => false end.
Proof.
  unfold has_col, columns, mem.
  induction df as [| [c0 s0] df IH]; simpl; [reflexivity |].
  rewrite (String.eqb_sym c c0).
  destruct (String.eqb c0 c); simpl; [reflexivity | exact IH].
Qed.

Lemma get_col_In (c : string) (s : Series) (df : DataFrame) :
  get_col c df = Some s -> In (c, s) df.
Proof.
  induction df as [| [c0 s0] df IH]; simpl; [discriminate |].
  destruct (String.eqb c0 c) eqn:E.
  - apply String.eqb_eq in E. intros [= ->]. subst. now left.
  - intros H. right. now apply IH.
Qed.

Lemma In_get_col (c : string) (s : Series) (df : DataFrame) :
  NoDup (columns df) -> In (c, s) df -> get_col c df = Some s.
Proof.
  induction df as [| [c0 s0] df IH]; simpl; [contradiction |].
  intros Hnd [Heq | Hin].
  - inversion Heq; subst. now rewrite String.eqb_refl.
  - inversion Hnd as [| ? ? Hnotin Hnd']; subst.
    destruct (String.eqb c0 c) eqn:E.
    + apply String.eqb_eq in E. subst. exfalso. apply Hnotin.
      unfold columns. change c with (fst (c, s)). now apply in_map.
    + now apply IH.
Qed.

Lemma get_col_replace (c c' : string) (s : Series) (df : DataFrame) :
  get_col c (map (fun cs => if String.eqb (fst cs) c' then (fst cs, s) else cs) df) =
  if String.eqb c' c
  then match get_col c df with Some _ => Some s | None => None end
  else get_col c df.
Proof.
  induction df as [| [c0 s0] df IH]; simpl.
  - now destruct (String.eqb c' c).
  - destruct (String.eqb c0 c') eqn:E0; simpl.
    + apply String.eqb_eq in E0. subst c0.
      destruct (String.eqb c' c); [reflexivity | exact IH].
    + destruct (String.eqb c0 c) eqn:E1.
      * apply String.eqb_eq in E1. subst c0.
        rewrite String.eqb_sym in E0. now rewrite E0.
      * exact IH.
Qed.

Lemma get_col_app (c : string) (df1 df2 : DataFrame) :
  get_col c (df1 ++ df2) =
  match get_col c df1 with Some s => Some s | None => get_col c df2 end.
Proof.
  induction df1 as [| [c0 s0] df1 IH]; simpl; [reflexivity |].
  destruct (String.eqb c0 c); [reflexivity | exact IH].
Qed.

(** Reading a column after an assignment. *)
Lemma get_col_set_col (c c' : string) (s : Series) (df : DataFrame) :
  get_col c (set_col c' s df) = if String.eqb c' c then Some s else get_col c df.
Proof.
  unfold set_col. rewrite (has_col_get_col c' df).
  destruct (get_col c' df) eqn:G.
  - rewrite get_col_replace.
    destruct (String.eqb c' c) eqn:E; [| reflexivity].
    apply String.eqb_eq in E. subst. now rewrite G.
  - rewrite get_col_app. simpl.
    destruct (String.eqb c' c) eqn:E.
    + apply String.eqb_eq in E. subst. now rewrite G.
    + now destruct (get_col c df).
Qed.

Lemma columns_set_col_incl (c : string) (s : Series) (df : DataFrame) (x : string) :
  In x (columns df) -> In x (columns (set_col c s df)).
Proof.
  unfold set_col, columns. destruct (has_col c df).
  - rewrite map_map. intros H. apply in_map_iff in H as ([c0 s0] & Hf & Hin).
    apply in_map_iff. exists (c0, s0). split; [| assumption].
    simpl in *. now destruct (String.eqb c0 c).
  - rewrite map_app. intros H. apply in_or_app. now left.
Qed.

Lemma nth_map_lt {A B : Type} (f : A -> B) (l : list A) (i : nat) (d : A) (d' : B) :
  (i < length l)%nat -> nth i (map f l) d' = f (nth i l d).
Proof.
  revert i. induction l as [| a l IH]; simpl; intros i Hi; [lia |].
  destruct i; [reflexivity | apply IH; lia].
Qed.

Lemma cells_of_length (s : Series) : length (cells_of s) = series_len s.
Proof. destruct s; simpl; now rewrite ?length_map. Qed.

(** ** The derived features *)

Ltac frame_simpl :=
  repeat (rewrite get_col_set_col; simpl String.eqb; cbv iota).

Lemma derive_labels_get (df : DataFrame) (c : string) :
  String.eqb "is_default" c = false ->
  String.eqb "is_fully_paid" c = false ->
  get_col c (derive_labels df) = get_col c df.
Proof.
  intros H1 H2. unfold derive_labels.
  destruct (get_col "loan_status" df) as [s |] eqn:G; [| reflexivity].
  rewrite (get_col_set_col "loan_status"). simpl. rewrite G.
  rewrite !get_col_set_col, H1, H2. reflexivity.
Qed.

Lemma derive_labels_flags (df : DataFrame) (s : Series) :
  get_col "loan_status" df = Some s ->
  get_col "is_default" (derive_labels df) = Some (is_default_of s) /\
  get_col "is_fully_paid" (derive_labels df) = Some (is_fully_paid_of s).
Proof.
  intros H. unfold derive_labels. rewrite H.
  rewrite (get_col_set_col "loan_status"). simpl. rewrite H.
  split; frame_simpl; reflexivity.
Qed.

Lemma derive_income_category_get (df df' : DataFrame) (c : string) :
  derive_income_category df = Ok df' ->
  String.eqb "income_category" c = false ->
  get_col c df' = get_col c df.
Proof.
  unfold derive_income_category. intros H Hc.
  destruct (get_col "annual_inc" df) as [s |].
  - destruct (numeric_cells s); simpl in H; [| discriminate].
    injection H as <-. now rewrite get_col_set_col, Hc.
  - now injection H as <-.
Qed.

Lemma derive_ratio_get (df df' : DataFrame) (c : string) :
  derive_loan_to_income_ratio df = Ok df' ->
  String.eqb "loan_to_income_ratio" c = false ->
  get_col c df' = get_col c df.
Proof.
  unfold derive_loan_to_income_ratio. intros H Hc.
  destruct (get_col "loan_amnt" df) as [la |]; [| now injection H as <-].
  destruct (get_col "annual_inc" df) as [ai |]; [| now injection H as <-].
  destruct (numeric_cells la); simpl in H; [| discriminate].
  destruct (numeric_cells ai); simpl in H; [| discriminate].
  injection H as <-. now rewrite get_col_set_col, Hc.
Qed.

Lemma derive_credit_age_get (df : DataFrame) (c : string) :
  String.eqb "credit_age_years" c = false ->
  String.eqb "credit_age_category" c = false ->
  get_col c (derive_credit_age df) = get_col c df.
Proof.
  intros H1 H2. unfold derive_credit_age.
  destruct (get_col "earliest_cr_line" df) as [[] |]; try reflexivity.
  destruct (get_col "issue_d" df) as [[] |]; try reflexivity.
  now rewrite !get_col_set_col, H1, H2.
Qed.

Lemma derive_risk_category_get (df : DataFrame) (c : string) :
  String.eqb "risk_category" c = false ->
  get_col c (derive_risk_category df) = get_col c df.
Proof.
  intros H. unfold derive_risk_category.
  destruct (get_col "grade" df); [| reflexivity].
  now rewrite get_col_set_col, H.
Qed.

Lemma derive_seasonality_get (df : DataFrame) (c : string) :
  String.eqb "issue_year" c = false ->
  String.eqb "issue_month" c = false ->
  String.eqb "issue_quarter" c = false ->
  String.eqb "issue_season" c = false ->
  get_col c (derive_seasonality df) = get_col c df.
Proof.
  intros H1 H2 H3 H4. unfold derive_seasonality.
  destruct (get_col "issue_d" df) as [[] |]; try reflexivity.
  now rewrite !get_col_set_col, H1, H2, H3, H4.
Qed.

Lemma derive_int_rate_category_get (df df' : DataFrame) (c : string) :
  derive_int_rate_category df = Ok df' ->
  String.eqb "int_rate_category" c = false ->
  get_col c df' = get_col c df.
Proof.
  unfold derive_int_rate_category. intros H Hc.
  destruct (get_col "int_rate" df) as [s |].
  - destruct (numeric_cells s); simpl in H; [| discriminate].
    injection H as <-. now rewrite get_col_set_col, Hc.
  - now injection H as <-.
Qed.

(** The steps of [_create_derived_features], named. *)
Lemma create_derived_features_steps (df df' : DataFrame) :
  _create_derived_features df = Ok df' ->
  exists df2 df3,
    derive_income_category (derive_labels df) = Ok df2 /\
    derive_loan_to_income_ratio df2 = Ok df3 /\
    derive_int_rate_category
      (derive_seasonality (derive_risk_category (derive_credit_age df3))) = Ok df'.
Proof.
  unfold _create_derived_features. intros H.
  destruct (derive_income_category (derive_labels df)) as [df2 |] eqn:E2;
    cbn [bind] in H; [| discriminate].
  destruct (derive_loan_to_income_ratio df2) as [df3 |] eqn:E3;
    cbn [bind] in H; [| discriminate].
  exists df2, df3. repeat split; assumption.
Qed.

Lemma cell_flags_exclusive (x : option scalar) :
  cell_isin default_statuses x = true -> cell_equals "FULLY PAID" x = true -> False.
Proof.
  destruct x as [[t | q | d] |]; simpl; try discriminate.
  intros Hin Heq. apply String.eqb_eq in Heq. subst t.
  vm_compute in Hin. discriminate.
Qed.

Lemma nth_zip_with {A B C : Type} (f : A -> B -> C) (xs : list A) (ys : list B)
  (i : nat) (dx : A) (dy : B) (d : C) :
  (i < length xs)%nat -> (i < length ys)%nat ->
  nth i (zip_with f xs ys) d = f (nth i xs dx) (nth i ys dy).
Proof.
  revert ys i. induction xs as [| x xs IH]; intros [| y ys] i Hx Hy; simpl in *;
    try lia.
  destruct i; [reflexivity | apply IH; lia].
Qed.

Lemma zip_with_length {A B C : Type} (f : A -> B -> C) (xs : list A) (ys : list B) :
  length (zip_with f xs ys) = Nat.min (length xs) (length ys).
Proof.
  revert ys. induction xs as [| x xs IH]; intros [| y ys]; simpl; auto.
Qed.

(** The labels written by the blocks after the first one leave a column
    under another label as the first block left it. *)
Lemma create_derived_features_get (df df' : DataFrame) (c : string) :
  _create_derived_features df = Ok df' ->
  existsb (String.eqb c)
    ["income_category"; "loan_to_income_ratio"; "credit_age_years";
     "credit_age_category"; "risk_category"; "issue_year"; "issue_month";
     "issue_quarter"; "issue_season"; "int_rate_category"] = false ->
  get_col c df' = get_col c (derive_labels df).
Proof.
  intros H Hc. apply create_derived_features_steps in H as (df2 & df3 & H2 & H3 & H7).
  simpl in Hc. repeat (apply orb_false_elim in Hc as [? Hc]).
  rewrite (derive_int_rate_category_get _ _ c H7) by now rewrite String.eqb_sym.
  rewrite derive_seasonality_get by now rewrite String.eqb_sym.
  rewrite derive_risk_category_get by now rewrite String.eqb_sym.
  rewrite derive_credit_age_get by now rewrite String.eqb_sym.
  rewrite (derive_ratio_get _ _ c H3) by now rewrite String.eqb_sym.
  now rewrite (derive_income_category_get _ _ c H2) by now rewrite String.eqb_sym.
Qed.

Lemma cell_isin_spec (values : list string) (x : option scalar) :
  cell_isin values x = true <-> exists t, x = Some (SText t) /\ In t values.
Proof.
  destruct x as [[t | q | d] |]; simpl.
  - rewrite mem_true_iff. split.
    + intros H. now exists t.
    + intros (t' & [= ->] & H). exact H.
  - split; [discriminate | intros (t & [=] & _)].
  - split; [discriminate | intros (t & [=] & _)].
  - split; [discriminate | intros (t & [=] & _)].
Qed.

Lemma cell_equals_spec (value : string) (x : option scalar) :
  cell_equals value x = true <-> x = Some (SText value).
Proof.
  destruct x as [[t | q | d] |]; simpl; try (split; [discriminate | intros [=]]).
  rewrite String.eqb_eq. split; [now intros -> | now intros [= ->]].
Qed.

Lemma flag_is_one (b : bool) : Some (if b then 1%Q else 0%Q) = Some 1%Q <-> b = true.
Proof. destruct b; split; auto; discriminate. Qed.

(** C9. On every row of the frame that [_create_derived_features] returns,
    [is_default] is 1 exactly when the loan status is one of the five
    default statuses and 0 otherwise, [is_fully_paid] is 1 exactly when the
    loan status is FULLY PAID and 0 otherwise, and the two flags are never
    both 1. *)
Theorem default_and_fully_paid_exclusive (df df' : DataFrame) (s : Series) :
  get_col "loan_status" df = Some s ->
  _create_derived_features df = Ok df' ->
  exists d p : list (option Q),
    get_col "is_default" df' = Some (NumericS d) /\
    get_col "is_fully_paid" df' = Some (NumericS p) /\
    length d = series_len s /\ length p = series_len s /\
    forall i : nat, (i < series_len s)%nat ->
      let loan_status := nth i (cells_of s) None in
      (nth i d None = Some 1%Q \/ nth i d None = Some 0%Q) /\
      (nth i p None = Some 1%Q \/ nth i p None = Some 0%Q) /\
      (nth i d None = Some 1%Q <->
       exists t, loan_status = Some (SText t) /\ In t default_statuses) /\
      (nth i p None = Some 1%Q <-> loan_status = Some (SText "FULLY PAID")) /\
      ~ (nth i d None = Some 1%Q /\ nth i p None = Some 1%Q).
Proof.
  intros Hs H.
  destruct (derive_labels_flags df s Hs) as [Hd Hp].
  eexists. eexists. split; [| split].
  - rewrite (create_derived_features_get df df' _ H) by reflexivity. exact Hd.
  - rewrite (create_derived_features_get df df' _ H) by reflexivity. exact Hp.
  - rewrite !length_map, cells_of_length. split; [reflexivity |].
    split; [reflexivity |].
    intros i Hi. cbv zeta. rewrite <- cells_of_length in Hi.
    rewrite !(nth_map_lt _ _ _ false) by now rewrite length_map.
    rewrite !(nth_map_lt _ _ _ None) by assumption.
    generalize (nth i (cells_of s) None). intros loan_status.
    rewrite !flag_is_one, cell_isin_spec, cell_equals_spec.
    repeat split; try tauto.
    + destruct (cell_isin default_statuses loan_status) eqn:E;
        [left; now apply cell_isin_spec | now right].
    + destruct (cell_equals "FULLY PAID" loan_status) eqn:E;
        [left; now apply cell_equals_spec | now right].
    + intros [Ed Ep]. apply cell_isin_spec in Ed. apply cell_equals_spec in Ep.
      exact (cell_flags_exclusive _ Ed Ep).
Qed.

Lemma replace_zero_length (xs : list (option Q)) :
  length (replace_zero xs) = length xs.
Proof. unfold replace_zero. apply length_map. Qed.

Lemma derive_ratio_numeric (df : DataFrame) (la ai : list (option Q)) :
  get_col "loan_amnt" df = Some (NumericS la) ->
  get_col "annual_inc" df = Some (NumericS ai) ->
  derive_loan_to_income_ratio df =
  Ok (set_col "loan_to_income_ratio" (loan_to_income_ratio_of la ai) df).
Proof.
  intros Hla Hai. unfold derive_loan_to_income_ratio. now rewrite Hla, Hai.
Qed.

(** C7. When [loan_amnt] and [annual_inc] are numeric columns, the block
    that derives [loan_to_income_ratio] raises nothing (the whole method
    returns as soon as [int_rate] is numeric or absent), and on every row
    the ratio is missing when [annual_inc] is zero or missing, and is
    [loan_amnt / annual_inc] otherwise (missing when [loan_amnt] is). *)
Theorem loan_to_income_ratio_zero_income_is_null
  (df : DataFrame) (la ai : list (option Q)) :
  get_col "loan_amnt" df = Some (NumericS la) ->
  get_col "annual_inc" df = Some (NumericS ai) ->
  (match get_col "int_rate" df with
   | Some s => is_numeric s = true
   | None => True
   end -> exists df', _create_derived_features df = Ok df') /\
  forall df', _create_derived_features df = Ok df' ->
    exists r : list (option Q),
      get_col "loan_to_income_ratio" df' = Some (NumericS r) /\
      length r = Nat.min (length la) (length ai) /\
      forall i : nat, (i < length la)%nat -> (i < length ai)%nat ->
        match nth i ai None with
        | None => nth i r None = None
        | Some inc =>
            ((inc == 0)%Q -> nth i r None = None) /\
            (~ (inc == 0)%Q ->
             nth i r None =
             option_map (fun amnt => (amnt / inc)%Q) (nth i la None))
        end.
Proof.
  intros Hla Hai.
  assert (Hla1 : get_col "loan_amnt" (derive_labels df) = Some (NumericS la))
    by now rewrite derive_labels_get.
  assert (Hai1 : get_col "annual_inc" (derive_labels df) = Some (NumericS ai))
    by now rewrite derive_labels_get.
  assert (H2 : exists df2, derive_income_category (derive_labels df) = Ok df2).
  { unfold derive_income_category. rewrite Hai1. simpl. eauto. }
  destruct H2 as (df2 & H2).
  assert (Hla2 : get_col "loan_amnt" df2 = Some (NumericS la))
    by now rewrite (derive_income_category_get _ _ _ H2).
  assert (Hai2 : get_col "annual_inc" df2 = Some (NumericS ai))
    by now rewrite (derive_income_category_get _ _ _ H2).
  pose proof (derive_ratio_numeric df2 la ai Hla2 Hai2) as H3.
  split.
  - intros Hint. unfold _create_derived_features.
    rewrite H2. cbn [bind]. rewrite H3. cbn [bind].
    unfold derive_int_rate_category.
    rewrite derive_seasonality_get, derive_risk_category_get,
      derive_credit_age_get, get_col_set_col by reflexivity.
    cbn [String.eqb Ascii.eqb Bool.eqb].
    rewrite (derive_income_category_get _ _ _ H2) by reflexivity.
    rewrite derive_labels_get by reflexivity.
    destruct (get_col "int_rate" df) as [[] |]; simpl in Hint; try discriminate;
      simpl; eauto.
  - intros df' H.
    apply create_derived_features_steps in H as (d2 & d3 & E2 & E3 & E7).
    rewrite H2 in E2. injection E2 as <-. rewrite H3 in E3. injection E3 as <-.
    exists (zip_with div_cell la (replace_zero ai)). split; [| split].
    + rewrite (derive_int_rate_category_get _ _ _ E7) by reflexivity.
      rewrite derive_seasonality_get, derive_risk_category_get,
        derive_credit_age_get, get_col_set_col by reflexivity.
      reflexivity.
    + now rewrite zip_with_length, replace_zero_length.
    + intros i Hi1 Hi2.
      rewrite (nth_zip_with _ _ _ _ None None) by now rewrite ?replace_zero_length.
      unfold replace_zero. rewrite (nth_map_lt _ _ _ None) by assumption.
      destruct (nth i ai None) as [inc |]; [| now destruct (nth i la None)].
      split.
      * intros Hz. apply Qeq_bool_iff in Hz. rewrite Hz.
        now destruct (nth i la None).
      * intros Hnz. destruct (Qeq_bool inc 0) eqn:E.
        -- exfalso. apply Hnz. now apply Qeq_bool_iff.
        -- now destruct (nth i la None).
Qed.

(** ** The loader the pipeline calls *)

Lemma columns_filter_label (l : string) (df : DataFrame) :
  NoDup (columns df) -> In l (columns df) ->
  columns (filter (fun cs => String.eqb (fst cs) l) df) = [l].
Proof.
  unfold columns. induction df as [| [c s] df IH]; simpl; [contradiction |].
  intros Hnd Hin. inversion Hnd as [| ? ? Hnotin Hnd']; subst.
  destruct (String.eqb c l) eqn:E.
  - apply String.eqb_eq in E. subst c. simpl. f_equal.
    assert (Hnone : forall d : DataFrame,
               ~ In l (map fst d) -> filter (fun cs => String.eqb (fst cs) l) d = []).
    { clear. induction d as [| [c0 s0] d IHd]; simpl; intros Hn; [reflexivity |].
      destruct (String.eqb c0 l) eqn:E0.
      - apply String.eqb_eq in E0. subst. exfalso. apply Hn. now left.
      - apply IHd. intros Hl. apply Hn. now right. }
    now rewrite Hnone.
  - destruct Hin as [-> | Hin]; [now rewrite String.eqb_refl in E |].
    now apply IH.
Qed.

Lemma columns_app (a b : DataFrame) : columns (a ++ b) = columns a ++ columns b.
Proof. unfold columns. apply map_app. Qed.

Lemma columns_select_columns (labels : list string) (df : DataFrame) :
  NoDup (columns df) -> incl labels (columns df) ->
  columns (select_columns labels df) = labels.
Proof.
  intros Hnd. unfold select_columns.
  induction labels as [| l labels IH]; simpl; intros Hincl; [reflexivity |].
  rewrite columns_app.
  rewrite (columns_filter_label l df Hnd) by (apply Hincl; now left).
  simpl. f_equal. apply IH. intros x Hx. apply Hincl. now right.
Qed.

Lemma select_columns_incl (labels : list string) (df : DataFrame) :
  incl (select_columns labels df) df.
Proof.
  unfold select_columns. intros cs H. apply in_flat_map in H as (l & _ & H).
  now apply filter_In in H.
Qed.

Lemma filter_length_le {A : Type} (p : A -> bool) (l : list A) :
  (length (filter p l) <= length l)%nat.
Proof. induction l as [| a l IH]; simpl; [lia |]. destruct (p a); simpl; lia. Qed.

Lemma filter_partition_length {A : Type} (p : A -> bool) (l : list A) :
  (length (filter p l) + length (filter (fun x => negb (p x)) l) = length l)%nat.
Proof. induction l as [| a l IH]; simpl; [lia |]. destruct (p a); simpl; lia. Qed.

(** A duplicate-free list longer than another holds an element the other
    lacks. *)
Lemma longer_list_has_extra (l l' : list string) :
  NoDup l -> (length l' < length l)%nat -> exists x, In x l /\ ~ In x l'.
Proof.
  intros Hnd Hlen.
  destruct (forallb (fun x => mem x l') l) eqn:E.
  - exfalso. rewrite forallb_forall in E.
    assert (Hincl : incl l l') by (intros x Hx; now apply mem_true_iff, E).
    pose proof (NoDup_incl_length Hnd Hincl). lia.
  - assert (Hex : existsb (fun x => negb (mem x l')) l = true).
    { clear Hnd Hlen. induction l as [| a l IH]; simpl in *; [discriminate |].
      destruct (mem a l'); simpl in *; [now apply IH | reflexivity]. }
    apply existsb_exists in Hex as (x & Hx & Hm).
    exists x. split; [assumption |]. apply mem_false_iff.
    now destruct (mem x l').
Qed.

Lemma in_firstn {A : Type} (n : nat) (l : list A) (x : A) :
  In x (firstn n l) -> In x l.
Proof.
  intros H. rewrite <- (firstn_skipn n l). apply in_or_app. now left.
Qed.

Lemma kept_priority_facts (df : DataFrame) :
  let kept := filter (fun col => mem col (columns df)) priority_cols in
  NoDup kept /\ incl kept (columns df) /\ (length kept <= 17)%nat.
Proof.
  intros kept. repeat split.
  - apply NoDup_filter. unfold priority_cols.
    repeat (constructor; [simpl; intuition discriminate |]). constructor.
  - intros x Hx. apply filter_In in Hx as [_ Hx]. now apply mem_true_iff.
  - unfold kept. etransitivity; [apply filter_length_le | simpl; lia].
Qed.

Lemma cols_to_keep_facts (df : DataFrame) :
  NoDup (columns df) -> (20 < length (columns df))%nat ->
  incl (cols_to_keep df) (columns df) /\
  (length (cols_to_keep df) <= 20)%nat /\
  ((length (filter (fun col => mem col (columns df)) priority_cols) < 15)%nat ->
   length (cols_to_keep df) = 20%nat).
Proof.
  intros Hnd Hlen. unfold cols_to_keep.
  destruct (kept_priority_facts df) as (Hk1 & Hk2 & Hk3).
  set (kept := filter (fun col => mem col (columns df)) priority_cols) in *.
  set (other_cols := filter (fun c => negb (mem c kept)) (columns df)).
  assert (Hother : (length (columns df) - length kept <= length other_cols)%nat).
  { pose proof (filter_partition_length (fun c => mem c kept) (columns df)) as Hp.
    cbv beta in Hp. fold other_cols in Hp.
    assert (Hin : (length (filter (fun c => mem c kept) (columns df))
                   <= length kept)%nat).
    { apply NoDup_incl_length; [now apply NoDup_filter |].
      intros x Hx. apply filter_In in Hx as [_ Hx]. now apply mem_true_iff. }
    lia. }
  destruct (length kept <? 15)%nat eqn:E.
  - apply Nat.ltb_lt in E. repeat split.
    + intros x Hx. apply in_app_or in Hx as [Hx | Hx]; [now apply Hk2 |].
      apply in_firstn in Hx. now apply filter_In in Hx.
    + rewrite length_app, length_firstn. lia.
    + intros _. rewrite length_app, length_firstn. lia.
  - apply Nat.ltb_ge in E. repeat split; [assumption | lia | lia].
Qed.

(** C10. A frame with more than 20 (distinct) columns is stored with at
    most 20 of them: the priority columns it has, in the order of the
    priority list, followed, when fewer than 15 of them exist, by the
    first remaining columns up to 20 in all. The stored columns keep their
    data, at least one column of the frame is absent from the table, and
    the call returns [True] whenever the write itself goes through. *)
Theorem ultra_simple_load_keeps_at_most_20_columns
  (to_sql : DataFrame -> result unit) (df : DataFrame) :
  NoDup (columns df) ->
  (20 < length (columns df))%nat ->
  let kept := filter (fun col => mem col (columns df)) priority_cols in
  let other_cols := filter (fun c => negb (mem c kept)) (columns df) in
  let stored := frame_to_store df in
  columns stored =
    (if (length kept <? 15)%nat
     then kept ++ firstn (20 - length kept) other_cols
     else kept) /\
  (length (columns stored) <= 20)%nat /\
  ((length kept < 15)%nat -> length (columns stored) = 20%nat) /\
  (forall c s, get_col c stored = Some s -> get_col c df = Some s) /\
  (exists c, In c (columns df) /\ ~ In c (columns stored)) /\
  (forall u, to_sql stored = Ok u ->
             run_simple_load to_sql df = (Some stored, true)).
Proof.
  intros Hnd Hlen kept other_cols stored.
  destruct (cols_to_keep_facts df Hnd Hlen) as (Hincl & Hle & Heq).
  assert (Hstored : stored = select_columns (cols_to_keep df) df).
  { unfold stored, frame_to_store.
    apply Nat.ltb_lt in Hlen. now rewrite Hlen. }
  assert (Hcols : columns stored = cols_to_keep df).
  { rewrite Hstored. now apply columns_select_columns. }
  split; [rewrite Hcols; unfold cols_to_keep; reflexivity |].
  split; [now rewrite Hcols |].
  split; [intros Hk; rewrite Hcols; now apply Heq |].
  split; [| split].
  - intros c s Hget. apply In_get_col; [assumption |].
    apply get_col_In in Hget. rewrite Hstored in Hget.
    now apply select_columns_incl in Hget.
  - apply longer_list_has_extra; [assumption | rewrite Hcols; lia].
  - intros u Hu. unfold run_simple_load, load_to_sqlite_ultra_simple.
    fold stored. now rewrite Hu.
Qed.

Lemma ultra_simple_load_keeps_at_most_20_columns_witness :
  NoDup (columns pipeline_frame) /\
  (20 < length (columns pipeline_frame))%nat /\
  length (columns pipeline_frame) = 25%nat /\
  columns (frame_to_store pipeline_frame) = priority_cols /\
  (length (columns (frame_to_store pipeline_frame)) <= 20)%nat /\
  run_simple_load to_sql_ok pipeline_frame = (Some (frame_to_store pipeline_frame), true).
Proof.
  assert (Hnd : NoDup (columns pipeline_frame))
    by (apply distinct_NoDup; vm_compute; reflexivity).
  assert (Hlen : (20 < length (columns pipeline_frame))%nat)
    by (vm_compute; lia).
  destruct (ultra_simple_load_keeps_at_most_20_columns to_sql_ok pipeline_frame
              Hnd Hlen) as (Hcols & Hle & _ & _ & _ & Hrun).
  split; [exact Hnd |]. split; [exact Hlen |].
  split; [vm_compute; reflexivity |].
  split; [rewrite Hcols; vm_compute; reflexivity |].
  split; [exact Hle |].
  exact (Hrun tt eq_refl).
Defined.

(** ** The SQLite loader: column types *)

Lemma matches_yyyy_mm_dd_looks_like_date (s : string) :
  matches_yyyy_mm_dd s = true -> looks_like_date s = true.
Proof.
  unfold matches_yyyy_mm_dd, looks_like_date, char_at.
  destruct s as [| y1 [| y2 [| y3 [| y4 [| d1 [| m1 [| m2 [| d2 [| a1 [| a2 [| x s]]]]]]]]]]];
    simpl; try discriminate.
  intros H. repeat (apply andb_prop in H as [H ?]). assumption.
Qed.

(** C4 (failing input). A column whose first value is the text
    [self-owned], ten characters with a dash at index 4, is typed DATE by
    the code, although the text is no YYYY-MM-DD date: the specification,
    and the comment on the branch in the code (date in the format
    YYYY-MM-DD), type the column TEXT. *)
Lemma loose_date_test_counterexample :
  table (fst (_create_table_simple (fun _ => true)
                [("home_ownership", [None; Some (PyStr "self-owned")])]
                fresh_table)) =
    Some [("home_ownership", DATE)] /\
  matches_yyyy_mm_dd "self-owned" = false /\
  spec_sql_type [None; Some (PyStr "self-owned")] = TEXT.
Proof. repeat split. Qed.

(** C4 (extent of the divergence). [_create_table_simple] gives every
    column one type, in the order of the frame, read off the first
    non-missing value: INTEGER for an integer, REAL for a float, TEXT for
    an object that is no text and for a column without value. A text is
    typed DATE by the code as soon as it has length 10 and a dash at index
    4, which is looser than the YYYY-MM-DD format that the specification
    and the comment on the branch name; the code types a column as the
    specification does whenever the sampled text that passes the test of
    the code is a YYYY-MM-DD date. *)
Theorem create_table_types_from_first_value
  (accepts_schema : schema -> bool) (df : Prepared) (c : Conn) :
  map fst (columns_def df) = map fst df /\
  (accepts_schema (columns_def df) = true ->
   table (fst (_create_table_simple accepts_schema df c)) = Some (columns_def df) /\
   snd (_create_table_simple accepts_schema df c) = Ok tt) /\
  (forall col values, In (col, values) df ->
     In (col, sql_type_of values) (columns_def df)) /\
  (forall values,
     match dropna_cells values with
     | [] => sql_type_of values = TEXT
     | v :: _ =>
         (sql_type_of values = INTEGER <-> exists z, v = PyInt z) /\
         (sql_type_of values = REAL <-> exists q, v = PyFloat q) /\
         (sql_type_of values = DATE <->
          exists s, v = PyStr s /\ String.length s = 10%nat /\
                    char_at 4 s = Some "-"%char) /\
         (sql_type_of values = TEXT <->
          (exists s, v = PyStr s /\ looks_like_date s = false) \/
          (exists repr, v = PyOther repr))
     end) /\
  (forall values,
     (forall s rest, dropna_cells values = PyStr s :: rest ->
                     looks_like_date s = true -> matches_yyyy_mm_dd s = true) ->
     sql_type_of values = spec_sql_type values).
Proof.
  split; [unfold columns_def; rewrite map_map; reflexivity |].
  split.
  { intros Hacc. unfold _create_table_simple. rewrite Hacc. simpl. auto. }
  split.
  { intros col values Hin. unfold columns_def.
    apply in_map_iff. exists (col, values). auto. }
  split.
  - intros values. unfold sql_type_of.
    destruct (dropna_cells values) as [| v rest]; [reflexivity |].
    destruct v as [z | q | s | repr].
    + repeat split; try discriminate; eauto;
        try (intros (? & [=])); try (intros (? & [=] & _));
        intros [(? & [=] & _) | (? & [=])].
    + repeat split; try discriminate; eauto;
        try (intros (? & [=])); try (intros (? & [=] & _));
        intros [(? & [=] & _) | (? & [=])].
    + assert (Hl : looks_like_date s = true <->
                   String.length s = 10%nat /\ char_at 4 s = Some "-"%char).
      { unfold looks_like_date. rewrite andb_true_iff, Nat.eqb_eq.
        destruct (char_at 4 s) as [ch |].
        - rewrite Ascii.eqb_eq. split; [intros [? ->]; auto | intros [? [= ->]]; auto].
        - split; [intros [_ [=]] | intros [_ [=]]]. }
      destruct (looks_like_date s) eqn:E.
      * repeat split; try discriminate; try (intros (? & [=])).
        -- exists s. split; [reflexivity | now apply Hl].
        -- intros [(s' & [= <-] & Hs) | (? & [=])]. congruence.
      * repeat split; try discriminate; try (intros (? & [=])).
        -- intros (s' & [= <-] & Hs). apply Hl in Hs. discriminate.
        -- intros _. left. now exists s.
    + repeat split; try discriminate; eauto;
        try (intros (? & [=])); try (intros (? & [=] & _)).
  - intros values Hdates. unfold sql_type_of, spec_sql_type.
    destruct (dropna_cells values) as [| [z | q | s | repr] rest] eqn:E;
      try reflexivity.
    destruct (looks_like_date s) eqn:El.
    + now rewrite (Hdates s rest eq_refl El).
    + destruct (matches_yyyy_mm_dd s) eqn:Em; [| reflexivity].
      apply matches_yyyy_mm_dd_looks_like_date in Em. congruence.
Qed.

(** ** The SQLite loader: validation of the load *)

Lemma Qlt_bool_iff (x y : Q) : Qlt_bool x y = true <-> (x < y)%Q.
Proof.
  unfold Qlt_bool. rewrite negb_true_iff. split.
  - intros H. apply Qnot_le_lt. intros Hle.
    apply Qle_bool_iff in Hle. congruence.
  - intros H. destruct (Qle_bool y x) eqn:E; [| reflexivity].
    apply Qle_bool_iff in E. exfalso. exact (Qlt_not_le _ _ H E).
Qed.

(** One percent of the expected count, in integers. *)
Lemma beyond_tolerance_iff (actual expected : Z) :
  beyond_tolerance actual expected = true <->
  expected < 100 * Z.abs (actual - expected).
Proof.
  unfold beyond_tolerance. rewrite Qlt_bool_iff.
  unfold Qlt. cbn [Qnum Qden Qmult inject_Z]. lia.
Qed.

Lemma null_issues_keep_mismatch (c : Conn) (a e : Z) (cols : list string)
  (acc : list load_issue) :
  In (RowCountMismatch a e)
    (fold_left
       (fun acc col =>
          match select_null_count col c with
          | Ok null_count =>
              if (0 <? null_count)%nat then acc ++ [NullValues col null_count]
              else acc
          | Raise _ => acc
          end) cols acc) <->
  In (RowCountMismatch a e) acc.
Proof.
  revert acc. induction cols as [| col cols IH]; intros acc; simpl; [tauto |].
  rewrite IH. destruct (select_null_count col c) as [n |]; [| tauto].
  destruct (0 <? n)%nat; [| tauto].
  rewrite in_app_iff. simpl. intuition discriminate.
Qed.

(** C3. On a connection whose table exists, [_validate_load] reads the
    number of stored rows and reports failure exactly when that number
    differs from the expected one by more than one percent of the expected
    one; the row-count issue is recorded in exactly that case. *)
Theorem validate_load_one_percent_tolerance
  (c : Conn) (expected : Z) (sch : schema) :
  table c = Some sch ->
  let v := _validate_load c expected in
  let actual := Z.of_nat (length (committed c ++ pending c)) in
  actual_rows v = actual /\
  expected_rows v = expected /\
  (success v = false <->
   (inject_Z expected * (1 # 100) < inject_Z (Z.abs (actual - expected)))%Q) /\
  (success v = false <-> expected < 100 * Z.abs (actual - expected)) /\
  (In (RowCountMismatch actual expected) (load_issues v) <-> success v = false) /\
  ~ In ValidationError (load_issues v).
Proof.
  intros Ht v actual. unfold v, _validate_load, select_count. rewrite Ht.
  fold actual. cbn [actual_rows expected_rows success load_issues].
  split; [reflexivity |]. split; [reflexivity |].
  rewrite negb_false_iff.
  split; [unfold beyond_tolerance; apply Qlt_bool_iff |].
  split; [apply beyond_tolerance_iff |].
  split.
  - rewrite null_issues_keep_mismatch.
    destruct (beyond_tolerance actual expected); simpl; intuition discriminate.
  - intros Hin.
    assert (Hgen : forall cols acc,
               In ValidationError
                 (fold_left
                    (fun acc col =>
                       match select_null_count col c with
                       | Ok null_count =>
                           if (0 <? null_count)%nat
                           then acc ++ [NullValues col null_count]
                           else acc
                       | Raise _ => acc
                       end) cols acc) -> In ValidationError acc).
    { induction cols as [| col cols IH]; intros acc H; simpl in H; [assumption |].
      apply IH in H. destruct (select_null_count col c) as [n |]; [| assumption].
      destruct (0 <? n)%nat; [| assumption].
      apply in_app_or in H as [H | H]; [assumption |].
      simpl in H. intuition discriminate. }
    apply Hgen in Hin.
    destruct (beyond_tolerance actual expected); simpl in Hin; intuition discriminate.
Qed.

(** Without the table the count itself fails and the report is a
    failure whatever the expected number. *)
Lemma validate_load_without_table (c : Conn) (expected : Z) :
  table c = None ->
  success (_validate_load c expected) = false /\
  load_issues (_validate_load c expected) = [ValidationError].
Proof.
  intros Ht. unfold _validate_load, select_count. now rewrite Ht.
Qed.

(** ** The SQLite loader: batches *)

Lemma firstn_add {A : Type} (n m : nat) (l : list A) :
  firstn (n + m) l = firstn n l ++ firstn m (skipn n l).
Proof.
  revert l. induction n as [| n IH]; intros l; simpl; [reflexivity |].
  destruct l as [| a l]; simpl; [now rewrite firstn_nil | now rewrite IH].
Qed.

Lemma slice_chunk {A : Type} (data : list A) (k : nat) (batch_size : Z) :
  0 < batch_size ->
  slice data (Z.of_nat k * batch_size) (Z.of_nat k * batch_size + batch_size) =
  firstn (Z.to_nat batch_size) (skipn (k * Z.to_nat batch_size) data).
Proof.
  intros Hb. unfold slice.
  replace (Z.of_nat k * batch_size + batch_size - Z.of_nat k * batch_size)
    with batch_size by lia.
  replace (Z.to_nat (Z.of_nat k * batch_size)) with (k * Z.to_nat batch_size)%nat
    by (rewrite Z2Nat.inj_mul by lia; now rewrite Nat2Z.id).
  reflexivity.
Qed.

Lemma concat_chunks {A : Type} (data : list A) (b n : nat) :
  concat (map (fun k => firstn b (skipn (k * b) data)) (seq 0 n)) =
  firstn (n * b) data.
Proof.
  induction n as [| n IH]; [reflexivity |].
  rewrite seq_S, map_app, concat_app, IH. simpl.
  rewrite app_nil_r. now rewrite <- firstn_add, Nat.add_comm.
Qed.

Lemma batches_of_chunks (data : list row) (batch_size : Z) :
  0 < batch_size ->
  batches_of data batch_size =
  map (fun k => firstn (Z.to_nat batch_size) (skipn (k * Z.to_nat batch_size) data))
      (seq 0 (Z.to_nat ((Z.of_nat (length data) + batch_size - 1) / batch_size))).
Proof.
  intros Hb. unfold batches_of, py_range.
  apply Z.ltb_lt in Hb as Hb'. rewrite Hb'. rewrite map_map.
  apply map_ext. intros k. now apply slice_chunk.
Qed.

(** The batches cover the rows in order, there are [ceil(N / batch_size)]
    of them, and batch [k] holds [min(batch_size, N - k * batch_size)] rows. *)
Lemma batches_of_partition (data : list row) (batch_size : Z) :
  0 < batch_size ->
  let n := Z.of_nat (length data) in
  concat (batches_of data batch_size) = data /\
  Z.of_nat (length (batches_of data batch_size)) = (n + batch_size - 1) / batch_size /\
  (forall k b, nth_error (batches_of data batch_size) k = Some b ->
     Z.of_nat (length b) = Z.min batch_size (n - Z.of_nat k * batch_size) /\
     (0 < length b)%nat).
Proof.
  intros Hb. cbv zeta. rewrite batches_of_chunks by assumption.
  set (n := Z.of_nat (length data)).
  set (q := (n + batch_size - 1) / batch_size).
  assert (Hq0 : 0 <= q) by (apply Z.div_pos; lia).
  assert (Hq1 : n <= q * batch_size).
  { pose proof (Z.mul_succ_div_gt (n + batch_size - 1) batch_size Hb). fold q in H.
    lia. }
  assert (Hq2 : q * batch_size < n + batch_size).
  { pose proof (Z.mul_div_le (n + batch_size - 1) batch_size Hb). fold q in H. lia. }
  split; [| split].
  - rewrite concat_chunks. apply firstn_all2. apply Nat2Z.inj_le.
    rewrite Nat2Z.inj_mul, !Z2Nat.id by lia. exact Hq1.
  - rewrite length_map, length_seq. lia.
  - intros k b Hk. rewrite nth_error_map in Hk.
    destruct (nth_error (seq 0 (Z.to_nat q)) k) as [k' |] eqn:Ek; [| discriminate].
    simpl in Hk. injection Hk as <-.
    assert (Hlt : (k < length (seq 0 (Z.to_nat q)))%nat).
    { apply nth_error_Some. rewrite Ek. discriminate. }
    rewrite length_seq in Hlt.
    assert (k' = k).
    { rewrite nth_error_nth' with (d := O) in Ek by now rewrite length_seq.
      rewrite seq_nth in Ek by assumption. now injection Ek as <-. }
    subst k'. rewrite length_firstn, length_skipn.
    assert (Hk1 : Z.of_nat k * batch_size <= (q - 1) * batch_size)
      by (apply Z.mul_le_mono_nonneg_r; lia).
    unfold n in *. lia.
Qed.

Section BatchRun.

Variable accepts_row : row -> bool.

Lemma insert_rows_accepted (b : list row) (c : Conn) :
  forallb accepts_row b = true ->
  insert_rows accepts_row b c =
  ({| table := table c; committed := committed c; pending := pending c ++ b;
      journal := journal c |}, Ok tt).
Proof.
  revert c. induction b as [| r b IH]; intros c H; simpl in *.
  - destruct c; simpl. now rewrite app_nil_r.
  - apply andb_prop in H as [Hr Hb]. rewrite Hr, (IH _ Hb). simpl.
    now rewrite <- app_assoc.
Qed.

Lemma insert_rows_refused (b : list row) (c : Conn) :
  forallb accepts_row b = false ->
  exists p,
    insert_rows accepts_row b c =
    ({| table := table c; committed := committed c; pending := p;
        journal := journal c |}, Raise SqliteError).
Proof.
  revert c. induction b as [| r b IH]; intros c H; simpl in *; [discriminate |].
  destruct (accepts_row r); simpl in H.
  - destruct (IH {| table := table c; committed := committed c;
                    pending := pending c ++ [r]; journal := journal c |} H)
      as (p & Hp).
    exists p. exact Hp.
  - exists (pending c). now destruct c.
Qed.

Lemma executemany_accepted (b : list row) (c : Conn) (sch : schema) :
  table c = Some sch -> forallb accepts_row b = true ->
  executemany accepts_row b c =
  ({| table := Some sch; committed := committed c; pending := pending c ++ b;
      journal := journal c ++ [EvExecutemany b] |}, Ok tt).
Proof.
  intros Ht Hb. unfold executemany, log. cbn [table]. rewrite Ht.
  rewrite (insert_rows_accepted b _ Hb). cbn [table committed pending journal].
  now rewrite ?Ht.
Qed.

Lemma executemany_refused (b : list row) (c : Conn) (sch : schema) :
  table c = Some sch -> forallb accepts_row b = false ->
  exists p,
    executemany accepts_row b c =
    ({| table := Some sch; committed := committed c; pending := p;
        journal := journal c ++ [EvExecutemany b] |}, Raise SqliteError).
Proof.
  intros Ht Hb.
  destruct (insert_rows_refused b (log (EvExecutemany b) c) Hb) as (p & Hp).
  exists p. unfold executemany.
  change (table (log (EvExecutemany b) c)) with (table c).
  rewrite Ht, Hp. unfold log. cbn [table committed pending journal].
  now rewrite Ht.
Qed.

(** A run in which every batch is accepted: one [executemany] and one
    [commit] per batch, all rows committed. *)
Lemma insert_batches_accepted (starts : list Z) (data : list row) (batch_size : Z)
  (batch_num : option Z) (c : Conn) (sch : schema) :
  table c = Some sch -> pending c = [] ->
  (forall i, In i starts ->
     forallb accepts_row (slice data i (i + batch_size)) = true) ->
  insert_batches accepts_row starts data batch_size batch_num c =
  ({| table := Some sch;
      committed := committed c ++
                   concat (map (fun i => slice data i (i + batch_size)) starts);
      pending := [];
      journal := journal c ++
                 flat_map (fun i => [EvExecutemany (slice data i (i + batch_size));
                                     EvCommit]) starts |},
   Ok true).
Proof.
  revert batch_num c. induction starts as [| i starts IH];
    intros batch_num c Ht Hp Hall.
  - simpl. destruct c; simpl in *. subst. now rewrite !app_nil_r.
  - cbn [insert_batches].
    rewrite (executemany_accepted _ c sch Ht) by (apply Hall; now left).
    rewrite IH; [| reflexivity | reflexivity | intros j Hj; apply Hall; now right].
    unfold commit, log. cbn [table committed pending journal map concat flat_map].
    rewrite Hp. cbn [app]. now rewrite <- !app_assoc.
Qed.

(** A run whose first refused batch comes after the batches [good]: what
    [_insert_data_simple] makes of it through either handler. *)
Lemma insert_batches_refused (good : list Z) (i : Z) (rest : list Z)
  (data : list row) (batch_size : Z) (batch_num : option Z) (c : Conn)
  (sch : schema) :
  table c = Some sch -> pending c = [] ->
  (forall j, In j good ->
     forallb accepts_row (slice data j (j + batch_size)) = true) ->
  forallb accepts_row (slice data i (i + batch_size)) = false ->
  match insert_batches accepts_row (good ++ i :: rest) data batch_size batch_num c with
  | (c1, Ok ok) => (c1, ok)
  | (c1, Raise _) => (rollback c1, false)
  end =
  ({| table := Some sch;
      committed := committed c ++
                   concat (map (fun j => slice data j (j + batch_size)) good);
      pending := [];
      journal := journal c ++
                 flat_map (fun j => [EvExecutemany (slice data j (j + batch_size));
                                     EvCommit]) good ++
                 [EvExecutemany (slice data i (i + batch_size)); EvRollback] |},
   false).
Proof.
  revert batch_num c. induction good as [| g good IH];
    intros batch_num c Ht Hp Hgood Hbad.
  - cbn [app insert_batches].
    destruct (executemany_refused _ c sch Ht Hbad) as (p & ->).
    destruct batch_num; unfold rollback, log;
      cbn [table committed pending journal map concat flat_map app];
      now rewrite app_nil_r, <- app_assoc.
  - cbn [app insert_batches].
    rewrite (executemany_accepted _ c sch Ht) by (apply Hgood; now left).
    rewrite IH; [| reflexivity | reflexivity
                 | intros j Hj; apply Hgood; now right | assumption].
    unfold commit, log. cbn [table committed pending journal map concat flat_map].
    rewrite Hp. cbn [app]. now rewrite <- !app_assoc.
Qed.

End BatchRun.

Lemma forallb_concat {A : Type} (p : A -> bool) (ls : list (list A)) :
  forallb p (concat ls) = true <-> forall l, In l ls -> forallb p l = true.
Proof.
  induction ls as [| l ls IH]; simpl.
  - split; [intros _ l [] | reflexivity].
  - rewrite forallb_app, andb_true_iff, IH. split.
    + intros [Hl Hls] l' [<- | Hin]; auto.
    + intros H. split; [apply H; now left | intros l' Hl'; apply H; now right].
Qed.

(** C2. For a positive batch size, on a connection whose table exists and
    that has no open transaction: the rows are cut in order into
    [ceil(N / batch_size)] batches, batch [k] holding
    [min(batch_size, N - k * batch_size)] rows. When every row is
    accepted, each batch is executed and committed in turn and the method
    returns [True]. When a batch is refused after the batches [good], the
    method returns [False]; the journal shows one execute and one commit
    for each batch of [good], then the execute of the refused batch and one
    rollback, and nothing after it (no later batch, no second attempt);
    the table holds exactly what it held before and the rows of [good]. *)
Theorem insert_data_simple_batch_transactions
  (accepts_row : row -> bool) (df : Prepared) (batch_size : Z) (c : Conn)
  (sch : schema) :
  0 < batch_size -> table c = Some sch -> pending c = [] ->
  let data : list row := map (map convert_value) (iterrows df) in
  let batches := batches_of data batch_size in
  let n := Z.of_nat (length data) in
  concat batches = data /\
  Z.of_nat (length batches) = (n + batch_size - 1) / batch_size /\
  (forall k b, nth_error batches k = Some b ->
     Z.of_nat (length b) = Z.min batch_size (n - Z.of_nat k * batch_size) /\
     (0 < length b)%nat) /\
  (forallb accepts_row data = true ->
   _insert_data_simple accepts_row df batch_size c =
   ({| table := Some sch;
       committed := committed c ++ data;
       pending := [];
       journal := journal c ++
                  flat_map (fun b => [EvExecutemany b; EvCommit]) batches |},
    true)) /\
  (forall good bad rest,
     batches = good ++ bad :: rest ->
     forallb accepts_row (concat good) = true ->
     forallb accepts_row bad = false ->
     _insert_data_simple accepts_row df batch_size c =
     ({| table := Some sch;
         committed := committed c ++ concat good;
         pending := [];
         journal := journal c ++
                    flat_map (fun b => [EvExecutemany b; EvCommit]) good ++
                    [EvExecutemany bad; EvRollback] |},
      false)).
Proof.
  intros Hb Ht Hp data batches n.
  destruct (batches_of_partition data batch_size Hb) as (Hcat & Hlen & Hsize).
  fold batches in Hcat, Hlen, Hsize. fold n in Hlen, Hsize.
  split; [exact Hcat |]. split; [exact Hlen |]. split; [exact Hsize |].
  assert (Hnz : (batch_size =? 0) = false) by (apply Z.eqb_neq; lia).
  split.
  - intros Hall. unfold _insert_data_simple. fold data. rewrite Hnz.
    rewrite (insert_batches_accepted accepts_row _ data batch_size None c sch Ht Hp).
    + f_equal. f_equal; f_equal.
      * exact Hcat.
      * unfold batches, batches_of. now rewrite !flat_map_concat_map, map_map.
    + intros i Hi. rewrite <- Hcat in Hall.
      apply (proj1 (forallb_concat _ _) Hall).
      unfold batches, batches_of.
      exact (in_map (fun i => slice data i (i + batch_size)) _ _ Hi).
  - intros good bad rest Hsplit Hgood Hbad.
    unfold batches, batches_of in Hsplit.
    apply map_eq_app in Hsplit as (sg & sr' & Hstarts & Hg & Hr).
    apply map_eq_cons in Hr as (i & sr & -> & Hi & _).
    unfold _insert_data_simple. fold data. rewrite Hnz, Hstarts.
    rewrite (insert_batches_refused accepts_row sg i sr data batch_size None c sch
               Ht Hp).
    + f_equal. f_equal; f_equal.
      * now rewrite <- Hg.
      * rewrite <- Hg, <- Hi. f_equal.
        now rewrite !flat_map_concat_map, map_map.
    + intros j Hj. apply (proj1 (forallb_concat _ _) Hgood).
      rewrite <- Hg.
      exact (in_map (fun i => slice data i (i + batch_size)) _ _ Hj).
    + now rewrite Hi.
Qed.

(** Five rows in batches of two: three batches of 2, 2 and 1 rows; the
    refusal of the second batch leaves the first one in the table and
    ends the run with a rollback. *)
Lemma insert_data_simple_batch_transactions_witness :
  0 < 2 /\
  table fresh_table = Some [("loan_amnt", INTEGER)] /\
  pending fresh_table = [] /\
  map (@length row)
      (batches_of (map (map convert_value) (iterrows five_loans)) 2) = [2; 2; 1]%nat /\
  _insert_data_simple refuses_3000 five_loans 2 fresh_table =
  ({| table := Some [("loan_amnt", INTEGER)];
      committed := [[Some (PyInt 1000)]; [Some (PyInt 2000)]];
      pending := [];
      journal :=
        [EvExecutemany [[Some (PyInt 1000)]; [Some (PyInt 2000)]]; EvCommit;
         EvExecutemany [[Some (PyInt 3000)]; [Some (PyInt 4000)]]; EvRollback] |},
   false).
Proof.
  split; [lia |]. split; [reflexivity |]. split; [reflexivity |].
  split; [reflexivity |].
  destruct (insert_data_simple_batch_transactions refuses_3000 five_loans 2
              fresh_table [("loan_amnt", INTEGER)] eq_refl eq_refl eq_refl)
    as (_ & _ & _ & _ & Hrefused).
  exact (Hrefused [[[Some (PyInt 1000)]; [Some (PyInt 2000)]]]
           [[Some (PyInt 3000)]; [Some (PyInt 4000)]]
           [[[Some (PyInt 5000)]]] eq_refl eq_refl eq_refl).
Defined.

(** Two stored rows where five are expected fail the validation. *)
Lemma validate_load_one_percent_tolerance_witness :
  table after_first_batch = Some [("loan_amnt", INTEGER)] /\
  success (_validate_load after_first_batch 5) = false /\
  In (RowCountMismatch 2 5) (load_issues (_validate_load after_first_batch 5)).
Proof.
  split; [reflexivity |].
  destruct (validate_load_one_percent_tolerance after_first_batch 5
              [("loan_amnt", INTEGER)] eq_refl)
    as (_ & _ & _ & Hz & Hin & _).
  assert (Hs : success (_validate_load after_first_batch 5) = false)
    by (apply Hz; simpl; lia).
  split; [exact Hs |]. apply Hin. exact Hs.
Defined.

(** ** The derived features on four loans *)

Lemma default_and_fully_paid_exclusive_witness :
  get_col "loan_status" four_loans =
    Some (ObjectS [Some "FULLY PAID"; Some "CHARGED OFF"; Some "CURRENT"; None]) /\
  exists df' d p,
    _create_derived_features four_loans = Ok df' /\
    get_col "is_default" df' = Some (NumericS d) /\
    get_col "is_fully_paid" df' = Some (NumericS p) /\
    nth 0 p None = Some 1%Q /\
    nth 1 d None = Some 1%Q /\
    ~ (nth 0 d None = Some 1%Q /\ nth 0 p None = Some 1%Q).
Proof.
  split; [reflexivity |].
  destruct (_create_derived_features four_loans) as [df' | e] eqn:E;
    [| vm_compute in E; discriminate].
  destruct (default_and_fully_paid_exclusive four_loans df' _ eq_refl E)
    as (d & p & Hd & Hp & _ & _ & Hrows).
  exists df', d, p. split; [reflexivity |]. split; [exact Hd |]. split; [exact Hp |].
  destruct (Hrows 0%nat) as (_ & _ & _ & Hp0 & Hex0); [simpl; lia |].
  destruct (Hrows 1%nat) as (_ & _ & Hd1 & _ & _); [simpl; lia |].
  split; [apply Hp0; reflexivity |].
  split; [apply Hd1; exists "CHARGED OFF"; split; [reflexivity | simpl; auto] |].
  exact Hex0.
Defined.

(** [annual_inc = 0] with [loan_amnt = 5000] gives a missing ratio; an
    income of 50000 with an amount of 10000 gives their quotient. *)
Lemma loan_to_income_ratio_zero_income_is_null_witness :
  get_col "loan_amnt" four_loans =
    Some (NumericS [Some (5000 # 1); Some (10000 # 1); None; Some (2000 # 1)]) /\
  get_col "annual_inc" four_loans =
    Some (NumericS [Some 0%Q; Some (50000 # 1); Some (40000 # 1); None]) /\
  exists df' r,
    _create_derived_features four_loans = Ok df' /\
    get_col "loan_to_income_ratio" df' = Some (NumericS r) /\
    nth 0 r None = None /\
    nth 1 r None = Some ((10000 # 1) / (50000 # 1))%Q /\
    nth 3 r None = None.
Proof.
  split; [reflexivity |]. split; [reflexivity |].
  destruct (loan_to_income_ratio_zero_income_is_null four_loans _ _ eq_refl eq_refl)
    as (Hreturns & Hrows).
  destruct (Hreturns I) as (df' & E).
  destruct (Hrows df' E) as (r & Hr & _ & Hrow).
  exists df', r. split; [exact E |]. split; [exact Hr |].
  split; [| split].
  - destruct (Hrow 0%nat) as (Hz & _); [simpl; lia | simpl; lia |].
    apply Hz. reflexivity.
  - destruct (Hrow 1%nat) as (_ & Hnz); [simpl; lia | simpl; lia |].
    apply Hnz. discriminate.
  - apply (Hrow 3%nat); simpl; lia.
Defined.

(** ** Missing values *)

Lemma fillna_length {A : Type} (v : A) (xs : list (option A)) :
  length (fillna v xs) = length xs.
Proof. unfold fillna. apply length_map. Qed.

Lemma fillna_opt_length {A : Type} (v : option A) (xs : list (option A)) :
  length (fillna_opt v xs) = length xs.
Proof. destruct v; simpl; [apply fillna_length | reflexivity]. Qed.

Lemma impute_column_len (col : string) (n : nat) (s : Series) :
  series_len (impute_column col n s) = series_len s.
Proof.
  unfold impute_column.
  destruct s as [xs | xs | xs | xs]; simpl; try reflexivity.
  - destruct (Qlt_bool 30 _); simpl; apply fillna_length.
  - destruct (Qlt_bool 30 _); [destruct (rate_like col) |]; simpl;
      rewrite ?fillna_length, ?fillna_opt_length; reflexivity.
Qed.

Lemma impute_if_missing_fst (n : nat) (cs : string * Series) :
  fst (impute_if_missing n cs) = fst cs.
Proof. unfold impute_if_missing. now destruct (isnull_count (snd cs) =? 0)%nat. Qed.

Lemma impute_if_missing_len (n : nat) (cs : string * Series) :
  series_len (snd (impute_if_missing n cs)) = series_len (snd cs).
Proof.
  unfold impute_if_missing. destruct (isnull_count (snd cs) =? 0)%nat;
    [reflexivity | apply impute_column_len].
Qed.

Lemma get_col_not_in (c : string) (df : DataFrame) :
  ~ In c (columns df) -> get_col c df = None.
Proof.
  intros H. pose proof (has_col_get_col c df) as Hh.
  unfold has_col in Hh. apply mem_false_iff in H. rewrite H in Hh.
  now destruct (get_col c df).
Qed.

(** Assigning to a label that occurs once replaces that column in place. *)
Lemma set_col_middle (pre rest : DataFrame) (col : string) (s s' : Series) :
  NoDup (columns (pre ++ (col, s) :: rest)) ->
  set_col col s' (pre ++ (col, s) :: rest) = pre ++ (col, s') :: rest.
Proof.
  intros Hnd. unfold set_col.
  assert (Hhas : has_col col (pre ++ (col, s) :: rest) = true).
  { apply mem_true_iff. rewrite columns_app. apply in_or_app. right. now left. }
  rewrite Hhas. rewrite columns_app in Hnd. simpl in Hnd.
  apply NoDup_remove_2 in Hnd.
  rewrite map_app. simpl. rewrite String.eqb_refl. f_equal; [| f_equal].
  - rewrite <- (map_id pre) at 2. apply map_ext_in. intros [c0 s0] Hin. simpl.
    destruct (String.eqb c0 col) eqn:E; [| reflexivity].
    apply String.eqb_eq in E. subst. exfalso. apply Hnd. apply in_or_app. left.
    unfold columns. change col with (fst (col, s0)). now apply in_map.
  - rewrite <- (map_id rest) at 2. apply map_ext_in. intros [c0 s0] Hin. simpl.
    destruct (String.eqb c0 col) eqn:E; [| reflexivity].
    apply String.eqb_eq in E. subst. exfalso. apply Hnd. apply in_or_app. right.
    unfold columns. change col with (fst (col, s0)). now apply in_map.
Qed.

Lemma len_app_update (pre rest : DataFrame) (col : string) (s s' : Series) :
  series_len s' = series_len s ->
  len (pre ++ (col, s') :: rest) = len (pre ++ (col, s) :: rest).
Proof.
  intros H. destruct pre as [| [c0 s0] pre]; simpl; [exact H | reflexivity].
Qed.

(** The loop treats every column once, in place. *)
Lemma impute_loop_columns (suf pre : DataFrame) (bound : bool) :
  NoDup (columns (pre ++ suf)) ->
  impute_loop (columns suf) (pre ++ suf) bound =
  (pre ++ map (impute_if_missing (len (pre ++ suf))) suf,
   bound || existsb has_missing suf).
Proof.
  revert pre bound. induction suf as [| [col s] suf IH]; intros pre bound Hnd.
  - simpl. now rewrite orb_false_r.
  - cbn [columns map fst impute_loop].
    assert (Hget : get_col col (pre ++ (col, s) :: suf) = Some s).
    { rewrite get_col_app, get_col_not_in.
      - simpl. now rewrite String.eqb_refl.
      - rewrite columns_app in Hnd. simpl in Hnd.
        apply NoDup_remove_2 in Hnd. intros Hin. apply Hnd.
        apply in_or_app. now left. }
    rewrite Hget.
    unfold impute_if_missing at 1, has_missing at 1. cbn [fst snd existsb].
    destruct (isnull_count s =? 0)%nat eqn:E.
    + change (pre ++ (col, s) :: suf) with (pre ++ [(col, s)] ++ suf) in *.
      rewrite app_assoc in *. fold (columns suf). rewrite (IH _ _ Hnd).
      rewrite <- !app_assoc. simpl. reflexivity.
    + rewrite (set_col_middle pre suf col s _ Hnd).
      set (s' := impute_column col (len (pre ++ (col, s) :: suf)) s).
      assert (Hlen : len (pre ++ (col, s') :: suf) = len (pre ++ (col, s) :: suf))
        by (apply len_app_update, impute_column_len).
      change (pre ++ (col, s') :: suf) with (pre ++ [(col, s')] ++ suf).
      rewrite app_assoc. fold (columns suf). rewrite IH.
      * rewrite <- !app_assoc. simpl. rewrite Hlen. simpl.
        now rewrite orb_true_r.
      * rewrite <- app_assoc. simpl.
        rewrite columns_app in *. simpl in *. exact Hnd.
Qed.

Lemma handle_missing_values_unfold (df : DataFrame) :
  NoDup (columns df) ->
  _handle_missing_values df =
  if existsb has_missing df
  then dropna_subset critical_columns (map (impute_if_missing (len df)) df)
  else Raise (UnboundLocalError "critical_columns").
Proof.
  intros Hnd. unfold _handle_missing_values.
  pose proof (impute_loop_columns df [] false Hnd) as H.
  cbn [app orb] in H. now rewrite H.
Qed.

Lemma get_col_frame_keep (c : string) (mask : list bool) (df : DataFrame) :
  get_col c (frame_keep mask df) = option_map (series_keep mask) (get_col c df).
Proof.
  unfold frame_keep. induction df as [| [c0 s0] df IH]; simpl; [reflexivity |].
  destruct (String.eqb c0 c); [reflexivity | exact IH].
Qed.

Lemma map_keep {A B : Type} (f : A -> B) (mask : list bool) (xs : list A) :
  map f (keep mask xs) = keep mask (map f xs).
Proof.
  revert xs. induction mask as [| b mask IH]; intros [| x xs]; simpl; try reflexivity.
  destruct b; simpl; now rewrite IH.
Qed.

Lemma null_mask_series_keep (mask : list bool) (s : Series) :
  null_mask (series_keep mask s) = keep mask (null_mask s).
Proof. destruct s; simpl; apply map_keep. Qed.

Lemma nth_zip_andb (a b : list bool) (i : nat) :
  nth i (zip_with andb a b) false = true ->
  nth i a false = true /\ nth i b false = true.
Proof.
  revert b i. induction a as [| x a IH]; intros [| y b] i; simpl.
  - destruct i; discriminate.
  - destruct i; discriminate.
  - destruct i; discriminate.
  - destruct i; [apply andb_prop | apply IH].
Qed.

Lemma nth_map_negb (m : list bool) (i : nat) :
  nth i (map negb m) false = true -> nth i m true = false.
Proof.
  revert i. induction m as [| b m IH]; intros [| i]; simpl; try discriminate.
  - now destruct b.
  - apply IH.
Qed.

(** A row kept by [dropna] has a value in every column of the subset. *)
Lemma notnull_rows_sound (subset : list string) (df : DataFrame) (c : string)
  (s : Series) (i : nat) :
  In c subset -> get_col c df = Some s ->
  nth i (notnull_rows subset df) false = true ->
  nth i (null_mask s) true = false.
Proof.
  induction subset as [| c0 subset IH]; simpl; [contradiction |].
  intros [-> | Hin] Hget Hi.
  - rewrite Hget in Hi. apply nth_zip_andb in Hi as [Hi _].
    now apply nth_map_negb.
  - destruct (get_col c0 df) as [s0 |]; [| now apply IH].
    apply nth_zip_andb in Hi as [_ Hi]. now apply IH.
Qed.

Lemma keep_covered (mask nulls : list bool) :
  (forall i, nth i mask false = true -> nth i nulls true = false) ->
  count_true (keep mask nulls) = 0%nat.
Proof.
  revert nulls. induction mask as [| b mask IH]; intros [| x nulls] H; simpl;
    try reflexivity.
  assert (Htl : forall i, nth i mask false = true -> nth i nulls true = false)
    by (intros i; exact (H (S i))).
  destruct b; [| now apply IH].
  pose proof (H 0%nat eq_refl) as H0. simpl in H0. subst x.
  unfold count_true in *. simpl. now apply IH.
Qed.

Lemma dropna_subset_ok (subset : list string) (df df' : DataFrame) :
  dropna_subset subset df = Ok df' ->
  df' = frame_keep (notnull_rows subset df) df /\
  forall c, In c subset -> has_col c df = true.
Proof.
  unfold dropna_subset.
  destruct (find (fun c => negb (has_col c df)) subset) as [c |] eqn:E;
    [discriminate |].
  intros [= <-]. split; [reflexivity |].
  intros c Hc. pose proof (find_none _ _ E c Hc) as H. simpl in H.
  now destruct (has_col c df).
Qed.

(** After [dropna(subset=...)] the columns of the subset hold no missing
    value. *)
Lemma dropna_subset_null_free (subset : list string) (df df' : DataFrame) (c : string) :
  dropna_subset subset df = Ok df' -> In c subset ->
  exists s, get_col c df' = Some s /\ isnull_count s = 0%nat.
Proof.
  intros H Hc. apply dropna_subset_ok in H as [-> Hhas].
  specialize (Hhas c Hc). rewrite has_col_get_col in Hhas.
  destruct (get_col c df) as [s |] eqn:G; [| discriminate].
  exists (series_keep (notnull_rows subset df) s). split.
  - now rewrite get_col_frame_keep, G.
  - unfold isnull_count. rewrite null_mask_series_keep.
    apply keep_covered. intros i Hi.
    exact (notnull_rows_sound subset df c s i Hc G Hi).
Qed.

Lemma handle_missing_values_null_free (df df' : DataFrame) (c : string) :
  _handle_missing_values df = Ok df' -> In c critical_columns ->
  exists s, get_col c df' = Some s /\ isnull_count s = 0%nat.
Proof.
  unfold _handle_missing_values.
  destruct (impute_loop (columns df) df false) as [df1 bound].
  destruct bound; [| discriminate].
  apply dropna_subset_null_free.
Qed.

(** ** The cleaned frame and its critical columns *)

(** A column of timestamps goes through the remaining formats unchanged. *)
Lemma try_patterns_datetime
  (parse_datetime : option string -> scalar -> option Date)
  (patterns : list string) (ys : list (option Date)) :
  try_patterns parse_datetime patterns (DatetimeS ys) = DatetimeS ys.
Proof.
  induction patterns as [| p patterns IH]; simpl; [reflexivity |].
  destruct (any_notna (DatetimeS ys)); [reflexivity | exact IH].
Qed.

(** The first attempt overwrites the column with timestamps, so the loop
    over the formats ends with what the first format parsed. *)
Lemma convert_date_column_first_pattern
  (parse_datetime : option string -> scalar -> option Date) (s : Series) :
  convert_date_column parse_datetime s =
  to_datetime parse_datetime (Some "%b-%Y") s.
Proof.
  assert (Hdt : exists ys, to_datetime parse_datetime (Some "%b-%Y") s = DatetimeS ys)
    by (destruct s; simpl; eauto).
  destruct Hdt as (ys & Hys).
  assert (Htry : forall rest,
             try_patterns parse_datetime ("%b-%Y" :: rest) s = DatetimeS ys).
  { intros rest. cbn [try_patterns]. rewrite Hys.
    destruct (any_notna (DatetimeS ys)); [reflexivity | apply try_patterns_datetime]. }
  unfold convert_date_column, date_patterns. rewrite Htry, Hys. reflexivity.
Qed.

(** The run of [clean_loan_data] on the two raw loans up to the date
    conversion, in the two dates that the first format yields. *)
Lemma two_raw_loans_cleaning
  (py_str : scalar -> string) (to_numeric : string -> option Q)
  (parse_datetime : option string -> scalar -> option Date) (sqrtQ : Q -> Q)
  (na_repr : string -> nat -> string) :
  clean_loan_data py_str to_numeric parse_datetime sqrtQ na_repr two_raw_loans None =
  (df5 <- _clean_text_columns na_repr
            [("loan_amnt", NumericS [Some (10000 # 1); Some (20000 # 1)]);
             ("issue_d",
              DatetimeS [parse_datetime (Some "%b-%Y") (SText "Dec-2018");
                         parse_datetime (Some "%b-%Y") (SText "2018-12-01")]);
             ("loan_status", ObjectS [Some "Fully Paid"; Some "na"]);
             ("emp_title", ObjectS [Some "Engineer"; Some "UNKNOWN"])] ;;
   df6 <- _create_derived_features df5 ;;
   validation_report <- _validate_cleaned_data df6 ;;
   Ok df6).
Proof.
  unfold clean_loan_data.
  assert (HA : _handle_missing_values (_standardize_column_names two_raw_loans) =
               Ok [("loan_amnt", NumericS [Some (10000 # 1); Some (20000 # 1)]);
                   ("issue_d", ObjectS [Some "Dec-2018"; Some "2018-12-01"]);
                   ("loan_status", ObjectS [Some "Fully Paid"; Some "na"]);
                   ("emp_title", ObjectS [Some "Engineer"; Some "UNKNOWN"])])
    by (vm_compute; reflexivity).
  cbn [handle_missing convert_dates create_features remove_outliers default_config].
  rewrite HA. cbn [bind].
  set (dfA := [("loan_amnt", NumericS [Some (10000 # 1); Some (20000 # 1)]);
               ("issue_d", ObjectS [Some "Dec-2018"; Some "2018-12-01"]);
               ("loan_status", ObjectS [Some "Fully Paid"; Some "na"]);
               ("emp_title", ObjectS [Some "Engineer"; Some "UNKNOWN"])]).
  assert (HB : _convert_data_types py_str to_numeric dfA =
               ({| date_columns := ["issue_d"]; categorical_columns := [];
                   numeric_columns := ["loan_amnt"] |}, dfA))
    by (vm_compute; reflexivity).
  rewrite HB. cbv beta iota.
  assert (HC : _convert_date_columns parse_datetime
                 {| date_columns := ["issue_d"]; categorical_columns := [];
                    numeric_columns := ["loan_amnt"] |} dfA =
               set_col "issue_d"
                 (convert_date_column parse_datetime
                    (ObjectS [Some "Dec-2018"; Some "2018-12-01"])) dfA)
    by reflexivity.
  rewrite HC, convert_date_column_first_pattern. reflexivity.
Qed.

(** C1 (counterexample). The two loans have no missing value in the
    critical columns, so the row-dropping step keeps both. Whatever the
    parsers of pandas answer, the text cleaning that runs afterwards turns
    the status [na] into a missing value, and the frame that
    [clean_loan_data] returns under the default configuration has a row
    whose [loan_status] is missing. When the first date format parses the
    first issue date and not the second, the returned frame has a missing
    [issue_d] as well. *)
Lemma returned_frame_has_null_critical_cell :
  handle_missing default_config = true /\
  (forall py_str to_numeric parse_datetime sqrtQ na_repr,
     exists out,
       clean_loan_data py_str to_numeric parse_datetime sqrtQ na_repr
         two_raw_loans None = Ok out /\
       get_col "loan_status" out = Some (ObjectS [Some "FULLY PAID"; None])) /\
  (forall py_str to_numeric parse_datetime sqrtQ na_repr d,
     parse_datetime (Some "%b-%Y") (SText "Dec-2018") = Some d ->
     parse_datetime (Some "%b-%Y") (SText "2018-12-01") = None ->
     exists out,
       clean_loan_data py_str to_numeric parse_datetime sqrtQ na_repr
         two_raw_loans None = Ok out /\
       get_col "issue_d" out = Some (DatetimeS [Some d; None])).
Proof.
  split; [reflexivity |]. split.
  - intros py_str to_numeric parse_datetime sqrtQ na_repr.
    rewrite two_raw_loans_cleaning.
    destruct (parse_datetime (Some "%b-%Y") (SText "Dec-2018")) as [d1 |];
      destruct (parse_datetime (Some "%b-%Y") (SText "2018-12-01")) as [d2 |];
      eexists; (split; [cbv; reflexivity | reflexivity]).
  - intros py_str to_numeric parse_datetime sqrtQ na_repr d E1 E2.
    rewrite two_raw_loans_cleaning, E1, E2.
    eexists; (split; [cbv; reflexivity | reflexivity]).
Qed.

(** C1 (amended). Whenever [clean_loan_data] returns with
    [handle_missing] enabled, the frame that left its row-dropping step
    ([_handle_missing_values] on the frame with standardized labels) holds
    the three critical columns, none of them with a missing value. *)
Theorem critical_columns_null_free_after_row_drop
  (py_str : scalar -> string) (to_numeric : string -> option Q)
  (parse_datetime : option string -> scalar -> option Date) (sqrtQ : Q -> Q)
  (na_repr : string -> nat -> string)
  (df out : DataFrame) (config : option Config) :
  handle_missing (match config with
                  | Some c => c
                  | None => default_config
                  end) = true ->
  clean_loan_data py_str to_numeric parse_datetime sqrtQ na_repr df config = Ok out ->
  exists df2,
    _handle_missing_values (_standardize_column_names df) = Ok df2 /\
    forall c, In c critical_columns ->
      exists s, get_col c df2 = Some s /\ isnull_count s = 0%nat.
Proof.
  intros Hcfg Hclean. unfold clean_loan_data in Hclean.
  rewrite Hcfg in Hclean.
  destruct (_handle_missing_values (_standardize_column_names df)) as [df2 | e] eqn:E;
    [| discriminate].
  exists df2. split; [reflexivity |].
  intros c Hc. exact (handle_missing_values_null_free _ _ c E Hc).
Qed.

Lemma critical_columns_null_free_after_row_drop_witness :
  handle_missing default_config = true /\
  exists out df2,
    clean_loan_data example_py_str example_to_numeric example_parse_datetime
      example_sqrt example_na_repr two_raw_loans None = Ok out /\
    _handle_missing_values (_standardize_column_names two_raw_loans) = Ok df2 /\
    forall c, In c critical_columns ->
      exists s, get_col c df2 = Some s /\ isnull_count s = 0%nat.
Proof.
  split; [reflexivity |].
  destruct (clean_loan_data example_py_str example_to_numeric
              example_parse_datetime example_sqrt example_na_repr two_raw_loans None)
    as [out | e] eqn:E; [| vm_compute in E; discriminate].
  destruct (critical_columns_null_free_after_row_drop _ _ _ _ _ _ _ None eq_refl E)
    as (df2 & H2 & Hnull).
  exists out, df2. split; [reflexivity |]. split; [exact H2 | exact Hnull].
Defined.

(** [_handle_missing_values] returns as soon as the labels are distinct,
    some column has a missing value and the critical columns exist. *)
Lemma handle_missing_values_returns (df : DataFrame) :
  NoDup (columns df) ->
  existsb has_missing df = true ->
  (forall c, In c critical_columns -> In c (columns df)) ->
  _handle_missing_values df =
  Ok (frame_keep
        (notnull_rows critical_columns (map (impute_if_missing (len df)) df))
        (map (impute_if_missing (len df)) df)).
Proof.
  intros Hnd Hmiss Hcrit. rewrite handle_missing_values_unfold by assumption.
  rewrite Hmiss. unfold dropna_subset.
  destruct (find _ critical_columns) as [c |] eqn:E; [| reflexivity].
  exfalso. apply find_some in E as [Hin Hc].
  apply Hcrit in Hin. apply negb_true_iff in Hc.
  apply mem_false_iff in Hc. apply Hc.
  unfold columns in *. rewrite map_map.
  erewrite map_ext; [exact Hin |]. intros cs. apply impute_if_missing_fst.
Qed.

Lemma get_col_map_impute (n : nat) (c : string) (df : DataFrame) :
  get_col c (map (impute_if_missing n) df) =
  option_map (fun s => snd (impute_if_missing n (c, s))) (get_col c df).
Proof.
  induction df as [| [c0 s0] df IH]; [reflexivity |].
  cbn [map get_col].
  destruct (impute_if_missing n (c0, s0)) as [c1 s1] eqn:Es.
  assert (Hc : c1 = c0)
    by (pose proof (impute_if_missing_fst n (c0, s0)) as H; now rewrite Es in H).
  subst c1. destruct (String.eqb c0 c) eqn:E; [| exact IH].
  apply String.eqb_eq in E. subst c0. cbn [option_map]. now rewrite Es.
Qed.

Lemma null_mask_length (s : Series) : length (null_mask s) = series_len s.
Proof. destruct s; simpl; apply length_map. Qed.

Lemma len_map_impute (n : nat) (df : DataFrame) :
  len (map (impute_if_missing n) df) = len df.
Proof.
  destruct df as [| [c s] df]; simpl; [reflexivity |].
  pose proof (impute_if_missing_len n (c, s)) as H.
  destruct (impute_if_missing n (c, s)). exact H.
Qed.

Lemma notnull_rows_length (subset : list string) (df : DataFrame) :
  (forall c s, In c subset -> get_col c df = Some s -> series_len s = len df) ->
  length (notnull_rows subset df) = len df.
Proof.
  induction subset as [| c subset IH]; simpl; intros H; [apply repeat_length |].
  assert (IH' : length (notnull_rows subset df) = len df)
    by (apply IH; intros c' s' Hc; apply H; now right).
  destruct (get_col c df) as [s |] eqn:G; [| exact IH'].
  rewrite zip_with_length, length_map, null_mask_length, IH'.
  rewrite (H c s (or_introl eq_refl) G). apply Nat.min_id.
Qed.

Lemma well_formed_col_len (df : DataFrame) (c : string) (s : Series) :
  well_formed df -> get_col c df = Some s -> series_len s = len df.
Proof.
  intros [_ Hall] G. apply get_col_In in G.
  rewrite Forall_forall in Hall. exact (Hall _ G).
Qed.

(** *** The mode of a text column *)

Lemma leb_spec (a b : string) :
  String.leb a b = true <-> OrderedTypeEx.String_as_OT.lt a b \/ a = b.
Proof.
  unfold String.leb. destruct (String.compare a b) eqn:E.
  - apply OrderedTypeEx.String_as_OT.cmp_eq in E. tauto.
  - apply OrderedTypeEx.String_as_OT.cmp_lt in E. tauto.
  - split; [discriminate |].
    assert (Hgt : OrderedTypeEx.String_as_OT.lt b a).
    { apply OrderedTypeEx.String_as_OT.cmp_lt.
      unfold OrderedTypeEx.String_as_OT.cmp.
      rewrite String.compare_antisym, E. reflexivity. }
    intros [Hlt | ->]; exfalso.
    + exact (OrderedTypeEx.String_as_OT.lt_not_eq _ _
               (OrderedTypeEx.String_as_OT.lt_trans _ _ _ Hlt Hgt) eq_refl).
    + exact (OrderedTypeEx.String_as_OT.lt_not_eq _ _ Hgt eq_refl).
Qed.

Lemma leb_trans (a b c : string) :
  String.leb a b = true -> String.leb b c = true -> String.leb a c = true.
Proof.
  rewrite !leb_spec. intros [H1 | ->] [H2 | ->]; auto.
  left. exact (OrderedTypeEx.String_as_OT.lt_trans _ _ _ H1 H2).
Qed.

Lemma leb_refl (a : string) : String.leb a a = true.
Proof. apply leb_spec. now right. Qed.

Lemma insert_by_In {A : Type} (le : A -> A -> bool) (x y : A) (l : list A) :
  In y (insert_by le x l) <-> y = x \/ In y l.
Proof.
  induction l as [| z l IH]; simpl; [intuition |].
  destruct (le x z); simpl; [intuition | rewrite IH; intuition].
Qed.

Lemma sort_by_In {A : Type} (le : A -> A -> bool) (y : A) (l : list A) :
  In y (sort_by le l) <-> In y l.
Proof.
  unfold sort_by. induction l as [| x l IH]; simpl; [tauto |].
  rewrite insert_by_In, IH. intuition.
Qed.

(** A list whose first string is below all its strings keeps that
    property when a string is inserted. *)
Lemma insert_by_head_least (x : string) (l : list string) :
  (forall m rest, l = m :: rest -> forall y, In y l -> String.leb m y = true) ->
  forall m rest, insert_by String.leb x l = m :: rest ->
  forall y, In y (insert_by String.leb x l) -> String.leb m y = true.
Proof.
  intros Hl m rest Hi y Hy. destruct l as [| z l]; simpl in *.
  - injection Hi as <- <-. destruct Hy as [<- | []]. apply leb_refl.
  - destruct (String.leb x z) eqn:E; injection Hi as <- <-.
    + destruct Hy as [<- | Hy]; [apply leb_refl |].
      apply leb_trans with z; [assumption |]. now apply (Hl z l eq_refl).
    + destruct Hy as [<- | Hy]; [apply leb_refl |].
      apply insert_by_In in Hy as [-> | Hy].
      * destruct (String.leb_total x z) as [H | H]; congruence.
      * apply (Hl z l eq_refl). now right.
Qed.

Lemma sort_strings_head (l : list string) (m : string) (rest : list string) :
  sort_by String.leb l = m :: rest ->
  forall y, In y l -> String.leb m y = true.
Proof.
  intros Hs y Hy. apply (sort_by_In String.leb) in Hy.
  revert m rest Hs y Hy. unfold sort_by.
  induction l as [| x l IH]; simpl; [discriminate |].
  apply insert_by_head_least. exact IH.
Qed.

Lemma in_dropna_cells {A : Type} (x : A) (cells : list (option A)) :
  In x (dropna_cells cells) <-> In (Some x) cells.
Proof.
  induction cells as [| [a |] cells IH]; simpl; [tauto | |].
  - rewrite IH. split; [intros [-> | H]; auto | intros [[= ->] | H]; auto].
  - rewrite IH. split; [auto | intros [[=] | H]; auto].
Qed.

Lemma max_occurrences_ge (f : string -> nat) (xs : list string) (y : string) :
  In y xs -> (f y <= fold_right Nat.max O (map f xs))%nat.
Proof.
  induction xs as [| x xs IH]; simpl; [contradiction |].
  intros [-> | H]; [lia | specialize (IH H); lia].
Qed.

Lemma max_occurrences_attained (f : string -> nat) (xs : list string) :
  xs <> [] -> exists x, In x xs /\ f x = fold_right Nat.max O (map f xs).
Proof.
  induction xs as [| x xs IH]; [congruence |]. intros _. simpl.
  destruct xs as [| x' xs].
  - exists x. split; [now left | simpl; lia].
  - destruct IH as (z & Hz & Hfz); [discriminate |].
    destruct (Nat.le_ge_cases (f x) (fold_right Nat.max O (map f (x' :: xs)))).
    + exists z. split; [now right | lia].
    + exists x. split; [now left | lia].
Qed.

(** The first mode is a value of the column, no value occurs more often,
    and among the values that occur as often it comes first. *)
Lemma mode_head (cells : list (option string)) (m : string) (rest : list string) :
  mode cells = m :: rest ->
  In (Some m) cells /\
  forall y, In (Some y) cells ->
    (occurrences y (dropna_cells cells) <= occurrences m (dropna_cells cells))%nat /\
    (occurrences y (dropna_cells cells) = occurrences m (dropna_cells cells) ->
     String.leb m y = true).
Proof.
  unfold mode. set (xs := dropna_cells cells). intros Hs.
  assert (Hm : In m (sort_by String.leb
                       (nodup string_dec
                          (filter (fun x => (occurrences x xs =? max_occurrences xs)%nat)
                             xs)))) by (rewrite Hs; now left).
  apply sort_by_In, nodup_In, filter_In in Hm as [Hmx Hmax].
  apply Nat.eqb_eq in Hmax.
  split; [now apply in_dropna_cells |].
  intros y Hy. apply in_dropna_cells in Hy. fold xs in Hy.
  pose proof (max_occurrences_ge (fun x => occurrences x xs) xs y Hy) as Hle.
  fold (max_occurrences xs) in Hle. split; [lia |].
  intros Heq. apply (sort_strings_head _ _ _ Hs).
  apply nodup_In, filter_In. split; [assumption |]. apply Nat.eqb_eq. lia.
Qed.

(** There is no mode exactly when every cell is missing. *)
Lemma mode_nil (cells : list (option string)) :
  mode cells = [] <-> forall x, In x cells -> x = None.
Proof.
  unfold mode. set (xs := dropna_cells cells). split.
  - intros Hs [y |] Hx; [| reflexivity]. exfalso.
    apply in_dropna_cells in Hx. fold xs in Hx.
    destruct (max_occurrences_attained (fun x => occurrences x xs) xs)
      as (z & Hz & Hfz); [intros ->; contradiction |].
    assert (Hin : In z (sort_by String.leb
                          (nodup string_dec
                             (filter (fun x => (occurrences x xs =? max_occurrences xs)%nat)
                                xs)))).
    { apply sort_by_In, nodup_In, filter_In. split; [assumption |].
      apply Nat.eqb_eq. exact Hfz. }
    rewrite Hs in Hin. contradiction.
  - intros Hall. assert (Hxs : xs = []).
    { destruct xs as [| y ys] eqn:E; [reflexivity |].
      assert (Hy : In y xs) by (rewrite E; now left).
      unfold xs in Hy. apply in_dropna_cells in Hy. apply Hall in Hy. discriminate. }
    rewrite Hxs. reflexivity.
Qed.

Lemma impute_column_policy (col : string) (n : nat) (s : Series) :
  impute_column col n s =
  let missing_pct := percentage (isnull_count s) n in
  match s with
  | ObjectS xs =>
      ObjectS (fillna (if Qle_bool missing_pct 30
                       then hd "UNKNOWN" (mode xs)
                       else "UNKNOWN") xs)
  | NumericS xs =>
      NumericS (if Qle_bool missing_pct 30 then fillna_opt (median xs) xs
                else if rate_like col then fillna 0%Q xs
                else fillna_opt (median xs) xs)
  | DatetimeS xs => DatetimeS xs
  | CategoryS xs => CategoryS xs
  end.
Proof.
  unfold impute_column, Qlt_bool. cbv zeta.
  destruct s as [xs | xs | xs | xs]; try reflexivity.
  - destruct (Qle_bool _ 30); cbn [negb]; [| reflexivity].
    now destruct (mode xs).
  - destruct (Qle_bool _ 30); cbn [negb]; [reflexivity |].
    now destruct (rate_like col).
Qed.

(** The frame that [_handle_missing_values] returns: every column of the
    input after its turn of the loop, filtered by one mask of kept rows. *)
Lemma handle_missing_values_columns (df df' : DataFrame) :
  well_formed df ->
  _handle_missing_values df = Ok df' ->
  exists kept : list bool,
    length kept = len df /\
    forall col s, In (col, s) df ->
      get_col col df' =
      Some (series_keep kept (snd (impute_if_missing (len df) (col, s)))).
Proof.
  intros Hwf Hok. pose proof Hwf as [Hnd Hlen].
  rewrite handle_missing_values_unfold in Hok by assumption.
  destruct (existsb has_missing df); [| discriminate].
  apply dropna_subset_ok in Hok as [-> Hhas].
  set (df1 := map (impute_if_missing (len df)) df).
  exists (notnull_rows critical_columns df1). split.
  - rewrite <- (len_map_impute (len df) df). fold df1.
    apply notnull_rows_length. intros c s _ G.
    unfold df1 in *. rewrite len_map_impute.
    rewrite get_col_map_impute in G.
    destruct (get_col c df) as [s0 |] eqn:G0; [| discriminate].
    injection G as <-. rewrite impute_if_missing_len. simpl.
    exact (well_formed_col_len df c s0 Hwf G0).
  - intros col s Hin. rewrite get_col_frame_keep. unfold df1.
    now rewrite get_col_map_impute, (In_get_col col s df Hnd Hin).
Qed.

(** C5. On a well-formed frame on which [_handle_missing_values]
    returns, the rows are filtered by one mask, and every column is, up to
    that mask, the input column treated by the policy table: untouched
    without missing value; text filled with the mode (UNKNOWN when there
    is none) up to 30 percent missing and with UNKNOWN above; numbers
    filled with the median up to 30 percent, above with 0 when the label
    contains [rate] or [pct] and with the median otherwise; dates and
    categories left as they are. The mode is the most frequent value, the
    first one in text order among equally frequent ones, and there is none
    exactly when every cell is missing. *)
Theorem missing_values_follow_policy (df df' : DataFrame) :
  well_formed df ->
  _handle_missing_values df = Ok df' ->
  (exists kept : list bool,
     length kept = len df /\
     forall col s, In (col, s) df ->
       get_col col df' =
       Some (series_keep kept
               (if (isnull_count s =? 0)%nat then s
                else
                  let missing_pct := percentage (isnull_count s) (len df) in
                  match s with
                  | ObjectS xs =>
                      ObjectS (fillna (if Qle_bool missing_pct 30
                                       then hd "UNKNOWN" (mode xs)
                                       else "UNKNOWN") xs)
                  | NumericS xs =>
                      NumericS (if Qle_bool missing_pct 30
                                then fillna_opt (median xs) xs
                                else if rate_like col then fillna 0%Q xs
                                else fillna_opt (median xs) xs)
                  | DatetimeS xs => DatetimeS xs
                  | CategoryS xs => CategoryS xs
                  end))) /\
  (forall xs m rest, mode xs = m :: rest ->
     In (Some m) xs /\
     forall y, In (Some y) xs ->
       (occurrences y (dropna_cells xs) <= occurrences m (dropna_cells xs))%nat /\
       (occurrences y (dropna_cells xs) = occurrences m (dropna_cells xs) ->
        String.leb m y = true)) /\
  (forall xs, mode xs = [] <-> forall x, In x xs -> x = None).
Proof.
  intros Hwf Hok. split; [| split; [exact mode_head | exact mode_nil]].
  destruct (handle_missing_values_columns df df' Hwf Hok) as (kept & Hlen & Hcols).
  exists kept. split; [exact Hlen |].
  intros col s Hin. rewrite (Hcols col s Hin).
  f_equal. f_equal. unfold impute_if_missing. cbn [fst snd].
  destruct (isnull_count s =? 0)%nat; [reflexivity |].
  cbn [snd]. apply impute_column_policy.
Qed.

Lemma four_raw_loans_well_formed : well_formed four_raw_loans.
Proof.
  split; [apply distinct_NoDup; reflexivity | repeat constructor].
Qed.

Lemma missing_values_follow_policy_witness :
  well_formed four_raw_loans /\
  _handle_missing_values four_raw_loans = Ok four_raw_loans_imputed /\
  exists kept : list bool,
    length kept = 4%nat /\
    get_col "loan_status" four_raw_loans_imputed =
      Some (series_keep kept
              (ObjectS (fillna "Current" [Some "Current"; Some "Current"; None;
                                          Some "Late"]))) /\
    get_col "int_rate" four_raw_loans_imputed =
      Some (series_keep kept (NumericS (fillna 0%Q [None; None; Some (10 # 1); None]))).
Proof.
  split; [exact four_raw_loans_well_formed |].
  assert (Hok : _handle_missing_values four_raw_loans = Ok four_raw_loans_imputed)
    by (vm_compute; reflexivity).
  split; [exact Hok |].
  destruct (missing_values_follow_policy four_raw_loans four_raw_loans_imputed
              four_raw_loans_well_formed Hok) as ((kept & Hlen & Hcols) & _ & _).
  exists kept. split; [exact Hlen |]. split.
  - exact (Hcols "loan_status" _ (or_intror (or_intror (or_introl eq_refl)))).
  - exact (Hcols "int_rate" _
             (or_intror (or_intror (or_intror (or_introl eq_refl))))).
Defined.

(** *** Columns without any value *)

Lemma count_true_le (m : list bool) : (count_true m <= length m)%nat.
Proof. unfold count_true. apply filter_length_le. Qed.

Lemma all_null_cells {A : Type} (xs : list (option A)) :
  count_true (map isnull xs) = length xs -> xs = repeat None (length xs).
Proof.
  induction xs as [| [a |] xs IH]; simpl; intros H; [reflexivity | |].
  - pose proof (count_true_le (map isnull xs)) as Hle.
    rewrite length_map in Hle. unfold count_true in *. simpl in H. lia.
  - f_equal. apply IH. unfold count_true in *. simpl in H. lia.
Qed.

Lemma keep_repeat {A : Type} (mask : list bool) (v : A) (n : nat) :
  exists k, (k <= n)%nat /\ keep mask (repeat v n) = repeat v k.
Proof.
  revert n. induction mask as [| b mask IH]; intros n.
  - exists O. split; [lia | now destruct n].
  - destruct n as [| n]; [exists O; split; [lia | reflexivity] |].
    destruct (IH n) as (k & Hk & Hkeep). simpl. rewrite Hkeep.
    destruct b; [exists (S k) | exists k]; split; try lia; reflexivity.
Qed.

Lemma fillna_repeat_none {A : Type} (v : A) (n : nat) :
  fillna v (repeat None n) = repeat (Some v) n.
Proof. induction n as [| n IH]; simpl; [reflexivity | now rewrite <- IH]. Qed.

Lemma dropna_repeat_none {A : Type} (n : nat) :
  dropna_cells (repeat (@None A) n) = [].
Proof. induction n as [| n IH]; simpl; [reflexivity | exact IH]. Qed.

Lemma median_all_null (n : nat) : median (repeat None n) = None.
Proof. unfold median. now rewrite dropna_repeat_none. Qed.

(** A column that is entirely missing is 100 percent missing. *)
Lemma percentage_all (n : nat) :
  (0 < n)%nat -> Qlt_bool 30 (percentage n n) = true.
Proof.
  intros Hn. apply Qlt_bool_iff. unfold percentage, Qlt.
  cbn [Qnum Qden Qmult].
  assert (Hpos : Z.pos (Pos.of_nat n) = Z.of_nat n).
  { rewrite <- positive_nat_Z. f_equal. apply Nat2Pos.id. lia. }
  rewrite Pos2Z.inj_mul, Hpos. lia.
Qed.

(** C6 (counterexample). The income column of the two loans is entirely
    missing and its label names no rate: the call returns and the column
    still holds its two missing values, as does the empty date column.
    A frame without the critical columns makes the call raise. *)
Lemma all_null_income_stays_null :
  isnull_count (NumericS [None; None]) = series_len (NumericS [None; None]) /\
  (exists df',
     _handle_missing_values loans_without_income = Ok df' /\
     get_col "annual_inc" df' = Some (NumericS [None; None]) /\
     get_col "last_pymnt_d" df' = Some (DatetimeS [None; None])) /\
  _handle_missing_values [("annual_inc", NumericS [None; None])] =
    Raise (KeyError "loan_amnt").
Proof.
  split; [reflexivity |]. split; [| reflexivity].
  eexists. split; [vm_compute; reflexivity | split; reflexivity].
Qed.

(** C6 (amended). On a well-formed, non-empty frame that holds the three
    critical columns, a column that is entirely missing makes
    [_handle_missing_values] return (it raises nothing), and in the
    returned frame, which keeps [k] of the rows, that column is: UNKNOWN on
    every row for a text column; 0 on every row for a numeric column whose
    label contains [rate] or [pct]; still entirely missing for any other
    numeric column (the median that would fill it does not exist), for a
    date column and for a categorical one. *)
Theorem all_null_column_imputed_by_type (df : DataFrame) (col : string) (s : Series) :
  well_formed df ->
  In (col, s) df ->
  (0 < len df)%nat ->
  isnull_count s = series_len s ->
  (forall c, In c critical_columns -> In c (columns df)) ->
  exists df' k,
    _handle_missing_values df = Ok df' /\
    (k <= len df)%nat /\
    get_col col df' =
    Some match s with
         | ObjectS _ => ObjectS (repeat (Some "UNKNOWN") k)
         | NumericS _ =>
             NumericS (repeat (if rate_like col then Some 0%Q else None) k)
         | DatetimeS _ => DatetimeS (repeat None k)
         | CategoryS _ => CategoryS (repeat None k)
         end.
Proof.
  intros Hwf Hin Hrows Hall Hcrit.
  pose proof Hwf as [Hnd Hlens].
  assert (Hslen : series_len s = len df)
    by (rewrite Forall_forall in Hlens; exact (Hlens _ Hin)).
  assert (Hmiss : existsb has_missing df = true).
  { apply existsb_exists. exists (col, s). split; [assumption |].
    unfold has_missing. cbn [snd]. apply negb_true_iff, Nat.eqb_neq. lia. }
  pose proof (handle_missing_values_returns df Hnd Hmiss Hcrit) as Hok.
  destruct (handle_missing_values_columns df _ Hwf Hok) as (kept & _ & Hcols).
  specialize (Hcols col s Hin).
  assert (Himp : snd (impute_if_missing (len df) (col, s)) =
                 impute_column col (len df) s).
  { unfold impute_if_missing. cbn [fst snd].
    destruct (isnull_count s =? 0)%nat eqn:E; [| reflexivity].
    apply Nat.eqb_eq in E. lia. }
  rewrite Himp in Hcols. unfold impute_column in Hcols.
  rewrite Hall, Hslen, (percentage_all _ Hrows) in Hcols.
  destruct s as [xs | xs | xs | xs]; cbn [series_len isnull_count null_mask] in *;
    unfold isnull_count in Hall; cbn [null_mask] in Hall;
    pose proof (all_null_cells xs Hall) as Hxs; rewrite Hslen in Hxs.
  - destruct (keep_repeat kept (Some "UNKNOWN") (len df)) as (k & Hk & Hkeep).
    eexists. exists k. split; [exact Hok |]. split; [exact Hk |].
    rewrite Hcols, Hxs, fillna_repeat_none. cbn [series_keep]. now rewrite Hkeep.
  - destruct (rate_like col).
    + destruct (keep_repeat kept (Some 0%Q) (len df)) as (k & Hk & Hkeep).
      eexists. exists k. split; [exact Hok |]. split; [exact Hk |].
      rewrite Hcols, Hxs, fillna_repeat_none. cbn [series_keep]. now rewrite Hkeep.
    + destruct (keep_repeat kept (@None Q) (len df)) as (k & Hk & Hkeep).
      eexists. exists k. split; [exact Hok |]. split; [exact Hk |].
      rewrite Hcols, Hxs, median_all_null. cbn [fillna_opt series_keep].
      now rewrite Hkeep.
  - destruct (keep_repeat kept (@None Date) (len df)) as (k & Hk & Hkeep).
    eexists. exists k. split; [exact Hok |]. split; [exact Hk |].
    rewrite Hcols, Hxs. cbn [series_keep]. now rewrite Hkeep.
  - destruct (keep_repeat kept (@None scalar) (len df)) as (k & Hk & Hkeep).
    eexists. exists k. split; [exact Hok |]. split; [exact Hk |].
    rewrite Hcols, Hxs. cbn [series_keep]. now rewrite Hkeep.
Qed.

Lemma loans_without_income_well_formed : well_formed loans_without_income.
Proof.
  split; [apply distinct_NoDup; reflexivity | repeat constructor].
Qed.

Lemma all_null_column_imputed_by_type_witness :
  well_formed loans_without_income /\
  In ("emp_title", ObjectS [None; None]) loans_without_income /\
  (0 < len loans_without_income)%nat /\
  isnull_count (ObjectS [None; None]) = series_len (ObjectS [None; None]) /\
  (forall c, In c critical_columns -> In c (columns loans_without_income)) /\
  exists df' k,
    _handle_missing_values loans_without_income = Ok df' /\
    (k <= len loans_without_income)%nat /\
    get_col "emp_title" df' = Some (ObjectS (repeat (Some "UNKNOWN") k)).
Proof.
  assert (Hin : In ("emp_title", ObjectS [None; None]) loans_without_income)
    by (simpl; tauto).
  assert (Hrows : (0 < len loans_without_income)%nat) by (simpl; lia).
  assert (Hcrit : forall c, In c critical_columns ->
                            In c (columns loans_without_income))
    by (intros c [<- | [<- | [<- | []]]]; simpl; tauto).
  split; [exact loans_without_income_well_formed |].
  split; [exact Hin |]. split; [exact Hrows |]. split; [reflexivity |].
  split; [exact Hcrit |].
  exact (all_null_column_imputed_by_type loans_without_income "emp_title"
           (ObjectS [None; None]) loans_without_income_well_formed Hin Hrows
           eq_refl Hcrit).
Defined.

(** ** Validation of the cleaned frame *)

(** C8 (counterexample). The twin loans have duplicate rows, more than 5
    percent of missing cells and non-positive incomes; the three issues
    are recorded and the status of the report is PASS, not WARNING. *)
Lemma quality_issues_leave_status_pass :
  _validate_cleaned_data twin_loans =
  Ok {| status := PASS;
        issues := [DuplicateRows 1; TooManyMissing 2; NonPositiveIncome 2];
        stats := {| total_rows := 2; total_columns := 7; missing_values := 2;
                    duplicate_rows := 1 |} |}.
Proof. vm_compute. reflexivity. Qed.

Lemma filter_none {A : Type} (p : A -> bool) (l : list A) :
  (forall x, In x l -> p x = false) -> filter p l = [].
Proof.
  induction l as [| a l IH]; simpl; intros H; [reflexivity |].
  rewrite (H a (or_introl eq_refl)). apply IH. intros x Hx. apply H. now right.
Qed.

(** C8 (amended). On a non-empty frame that holds the five required
    columns, every report that [_validate_cleaned_data] returns has the
    status PASS, never WARNING and never FAIL, and its issues are exactly:
    the duplicate rows when there are some, the missing cells when they
    are more than 5 percent of the cells, the non-positive incomes when
    there are some, in this order. The method returns a report whenever
    [annual_inc] is absent or numeric. *)
Theorem validation_records_quality_issues_with_pass (df : DataFrame) :
  empty df = false ->
  (forall c, In c required_columns -> In c (columns df)) ->
  (match get_col "annual_inc" df with
   | Some s => is_numeric s = true
   | None => True
   end -> exists r, _validate_cleaned_data df = Ok r) /\
  forall r, _validate_cleaned_data df = Ok r ->
    let dups := count_true (duplicated [] (rows_of df)) in
    let cells := (Z.of_nat (len df) * Z.of_nat (length (columns df)))%Z in
    let missing := total_missing df in
    status r = PASS /\
    issues r =
      (if (0 <? dups)%nat then [DuplicateRows dups] else []) ++
      (if 5 * cells <? 100 * Z.of_nat missing then [TooManyMissing missing] else []) ++
      match get_col "annual_inc" df with
      | Some s =>
          match nonpositive_count s with
          | Ok n => if (0 <? n)%nat then [NonPositiveIncome n] else []
          | Raise _ => []
          end
      | None => []
      end /\
    stats r = {| total_rows := len df; total_columns := length (columns df);
                 missing_values := missing; duplicate_rows := dups |}.
Proof.
  intros Hne Hreq.
  assert (Hmr : filter (fun c => negb (has_col c df)) required_columns = []).
  { apply filter_none. intros c Hc. apply negb_false_iff.
    apply mem_true_iff. now apply Hreq. }
  assert (Hthr : Qlt_bool
                   (inject_Z (Z.of_nat (len df)) *
                    inject_Z (Z.of_nat (length (columns df))) * (5 # 100))%Q
                   (inject_Z (Z.of_nat (total_missing df))) =
                 (5 * (Z.of_nat (len df) * Z.of_nat (length (columns df)))
                  <? 100 * Z.of_nat (total_missing df))).
  { destruct (5 * _ <? 100 * _) eqn:E.
    - apply Qlt_bool_iff. apply Z.ltb_lt in E.
      unfold Qlt. cbn [Qnum Qden Qmult inject_Z]. lia.
    - apply Z.ltb_ge in E. destruct (Qlt_bool _ _) eqn:E'; [| reflexivity].
      apply Qlt_bool_iff in E'. unfold Qlt in E'.
      cbn [Qnum Qden Qmult inject_Z] in E'. lia. }
  unfold _validate_cleaned_data. cbv zeta.
  cbn [total_rows total_columns missing_values duplicate_rows].
  rewrite Hne, Hmr, Hthr. cbn [fst snd app].
  set (dups := count_true (duplicated [] (rows_of df))).
  split.
  - intros Hinc. destruct (get_col "annual_inc" df) as [[xs | xs | xs | xs] |];
      simpl in Hinc; try discriminate; cbn [nonpositive_count bind]; eauto.
  - intros r Hr. cbv zeta.
    destruct (0 <? dups)%nat;
      destruct (5 * _ <? 100 * _);
      cbn [fst snd app] in Hr |- *;
      (destruct (get_col "annual_inc" df) as [s |];
       [destruct (nonpositive_count s) as [n | e]; cbn [bind] in Hr;
        [destruct (0 <? n)%nat |]; try discriminate
       | cbn [bind] in Hr]);
      injection Hr as <-; repeat split.
Qed.

Lemma validation_records_quality_issues_with_pass_witness :
  empty twin_loans = false /\
  (forall c, In c required_columns -> In c (columns twin_loans)) /\
  exists r,
    _validate_cleaned_data twin_loans = Ok r /\
    status r = PASS /\
    issues r = [DuplicateRows 1; TooManyMissing 2; NonPositiveIncome 2].
Proof.
  assert (Hreq : forall c, In c required_columns -> In c (columns twin_loans))
    by (intros c [<- | [<- | [<- | [<- | [<- | []]]]]]; simpl; tauto).
  split; [reflexivity |]. split; [exact Hreq |].
  destruct (validation_records_quality_issues_with_pass twin_loans eq_refl Hreq)
    as (Hreturns & Hreport).
  destruct (Hreturns eq_refl) as (r & Hr).
  destruct (Hreport r Hr) as (Hstatus & Hissues & _).
  exists r. split; [exact Hr |]. split; [exact Hstatus |].
  rewrite Hissues. reflexivity.
Defined.

(* ------------------------------------------------------------------ *)
(** ** The failures of the missing-value step *)

Lemma impute_loop_without_missing (cols : list string) (df : DataFrame) (bound : bool) :
  (forall c s, get_col c df = Some s -> isnull_count s = 0%nat) ->
  impute_loop cols df bound = (df, bound).
Proof.
  intros H. induction cols as [| col rest IH]; simpl; [reflexivity |].
  destruct (get_col col df) as [s |] eqn:E; [| exact IH].
  rewrite (H _ _ E). exact IH.
Qed.

Lemma standardized_cells (df : DataFrame) (c : string) (s : Series) :
  get_col c (_standardize_column_names df) = Some s -> exists c', In (c', s) df.
Proof.
  intros H. apply get_col_In in H. unfold _standardize_column_names in H.
  apply in_map_iff in H as ([c' s'] & Heq & Hin). simpl in Heq.
  injection Heq as _ <-. now exists c'.
Qed.

(** X1. On a frame without any missing value the loop of
    [_handle_missing_values] never reaches the assignment to
    [critical_columns], which stands in its body, and the [dropna] after
    the loop reads an unbound name: the method raises [UnboundLocalError],
    and so does [clean_loan_data] whenever the configuration asks for the
    handling of missing values (the default). *)
Theorem clean_loan_data_fails_without_missing_value
  (py_str : scalar -> string) (to_numeric : string -> option Q)
  (parse_datetime : option string -> scalar -> option Date) (sqrtQ : Q -> Q)
  (na_repr : string -> nat -> string)
  (df : DataFrame) (config : option Config) :
  handle_missing (match config with
                  | Some c => c
                  | None => default_config
                  end) = true ->
  (forall c s, In (c, s) df -> isnull_count s = 0%nat) ->
  _handle_missing_values (_standardize_column_names df) =
    Raise (UnboundLocalError "critical_columns") /\
  clean_loan_data py_str to_numeric parse_datetime sqrtQ na_repr df config =
    Raise (UnboundLocalError "critical_columns").
Proof.
  intros Hcfg Hfull.
  assert (H : _handle_missing_values (_standardize_column_names df) =
              Raise (UnboundLocalError "critical_columns")).
  { unfold _handle_missing_values.
    rewrite impute_loop_without_missing; [reflexivity |].
    intros c s Hc. destruct (standardized_cells _ _ _ Hc) as (c' & Hin). eauto. }
  split; [exact H |].
  unfold clean_loan_data. cbv zeta. rewrite Hcfg, H. reflexivity.
Qed.

Lemma clean_loan_data_fails_without_missing_value_witness :
  handle_missing default_config = true /\
  (forall c s, In (c, s) complete_loans -> isnull_count s = 0%nat) /\
  clean_loan_data example_py_str example_to_numeric example_parse_datetime
    example_sqrt example_na_repr complete_loans None =
    Raise (UnboundLocalError "critical_columns").
Proof.
  assert (Hfull : forall c s, In (c, s) complete_loans -> isnull_count s = 0%nat).
  { intros c s [H | [H | [H | []]]]; injection H as _ <-; reflexivity. }
  split; [reflexivity |]. split; [exact Hfull |].
  exact (proj2 (clean_loan_data_fails_without_missing_value
                  example_py_str example_to_numeric example_parse_datetime
                  example_sqrt example_na_repr complete_loans None eq_refl Hfull)).
Defined.

Lemma has_col_map_impute (n : nat) (c : string) (df : DataFrame) :
  has_col c (map (impute_if_missing n) df) = has_col c df.
Proof.
  unfold has_col, columns. rewrite map_map. f_equal.
  apply map_ext. intros cs. apply impute_if_missing_fst.
Qed.

(** X2. When some column has a missing value and a critical column
    ([loan_amnt], [issue_d], [loan_status]) is no column of the frame, the
    [dropna] on the critical columns raises [KeyError] for an absent
    critical column: the frame is not returned. *)
Theorem handle_missing_values_key_error (df : DataFrame) :
  NoDup (columns df) ->
  existsb has_missing df = true ->
  (exists c, In c critical_columns /\ ~ In c (columns df)) ->
  exists c, In c critical_columns /\ ~ In c (columns df) /\
            _handle_missing_values df = Raise (KeyError c).
Proof.
  intros Hnd Hm (c0 & Hc0 & Habs).
  pose proof (handle_missing_values_unfold df Hnd) as Hu.
  rewrite Hm in Hu. unfold dropna_subset in Hu.
  destruct (find (fun c => negb (has_col c (map (impute_if_missing (len df)) df)))
              critical_columns) as [c |] eqn:Ef.
  - apply find_some in Ef as (Hin & Hneg). exists c.
    split; [exact Hin |]. split; [| exact Hu].
    rewrite has_col_map_impute in Hneg. apply negb_true_iff in Hneg.
    now apply mem_false_iff in Hneg.
  - exfalso. pose proof (find_none _ _ Ef c0 Hc0) as Hn. cbv beta in Hn.
    rewrite has_col_map_impute in Hn. apply negb_false_iff in Hn.
    apply mem_true_iff in Hn. exact (Habs Hn).
Qed.

Lemma handle_missing_values_key_error_witness :
  NoDup (columns loans_without_status) /\
  existsb has_missing loans_without_status = true /\
  exists c, In c critical_columns /\ ~ In c (columns loans_without_status) /\
            _handle_missing_values loans_without_status = Raise (KeyError c).
Proof.
  assert (Hnd : NoDup (columns loans_without_status))
    by (apply distinct_NoDup; reflexivity).
  assert (Habs : exists c, In c critical_columns /\
                           ~ In c (columns loans_without_status)).
  { exists "loan_status". split; [simpl; tauto |].
    apply mem_false_iff. reflexivity. }
  split; [exact Hnd |]. split; [reflexivity |].
  exact (handle_missing_values_key_error loans_without_status Hnd eq_refl Habs).
Defined.

(* ------------------------------------------------------------------ *)
(** ** The column selection and the transformation stage of the pipeline *)

Lemma add_until_firstn (max_cols : Z) (additional selected : list string) :
  add_until max_cols additional selected =
  selected ++ firstn (Z.to_nat (max_cols - Z.of_nat (length selected))) additional.
Proof.
  revert selected. induction additional as [| col rest IH]; intros selected; simpl.
  - now rewrite firstn_nil, app_nil_r.
  - destruct (Z.of_nat (length selected) <? max_cols) eqn:E.
    + apply Z.ltb_lt in E. rewrite IH, length_app. simpl length.
      replace (Z.to_nat (max_cols - Z.of_nat (length selected)))
        with (S (Z.to_nat (max_cols - Z.of_nat (length selected + 1)))) by lia.
      simpl. now rewrite <- app_assoc.
    + apply Z.ltb_ge in E.
      replace (Z.to_nat (max_cols - Z.of_nat (length selected))) with O by lia.
      simpl. now rewrite app_nil_r.
Qed.

Lemma columns_select_columns_in (labels : list string) (df : DataFrame) (c : string) :
  In c (columns (select_columns labels df)) -> In c labels /\ In c (columns df).
Proof.
  unfold columns, select_columns. intros H.
  apply in_map_iff in H as ([c' s] & Hc & Hin). simpl in Hc. subst c'.
  apply in_flat_map in Hin as (l & Hl & Hf).
  apply filter_In in Hf as (Hdf & He). simpl in He.
  apply String.eqb_eq in He. subst l.
  split; [exact Hl |]. apply in_map_iff. now exists (c, s).
Qed.

Lemma available_in_columns (df : DataFrame) (known : list string) (c : string) :
  In c (filter (fun col => mem col (columns df)) known) <->
  In c known /\ In c (columns df).
Proof. rewrite filter_In, mem_true_iff. reflexivity. Qed.

Lemma columns_of_selection (max_cols : Z) (df : DataFrame) :
  NoDup (columns df) ->
  columns (_select_columns max_cols df) =
  filter (fun col => mem col (columns df)) essential_columns ++
  firstn (Z.to_nat (max_cols -
                    Z.of_nat (length (filter (fun col => mem col (columns df))
                                        essential_columns))))
         (filter (fun col => mem col (columns df)) additional_columns).
Proof.
  intros Hnd. unfold _select_columns. cbv zeta.
  rewrite add_until_firstn. apply columns_select_columns; [exact Hnd |].
  intros c Hc. apply in_app_or in Hc as [Hc | Hc].
  - now apply available_in_columns in Hc.
  - apply in_firstn in Hc. now apply available_in_columns in Hc.
Qed.

(** X3. On a frame with distinct labels [_select_columns] keeps every
    essential column the frame has, in the order of the list, and then the
    first available additional columns while the selection holds fewer than
    [max_columns] labels. The limit bounds the additional columns only: the
    selection has at most [max(max_columns, number of available essential
    columns)] labels, so the essential columns survive a smaller limit. The
    selected columns keep their data. *)
Theorem select_columns_limit_spares_essential (max_cols : Z) (df : DataFrame) :
  NoDup (columns df) ->
  let available_essential :=
    filter (fun col => mem col (columns df)) essential_columns in
  let available_additional :=
    filter (fun col => mem col (columns df)) additional_columns in
  let selected := columns (_select_columns max_cols df) in
  selected =
    available_essential ++
    firstn (Z.to_nat (max_cols - Z.of_nat (length available_essential)))
           available_additional /\
  Z.of_nat (length selected) <=
    Z.max max_cols (Z.of_nat (length available_essential)) /\
  (forall c, In c essential_columns -> In c (columns df) -> In c selected) /\
  (forall c s, get_col c (_select_columns max_cols df) = Some s ->
               get_col c df = Some s).
Proof.
  intros Hnd ess add selected.
  assert (Hsel : selected =
                 ess ++ firstn (Z.to_nat (max_cols - Z.of_nat (length ess))) add)
    by (exact (columns_of_selection max_cols df Hnd)).
  split; [exact Hsel |]. split; [| split].
  - rewrite Hsel, length_app, length_firstn. lia.
  - intros c Hc Hdf. rewrite Hsel. apply in_or_app. left.
    now apply available_in_columns.
  - intros c s Hget. apply get_col_In in Hget.
    apply In_get_col; [exact Hnd |].
    exact (select_columns_incl _ df _ Hget).
Qed.

(** With a limit of ten columns the seventeen essential columns of the
    wide frame are all selected. *)
Lemma select_columns_limit_spares_essential_witness :
  NoDup (columns wide_frame) /\
  columns (_select_columns 10 wide_frame) = essential_columns /\
  length (columns (_select_columns 10 wide_frame)) = 17%nat.
Proof.
  assert (Hnd : NoDup (columns wide_frame)) by (apply distinct_NoDup; reflexivity).
  destruct (select_columns_limit_spares_essential 10 wide_frame Hnd)
    as (Hsel & _).
  split; [exact Hnd |]. rewrite Hsel. split; reflexivity.
Defined.

(** X4. Whatever [transform] returns holds only essential and additional
    columns: of the features that the cleaning derives, the two target
    labels alone can reach the load; the income and rate brackets, the
    loan to income ratio, the age of the credit history, the risk class and
    the calendar fields of the issue date are dropped by the selection. *)
Theorem transform_drops_derived_features
  (py_str : scalar -> string) (to_numeric : string -> option Q)
  (parse_datetime : option string -> scalar -> option Date) (sqrtQ : Q -> Q)
  (na_repr : string -> nat -> string)
  (max_cols : Z) (df_raw out : DataFrame) :
  transform py_str to_numeric parse_datetime sqrtQ na_repr max_cols df_raw = Ok out ->
  (forall c, In c (columns out) ->
             In c (essential_columns ++ additional_columns)) /\
  (forall c, In c derived_feature_columns -> ~ In c (columns out)).
Proof.
  intros H. unfold transform in H.
  destruct (clean_loan_data py_str to_numeric parse_datetime sqrtQ na_repr
              df_raw None)
    as [df_clean | e]; cbn [bind] in H; [| discriminate].
  injection H as <-.
  assert (Hin : forall c, In c (columns (_select_columns max_cols df_clean)) ->
                          In c (essential_columns ++ additional_columns)).
  { intros c Hc. unfold _select_columns in Hc. cbv zeta in Hc.
    apply columns_select_columns_in in Hc as (Hc & _).
    rewrite add_until_firstn in Hc. apply in_or_app.
    apply in_app_or in Hc as [Hc | Hc].
    - left. now apply available_in_columns in Hc.
    - right. apply in_firstn in Hc. now apply available_in_columns in Hc. }
  split; [exact Hin |].
  intros c Hc Hout. apply Hin in Hout. apply mem_true_iff in Hout.
  assert (Hall : forallb (fun c => negb (mem c (essential_columns ++ additional_columns)))
                   derived_feature_columns = true) by reflexivity.
  rewrite forallb_forall in Hall. specialize (Hall c Hc).
  rewrite Hout in Hall. discriminate.
Qed.

Lemma transform_drops_derived_features_witness :
  exists out,
    transform example_py_str example_to_numeric example_parse_datetime
      example_sqrt example_na_repr 25 two_raw_loans = Ok out /\
    (forall c, In c (columns out) ->
               In c (essential_columns ++ additional_columns)) /\
    (forall c, In c derived_feature_columns -> ~ In c (columns out)).
Proof.
  destruct (transform example_py_str example_to_numeric example_parse_datetime
              example_sqrt example_na_repr 25 two_raw_loans) as [out | e] eqn:E.
  - exists out. split; [reflexivity |].
    exact (transform_drops_derived_features _ _ _ _ _ 25 two_raw_loans out E).
  - exfalso. vm_compute in E. discriminate.
Defined.

(* ------------------------------------------------------------------ *)
(** ** The SQLite loader: edge cases and the whole load *)

(** X5. A batch size that is not positive inserts nothing: with zero the
    count of the batches divides by zero, the method rolls back and returns
    [False]; with a negative size the range of the batch starts is empty,
    no statement is executed and the method returns [True] although no row
    was written. *)
Theorem insert_data_simple_nonpositive_batch_size
  (accepts_row : row -> bool) (df : Prepared) (batch_size : Z) (c : Conn) :
  batch_size <= 0 ->
  _insert_data_simple accepts_row df batch_size c =
  if batch_size =? 0 then (rollback c, false) else (c, true).
Proof.
  intros Hb. unfold _insert_data_simple. cbv zeta.
  destruct (batch_size =? 0) eqn:E; [reflexivity |].
  unfold py_range.
  replace (0 <? batch_size) with false by (symmetry; apply Z.ltb_ge; exact Hb).
  reflexivity.
Qed.

Lemma insert_data_simple_nonpositive_batch_size_witness :
  -1 <= 0 /\
  _insert_data_simple accepts_all_rows five_loans (-1) fresh_table =
    (fresh_table, true) /\
  committed fresh_table = [].
Proof.
  split; [lia |]. split; [| reflexivity].
  exact (insert_data_simple_nonpositive_batch_size accepts_all_rows five_loans
           (-1) fresh_table ltac:(lia)).
Defined.

Lemma create_table_simple_accepted (accepts_schema : schema -> bool)
  (df : Prepared) (c : Conn) :
  pending c = [] -> accepts_schema (columns_def df) = true ->
  _create_table_simple accepts_schema df c =
  ({| table := Some (columns_def df); committed := []; pending := [];
      journal := journal c ++ [EvDropTable; EvCreateTable (columns_def df); EvCommit] |},
   Ok tt).
Proof.
  intros Hp Ha. unfold _create_table_simple. cbv zeta. rewrite Ha.
  unfold commit, log. cbn [table committed pending journal]. rewrite Hp.
  now rewrite <- !app_assoc.
Qed.

(** X6. [_create_table_simple] replaces the table: on a connection without
    open transaction the rows of an earlier load are gone after it,
    whether the creation goes through or not. When the engine accepts the
    statement the new table is empty and the creation is committed; when it
    refuses, the error is raised again after the old table was dropped, and
    the connection is left without table and without commit. *)
Theorem create_table_simple_discards_previous_rows
  (accepts_schema : schema -> bool) (df : Prepared) (c : Conn) :
  pending c = [] ->
  let c' := fst (_create_table_simple accepts_schema df c) in
  let r := snd (_create_table_simple accepts_schema df c) in
  committed c' = [] /\ pending c' = [] /\
  (accepts_schema (columns_def df) = true ->
   r = Ok tt /\ table c' = Some (columns_def df) /\
   journal c' =
     journal c ++ [EvDropTable; EvCreateTable (columns_def df); EvCommit]) /\
  (accepts_schema (columns_def df) = false ->
   r = Raise SqliteError /\ table c' = None /\
   journal c' = journal c ++ [EvDropTable; EvCreateTable (columns_def df)]).
Proof.
  intros Hp. cbv zeta.
  destruct (accepts_schema (columns_def df)) eqn:Ha.
  - rewrite (create_table_simple_accepted accepts_schema df c Hp Ha). simpl.
    repeat split; discriminate.
  - unfold _create_table_simple. cbv zeta. rewrite Ha. unfold log.
    cbn [fst snd table committed pending journal]. rewrite Hp.
    repeat split; try discriminate. now rewrite <- app_assoc.
Qed.

Lemma create_table_simple_discards_previous_rows_witness :
  pending used_table = [] /\
  committed used_table = [[Some (PyInt 7)]] /\
  committed (fst (_create_table_simple refuses_all_schemas five_loans used_table)) = [] /\
  table (fst (_create_table_simple refuses_all_schemas five_loans used_table)) = None /\
  snd (_create_table_simple refuses_all_schemas five_loans used_table) =
    Raise SqliteError.
Proof.
  destruct (create_table_simple_discards_previous_rows refuses_all_schemas
              five_loans used_table eq_refl) as (Hc & _ & _ & Hrefused).
  destruct (Hrefused eq_refl) as (Hr & Ht & _).
  split; [reflexivity |]. split; [reflexivity |]. split; [exact Hc |].
  split; [exact Ht | exact Hr].
Defined.

Lemma iterrows_length (df : Prepared) : length (iterrows df) = prepared_len df.
Proof. unfold iterrows. now rewrite length_map, length_seq. Qed.





(** X8. The validation does not enter the result of [load_to_sqlite]: with
    a negative batch size, a frame that has rows and an engine that accepts
    the table, the method returns [True] while the table is empty and the
    validation it ran reports failure. *)
Theorem load_to_sqlite_ignores_validation
  (accepts_schema : schema -> bool) (accepts_row : row -> bool)
  (df : Prepared) (batch_size : Z) (c : Conn) :
  batch_size < 0 -> pending c = [] ->
  accepts_schema (columns_def df) = true ->
  (0 < prepared_len df)%nat ->
  exists c' v,
    load_to_sqlite accepts_schema accepts_row df batch_size c = (c', Some v, true) /\
    committed c' = [] /\ pending c' = [] /\
    actual_rows v = 0 /\
    success v = false /\
    In (RowCountMismatch 0 (Z.of_nat (prepared_len df))) (load_issues v).
Proof.
  intros Hb Hp Ha Hrows. unfold load_to_sqlite. cbv zeta.
  rewrite (create_table_simple_accepted accepts_schema df c Hp Ha).
  assert (Hins : forall c1, _insert_data_simple accepts_row df batch_size c1 = (c1, true)).
  { intros c1. unfold _insert_data_simple. cbv zeta.
    replace (batch_size =? 0) with false by (symmetry; apply Z.eqb_neq; lia).
    unfold py_range.
    replace (0 <? batch_size) with false by (symmetry; apply Z.ltb_ge; lia).
    reflexivity. }
  rewrite Hins.
  eexists. eexists. split; [reflexivity |].
  unfold _create_indexes, commit, log. cbn [table committed pending journal app].
  split; [reflexivity |]. split; [reflexivity |].
  unfold _validate_load, select_count. cbn [table committed pending app length].
  assert (Hbt : beyond_tolerance (Z.of_nat 0) (Z.of_nat (prepared_len df)) = true)
    by (apply beyond_tolerance_iff; lia).
  rewrite Hbt. cbn [actual_rows success load_issues negb].
  split; [reflexivity |]. split; [reflexivity |].
  apply null_issues_keep_mismatch. now left.
Qed.

Lemma load_to_sqlite_ignores_validation_witness :
  -2 < 0 /\ pending used_table = [] /\ (0 < prepared_len five_loans)%nat /\
  exists c' v,
    load_to_sqlite accepts_all_schemas accepts_all_rows five_loans (-2) used_table =
      (c', Some v, true) /\
    committed c' = [] /\
    success v = false.
Proof.
  split; [lia |]. split; [reflexivity |]. split; [simpl; lia |].
  destruct (load_to_sqlite_ignores_validation accepts_all_schemas accepts_all_rows
              five_loans (-2) used_table ltac:(lia) eq_refl eq_refl
              ltac:(simpl; lia))
    as (c' & v & Hload & Hrows & _ & _ & Hsuccess & _).
  exists c', v. split; [exact Hload |]. split; [exact Hrows | exact Hsuccess].
Defined.




(* ------------------------------------------------------------------ *)
(** ** The conversion of the date columns *)

Lemma mem_cons (c x : string) (l : list string) :
  mem c (x :: l) = String.eqb c x || mem c l.
Proof. reflexivity. Qed.

Lemma mem_app (c : string) (l1 l2 : list string) :
  mem c (l1 ++ l2) = mem c l1 || mem c l2.
Proof. unfold mem. apply existsb_app. Qed.

Lemma to_datetime_idempotent
  (parse_datetime : option string -> scalar -> option Date)
  (format : option string) (s : Series) :
  to_datetime parse_datetime format (to_datetime parse_datetime format s) =
  to_datetime parse_datetime format s.
Proof. destruct s; reflexivity. Qed.

(** A loop that overwrites each listed column by its image under [f]. *)
Lemma fold_convert_get (f : Series -> Series) (cols : list string)
  (df : DataFrame) (c : string) :
  (forall s, f (f s) = f s) ->
  get_col c
    (fold_left
       (fun d col =>
          match get_col col d with
          | Some s => set_col col (f s) d
          | None => d
          end) cols df) =
  if mem c cols then option_map f (get_col c df) else get_col c df.
Proof.
  intros Hf. revert df. induction cols as [| col rest IH]; intros df;
    [reflexivity |].
  cbn [fold_left]. rewrite IH.
  assert (Hstep : get_col c (match get_col col df with
                             | Some s => set_col col (f s) df
                             | None => df
                             end) =
                  if String.eqb col c then option_map f (get_col c df)
                  else get_col c df).
  { destruct (String.eqb col c) eqn:Ec.
    - apply String.eqb_eq in Ec. subst col.
      destruct (get_col c df) as [s |] eqn:E.
      + now rewrite get_col_set_col, String.eqb_refl.
      + now rewrite E.
    - destruct (get_col col df) as [s |];
        [rewrite get_col_set_col, Ec |]; reflexivity. }
  rewrite Hstep, mem_cons, (String.eqb_sym c col).
  destruct (String.eqb col c), (mem c rest); cbn [orb]; try reflexivity.
  destruct (get_col c df); cbn [option_map]; [rewrite Hf |]; reflexivity.
Qed.

Lemma classify_date_columns (cols : list string) (df : DataFrame)
  (self : DataTransformer) (c : string) :
  mem c (date_columns (classify cols df self)) =
  mem c (date_columns self) || (mem c cols && is_date_name c).
Proof.
  revert self. induction cols as [| col rest IH]; intros self.
  - simpl. now rewrite orb_false_r.
  - cbn [classify]. rewrite IH, mem_cons.
    destruct (is_date_name col) eqn:Ed.
    + cbn [date_columns]. rewrite mem_app, mem_cons.
      destruct (String.eqb c col) eqn:Ec.
      * apply String.eqb_eq in Ec. subst col. rewrite Ed.
        destruct (mem c (date_columns self)), (mem c rest); reflexivity.
      * destruct (mem c (date_columns self)), (mem c rest), (is_date_name c);
          reflexivity.
    + assert (Hsame : forall self', date_columns self' = date_columns self ->
                mem c (date_columns self') || (mem c rest && is_date_name c) =
                mem c (date_columns self) ||
                ((String.eqb c col || mem c rest) && is_date_name c)).
      { intros self' ->. destruct (String.eqb c col) eqn:Ec.
        - apply String.eqb_eq in Ec. subst col. rewrite Ed.
          destruct (mem c (date_columns self)), (mem c rest); reflexivity.
        - reflexivity. }
      apply Hsame.
      destruct (get_col col df) as [[xs | xs | xs | xs] |]; try reflexivity.
      cbv zeta.
      match goal with |- context [if ?b then _ else _] => destruct b end;
        reflexivity.
Qed.

Lemma classify_categorical_columns (cols : list string) (df : DataFrame)
  (self : DataTransformer) (c : string) :
  mem c (categorical_columns (classify cols df self)) = true ->
  mem c (categorical_columns self) = true \/ is_date_name c = false.
Proof.
  revert self. induction cols as [| col rest IH]; intros self H.
  - now left.
  - cbn [classify] in H. apply IH in H as [H | H]; [| now right].
    destruct (is_date_name col) eqn:Ed; [now left |].
    destruct (get_col col df) as [[xs | xs | xs | xs] |]; try (now left).
    cbv zeta in H.
    match type of H with context [if ?b then _ else _] => destruct b end;
      [| now left].
    cbn [categorical_columns] in H. rewrite mem_app, mem_cons in H.
    destruct (mem c (categorical_columns self)); [now left |].
    destruct (String.eqb c col) eqn:Ec; [| discriminate].
    apply String.eqb_eq in Ec. subst col. now right.
Qed.

Lemma convert_known_get (py_str : scalar -> string) (to_numeric : string -> option Q)
  (col c : string) (df : DataFrame) :
  String.eqb col c = false ->
  get_col c (convert_known py_str to_numeric col df) = get_col c df.
Proof.
  intros H. unfold convert_known.
  destruct (get_col col df); [rewrite get_col_set_col, H |]; reflexivity.
Qed.

Lemma astype_category_idempotent (s : Series) :
  astype_category (astype_category s) = astype_category s.
Proof. reflexivity. Qed.

Lemma convert_date_column_idempotent
  (parse_datetime : option string -> scalar -> option Date) (s : Series) :
  convert_date_column parse_datetime (convert_date_column parse_datetime s) =
  convert_date_column parse_datetime s.
Proof.
  rewrite !convert_date_column_first_pattern. apply to_datetime_idempotent.
Qed.

(** X10. A column is a date column by its label alone: when the label
    holds one of the date terms ([date], [d_], [_d], [issue], [last_],
    [next_], [earliest]) the column is listed in [date_columns] whatever
    its dtype, the dtype conversion leaves it as it is, and
    [_convert_date_columns] makes it a column of timestamps that holds what
    the first format [%b-%Y] parses: the attempt with the first format
    overwrites the column, so the three other formats and the inference of
    pandas never see the original values, and a value in another format is
    lost as NaT. The columns outside [date_columns] are not touched. *)
Theorem date_named_columns_parsed_with_first_format
  (py_str : scalar -> string) (to_numeric : string -> option Q)
  (parse_datetime : option string -> scalar -> option Date)
  (df : DataFrame) (col : string) (s : Series) :
  get_col col df = Some s ->
  is_date_name col = true ->
  let self := fst (_convert_data_types py_str to_numeric df) in
  let df3 := snd (_convert_data_types py_str to_numeric df) in
  In col (date_columns self) /\
  get_col col df3 = Some s /\
  get_col col (_convert_date_columns parse_datetime self df3) =
    Some (to_datetime parse_datetime (Some "%b-%Y") s) /\
  (forall c, ~ In c (date_columns self) ->
     get_col c (_convert_date_columns parse_datetime self df3) = get_col c df3).
Proof.
  intros Hget Hname self df3.
  set (self0 := classify (columns df) df
                  {| date_columns := []; categorical_columns := [];
                     numeric_columns := [] |}).
  assert (Hself : self = self0) by reflexivity.
  assert (Hmem : mem col (date_columns self) = true).
  { rewrite Hself. unfold self0.
    rewrite classify_date_columns, Hname. cbn [date_columns mem existsb orb].
    rewrite andb_true_r. fold (mem col (columns df)). fold (has_col col df).
    rewrite has_col_get_col, Hget. reflexivity. }
  assert (Hnocat : mem col (categorical_columns self0) = false).
  { destruct (mem col (categorical_columns self0)) eqn:E; [| reflexivity].
    apply classify_categorical_columns in E as [E | E].
    - discriminate.
    - congruence. }
  assert (Hdf3 : get_col col df3 = Some s).
  { unfold df3, _convert_data_types. cbv zeta. cbn [snd]. fold self0.
    rewrite (fold_convert_get astype_category _ _ col astype_category_idempotent).
    rewrite Hnocat.
    rewrite !convert_known_get; [exact Hget | |].
    - destruct (String.eqb "int_rate" col) eqn:E; [| reflexivity].
      apply String.eqb_eq in E. subst col. discriminate.
    - destruct (String.eqb "revol_util" col) eqn:E; [| reflexivity].
      apply String.eqb_eq in E. subst col. discriminate. }
  split; [now apply mem_true_iff |]. split; [exact Hdf3 |]. split.
  - unfold _convert_date_columns.
    rewrite (fold_convert_get (convert_date_column parse_datetime) _ _ col
               (convert_date_column_idempotent parse_datetime)).
    rewrite Hmem, Hdf3. cbn [option_map].
    now rewrite convert_date_column_first_pattern.
  - intros c Hc. apply mem_false_iff in Hc. unfold _convert_date_columns.
    rewrite (fold_convert_get (convert_date_column parse_datetime) _ _ c
               (convert_date_column_idempotent parse_datetime)).
    now rewrite Hc.
Qed.

(** The funded amount is a date column by its label ([d_]) and comes out
    as timestamps, all missing; the second issue date, written in the
    second format, is lost. *)
Lemma date_named_columns_parsed_with_first_format_witness :
  get_col "funded_amnt" funded_loans =
    Some (NumericS [Some (1000 # 1); Some (2000 # 1)]) /\
  is_date_name "funded_amnt" = true /\
  get_col "funded_amnt"
    (_convert_date_columns example_parse_datetime
       (fst (_convert_data_types example_py_str example_to_numeric funded_loans))
       (snd (_convert_data_types example_py_str example_to_numeric funded_loans))) =
    Some (DatetimeS [None; None]) /\
  get_col "issue_d"
    (_convert_date_columns example_parse_datetime
       (fst (_convert_data_types example_py_str example_to_numeric funded_loans))
       (snd (_convert_data_types example_py_str example_to_numeric funded_loans))) =
    Some (DatetimeS [Some (mkDate 2018 12 1); None]).
Proof.
  split; [reflexivity |]. split; [reflexivity |]. split.
  - destruct (date_named_columns_parsed_with_first_format example_py_str
                example_to_numeric example_parse_datetime funded_loans
                "funded_amnt" (NumericS [Some (1000 # 1); Some (2000 # 1)])
                eq_refl eq_refl) as (_ & _ & H & _).
    exact H.
  - destruct (date_named_columns_parsed_with_first_format example_py_str
                example_to_numeric example_parse_datetime funded_loans
                "issue_d" (ObjectS [Some "Dec-2018"; Some "2018-12-01"])
                eq_refl eq_refl) as (_ & _ & H & _).
    exact H.
Defined.

(* ------------------------------------------------------------------ *)
(** ** The status of the validation report *)

Lemma filter_nil_iff {A : Type} (p : A -> bool) (l : list A) :
  filter p l = [] <-> forall x, In x l -> p x = false.
Proof.
  split; [| apply filter_none].
  intros H x Hx. destruct (p x) eqn:E; [| reflexivity].
  assert (Hin : In x (filter p l)) by (apply filter_In; now split).
  rewrite H in Hin. destruct Hin.
Qed.

Lemma missing_required_nil (df : DataFrame) :
  filter (fun c => negb (has_col c df)) required_columns = [] <->
  forall c, In c required_columns -> In c (columns df).
Proof.
  rewrite filter_nil_iff. split; intros H c Hc.
  - apply mem_true_iff. apply negb_false_iff. now apply H.
  - apply negb_false_iff. apply mem_true_iff. now apply H.
Qed.

Lemma missing_required_cons (df : DataFrame) (m : string) (rest : list string) :
  filter (fun c => negb (has_col c df)) required_columns = m :: rest ->
  In m required_columns /\ ~ In m (columns df).
Proof.
  intros H.
  assert (Hin : In m (filter (fun c => negb (has_col c df)) required_columns))
    by (rewrite H; now left).
  apply filter_In in Hin as (Hreq & Hneg). split; [exact Hreq |].
  apply mem_false_iff. now apply negb_true_iff.
Qed.

(** The shape of every report: the status, and the issues in the order
    in which they are appended. *)
Lemma validate_cleaned_data_report (df : DataFrame) (r : ValidationReport) :
  _validate_cleaned_data df = Ok r ->
  let mr := filter (fun c => negb (has_col c df)) required_columns in
  exists quality income : list issue,
    status r = (if empty df then FAIL
                else match mr with [] => PASS | _ :: _ => FAIL end) /\
    issues r = (if empty df then [EmptyFrame] else []) ++ quality ++
               match mr with [] => [] | _ :: _ => [MissingRequired mr] end ++
               income /\
    (forall i, In i quality -> exists n, i = DuplicateRows n \/ i = TooManyMissing n) /\
    (forall i, In i income -> exists n, i = NonPositiveIncome n).
Proof.
  intros H mr. unfold _validate_cleaned_data in H. cbv zeta in H.
  cbn [total_rows total_columns missing_values duplicate_rows] in H.
  fold mr in H.
  set (dups := count_true (duplicated [] (rows_of df))) in H.
  match type of H with
  | context [Qlt_bool ?a ?b] =>
      exists ((if (0 <? dups)%nat then [DuplicateRows dups] else []) ++
              (if Qlt_bool a b then [TooManyMissing (total_missing df)] else []))
  end.
  exists (match get_col "annual_inc" df with
          | Some s =>
              match nonpositive_count s with
              | Ok n => if (0 <? n)%nat then [NonPositiveIncome n] else []
              | Raise _ => []
              end
          | None => []
          end).
  destruct (empty df); destruct (0 <? dups)%nat; destruct (Qlt_bool _ _);
    destruct mr as [| m rest]; cbn [fst snd app] in H;
    (destruct (get_col "annual_inc" df) as [s |];
     [destruct (nonpositive_count s) as [n | e]; cbn [bind] in H;
      [destruct (0 <? n)%nat |]; try discriminate
     | cbn [bind] in H]);
    injection H as <-; cbn [status issues fst snd];
    (split; [reflexivity |]); (split; [reflexivity |]);
    (split; intros i Hi; simpl in Hi; intuition (subst; eauto)).
Qed.

(** X11. Every report that [_validate_cleaned_data] returns has the status
    FAIL exactly when the frame is empty or lacks one of the five required
    columns, and PASS otherwise; WARNING is never used. The empty frame and
    the absent required columns are each recorded as an issue, the latter
    with the list of the absent labels in the order of the required
    columns. *)
Theorem validate_cleaned_data_fail_conditions
  (df : DataFrame) (r : ValidationReport) :
  _validate_cleaned_data df = Ok r ->
  (status r = FAIL <->
   empty df = true \/ exists c, In c required_columns /\ ~ In c (columns df)) /\
  (status r = PASS <->
   empty df = false /\ forall c, In c required_columns -> In c (columns df)) /\
  status r <> WARNING /\
  (In EmptyFrame (issues r) <-> empty df = true) /\
  (forall cols, In (MissingRequired cols) (issues r) <->
     cols <> [] /\
     cols = filter (fun c => negb (has_col c df)) required_columns).
Proof.
  intros H.
  destruct (validate_cleaned_data_report df r H)
    as (quality & income & Hstatus & Hissues & Hq & Hi).
  cbv zeta in Hstatus, Hissues.
  pose proof (missing_required_nil df) as Hnil.
  pose proof (missing_required_cons df) as Hcons.
  assert (HqE : ~ In EmptyFrame quality)
    by (intros Hin; destruct (Hq _ Hin) as (n & [E | E]); discriminate).
  assert (HiE : ~ In EmptyFrame income)
    by (intros Hin; destruct (Hi _ Hin) as (n & E); discriminate).
  assert (HqM : forall cols, ~ In (MissingRequired cols) quality)
    by (intros cols Hin; destruct (Hq _ Hin) as (n & [E | E]); discriminate).
  assert (HiM : forall cols, ~ In (MissingRequired cols) income)
    by (intros cols Hin; destruct (Hi _ Hin) as (n & E); discriminate).
  destruct (filter (fun c => negb (has_col c df)) required_columns)
    as [| m rest] eqn:Em.
  - assert (Hall : forall c, In c required_columns -> In c (columns df))
      by (now apply Hnil).
    split; [| split; [| split; [| split]]].
    + rewrite Hstatus. destruct (empty df); split; intros Hx; try discriminate.
      * now left.
      * reflexivity.
      * destruct Hx as [Hx | (c & Hc & Hn)]; [discriminate |].
        exfalso. exact (Hn (Hall c Hc)).
    + rewrite Hstatus. destruct (empty df); split; intros Hx; try discriminate.
      * destruct Hx. discriminate.
      * now split.
      * reflexivity.
    + rewrite Hstatus. destruct (empty df); discriminate.
    + rewrite Hissues, !in_app_iff. destruct (empty df); simpl; split; intros Hx;
        try discriminate; intuition discriminate.
    + intros cols. rewrite Hissues, !in_app_iff. split.
      * intros [Hx | [Hx | [Hx | Hx]]].
        -- destruct (empty df); simpl in Hx; intuition discriminate.
        -- now apply HqM in Hx.
        -- destruct Hx.
        -- now apply HiM in Hx.
      * intros [Hne ->]. now destruct Hne.
  - destruct (Hcons m rest eq_refl) as (Hm & Hnm).
    split; [| split; [| split; [| split]]].
    + rewrite Hstatus. destruct (empty df); split; intros Hx; try reflexivity.
      * now left.
      * right. exists m. now split.
    + rewrite Hstatus. destruct (empty df); split; intros Hx; try discriminate.
      * destruct Hx. discriminate.
      * destruct Hx as [_ Hall]. exfalso. exact (Hnm (Hall m Hm)).
    + rewrite Hstatus. destruct (empty df); discriminate.
    + rewrite Hissues, !in_app_iff. destruct (empty df); simpl; split; intros Hx;
        try discriminate; intuition discriminate.
    + intros cols. rewrite Hissues, !in_app_iff. split.
      * intros [Hx | [Hx | [Hx | Hx]]].
        -- destruct (empty df); simpl in Hx; intuition discriminate.
        -- now apply HqM in Hx.
        -- destruct Hx as [Hx | []]. injection Hx as <-. split; [discriminate | reflexivity].
        -- now apply HiM in Hx.
      * intros [_ ->]. right. right. left. now left.
Qed.

(** The frame of the complete loans has neither rate nor default label:
    its report is FAIL and names the two absent columns. *)
Lemma validate_cleaned_data_fail_conditions_witness :
  exists r,
    _validate_cleaned_data complete_loans = Ok r /\
    status r = FAIL /\
    In (MissingRequired ["int_rate"; "is_default"]) (issues r).
Proof.
  destruct (_validate_cleaned_data complete_loans) as [r | e] eqn:E.
  - exists r. split; [reflexivity |].
    destruct (validate_cleaned_data_fail_conditions complete_loans r E)
      as (Hfail & _ & _ & _ & Hmissing).
    split.
    + apply Hfail. right. exists "int_rate". split; [simpl; tauto |].
      apply mem_false_iff. reflexivity.
    + apply Hmissing. split; [discriminate | reflexivity].
  - exfalso. vm_compute in E. discriminate.
Defined.

Lemma clean_loan_data_steps
  (py_str : scalar -> string) (to_numeric : string -> option Q)
  (parse_datetime : option string -> scalar -> option Date) (sqrtQ : Q -> Q)
  (na_repr : string -> nat -> string) (df : DataFrame) (config : option Config) :
  clean_loan_data py_str to_numeric parse_datetime sqrtQ na_repr df config =
  (df7 <- cleaning_steps py_str to_numeric parse_datetime sqrtQ na_repr df config ;;
   validation_report <- _validate_cleaned_data df7 ;;
   Ok df7).
Proof.
  unfold clean_loan_data, cleaning_steps. cbv zeta.
  destruct (if handle_missing _ then _ else _) as [df2 | e];
    cbn [bind]; [| reflexivity].
  destruct (_convert_data_types py_str to_numeric df2) as [self df3].
  destruct (_clean_text_columns na_repr _) as [df5 | e];
    cbn [bind]; [| reflexivity].
  destruct (if create_features _ then _ else _) as [df6 | e];
    cbn [bind]; reflexivity.
Qed.

Lemma report_status (df : DataFrame) (r : ValidationReport) :
  _validate_cleaned_data df = Ok r ->
  (status r = FAIL <->
   empty df = true \/ exists c, In c required_columns /\ ~ In c (columns df)) /\
  (status r = PASS \/ status r = FAIL).
Proof.
  intros H.
  destruct (validate_cleaned_data_report df r H)
    as (quality & income & Hstatus & _).
  cbv zeta in Hstatus.
  pose proof (missing_required_nil df) as Hnil.
  pose proof (missing_required_cons df) as Hcons.
  destruct (filter (fun c => negb (has_col c df)) required_columns)
    as [| m rest] eqn:Em.
  - assert (Hall : forall c, In c required_columns -> In c (columns df))
      by (now apply Hnil).
    rewrite Hstatus. destruct (empty df); split; try (now right); try (now left).
    + split; [now left | reflexivity].
    + split; [discriminate |].
      intros [Hx | (c & Hc & Hn)]; [discriminate |].
      exfalso. exact (Hn (Hall c Hc)).
  - destruct (Hcons m rest eq_refl) as (Hm & Hnm).
    rewrite Hstatus. destruct (empty df); split; try (now right).
    + split; [now left | reflexivity].
    + split; [| reflexivity]. intros _. right. exists m. now split.
Qed.

(** X12. The status of the validation report has no part in what
    [clean_loan_data] returns: as soon as the steps 1 to 7 produce a frame
    and its validation returns a report, the method returns this frame,
    whatever the status. The report is FAIL exactly when the frame is empty
    or lacks a required column, and a frame with a FAIL report is returned
    like any other: the report is only logged. *)
Theorem clean_loan_data_returns_whatever_the_status
  (py_str : scalar -> string) (to_numeric : string -> option Q)
  (parse_datetime : option string -> scalar -> option Date) (sqrtQ : Q -> Q)
  (na_repr : string -> nat -> string)
  (df out : DataFrame) (config : option Config) (r : ValidationReport) :
  cleaning_steps py_str to_numeric parse_datetime sqrtQ na_repr df config = Ok out ->
  _validate_cleaned_data out = Ok r ->
  clean_loan_data py_str to_numeric parse_datetime sqrtQ na_repr df config = Ok out /\
  (status r = FAIL <->
   empty out = true \/ exists c, In c required_columns /\ ~ In c (columns out)) /\
  (status r = PASS \/ status r = FAIL).
Proof.
  intros Hsteps Hval. split.
  - rewrite clean_loan_data_steps, Hsteps. cbn [bind]. rewrite Hval. reflexivity.
  - exact (report_status out r Hval).
Qed.

(** The two raw loans are returned although their report is FAIL: the
    cleaned frame has no [int_rate]. *)
Lemma clean_loan_data_returns_whatever_the_status_witness :
  exists out r,
    cleaning_steps example_py_str example_to_numeric example_parse_datetime
      example_sqrt example_na_repr two_raw_loans None = Ok out /\
    _validate_cleaned_data out = Ok r /\
    status r = FAIL /\
    clean_loan_data example_py_str example_to_numeric example_parse_datetime
      example_sqrt example_na_repr two_raw_loans None = Ok out.
Proof.
  destruct (cleaning_steps example_py_str example_to_numeric
              example_parse_datetime example_sqrt example_na_repr
              two_raw_loans None) as [out | e] eqn:E;
    [| exfalso; vm_compute in E; discriminate].
  destruct (_validate_cleaned_data out) as [r | e] eqn:Ev;
    [| exfalso; vm_compute in E; injection E as <-; vm_compute in Ev;
       discriminate].
  destruct (clean_loan_data_returns_whatever_the_status _ _ _ _ _ _ _ _ r E Ev)
    as (Hclean & Hfail & _).
  exists out, r. split; [reflexivity |]. split; [exact Ev |].
  split; [| exact Hclean].
  apply Hfail. right. exists "int_rate". split; [simpl; tauto |].
  vm_compute in E. injection E as <-. apply mem_false_iff.
  vm_compute. reflexivity.
Defined.

(* ------------------------------------------------------------------ *)
(** ** The calendar fields and the income brackets *)

Lemma Qeq_bool_inject_Z (m k : Z) : Qeq_bool (inject_Z m) (inject_Z k) = (m =? k).
Proof.
  destruct (m =? k) eqn:E.
  - apply Qeq_bool_iff. apply Z.eqb_eq in E. now subst.
  - destruct (Qeq_bool (inject_Z m) (inject_Z k)) eqn:E'; [| reflexivity].
    apply Qeq_bool_iff in E'. unfold Qeq in E'. simpl in E'.
    apply Z.eqb_neq in E. lia.
Qed.

Lemma mem_q_inject_Z (m : Z) (l : list Z) :
  mem_q (inject_Z m) (map inject_Z l) = existsb (Z.eqb m) l.
Proof.
  unfold mem_q. induction l as [| k l IH]; simpl; [reflexivity |].
  now rewrite Qeq_bool_inject_Z, IH.
Qed.

Lemma get_season_of_date (d : Date) :
  _get_season (Some (inject_Z (month d))) =
  if existsb (Z.eqb (month d)) [12; 1; 2] then "Hiver"
  else if existsb (Z.eqb (month d)) [3; 4; 5] then "Printemps"
  else if existsb (Z.eqb (month d)) [6; 7; 8] then "Été"
  else "Automne".
Proof.
  unfold _get_season.
  change [12 # 1; 1 # 1; 2 # 1]%Q with (map inject_Z [12; 1; 2]).
  change [3 # 1; 4 # 1; 5 # 1]%Q with (map inject_Z [3; 4; 5]).
  change [6 # 1; 7 # 1; 8 # 1]%Q with (map inject_Z [6; 7; 8]).
  now rewrite !mem_q_inject_Z.
Qed.

(** X13. When [issue_d] is a column of timestamps, the calendar fields of
    every row are derived from it, and [issue_season] is never missing: a
    row without issue date has no year, no month and no quarter, yet its
    season is [Automne], the last branch of [_get_season]. A dated row has
    the month of its date and the season of this month (December to
    February [Hiver], March to May [Printemps], June to August [Été],
    otherwise [Automne]). *)
Theorem issue_season_of_missing_date_is_automne
  (df df' : DataFrame) (ds : list (option Date)) :
  get_col "issue_d" df = Some (DatetimeS ds) ->
  _create_derived_features df = Ok df' ->
  exists (seasons : list (option string)) (months : list (option Q)),
    get_col "issue_season" df' = Some (ObjectS seasons) /\
    get_col "issue_month" df' = Some (NumericS months) /\
    length seasons = length ds /\ length months = length ds /\
    forall i : nat, (i < length ds)%nat ->
      match nth i ds None with
      | None =>
          nth i months None = None /\ nth i seasons None = Some "Automne"
      | Some d =>
          nth i months None = Some (inject_Z (month d)) /\
          nth i seasons None =
          Some (if existsb (Z.eqb (month d)) [12; 1; 2] then "Hiver"
                else if existsb (Z.eqb (month d)) [3; 4; 5] then "Printemps"
                else if existsb (Z.eqb (month d)) [6; 7; 8] then "Été"
                else "Automne")
      end.
Proof.
  intros Hd H.
  destruct (create_derived_features_steps df df' H) as (df2 & df3 & H2 & H3 & H7).
  set (df5 := derive_risk_category (derive_credit_age df3)) in H7.
  assert (Hd5 : get_col "issue_d" df5 = Some (DatetimeS ds)).
  { unfold df5.
    rewrite derive_risk_category_get, derive_credit_age_get by reflexivity.
    rewrite (derive_ratio_get df2 df3 "issue_d" H3) by reflexivity.
    rewrite (derive_income_category_get _ df2 "issue_d" H2) by reflexivity.
    rewrite derive_labels_get by reflexivity. exact Hd. }
  set (months := map (option_map (fun d => inject_Z (month d))) ds).
  exists (map (fun m => Some (_get_season m)) months), months.
  assert (Hs : get_col "issue_season" df' =
               Some (ObjectS (map (fun m => Some (_get_season m)) months))).
  { rewrite (derive_int_rate_category_get _ df' "issue_season" H7) by reflexivity.
    unfold derive_seasonality. rewrite Hd5. cbv zeta. fold months.
    now frame_simpl. }
  assert (Hm : get_col "issue_month" df' = Some (NumericS months)).
  { rewrite (derive_int_rate_category_get _ df' "issue_month" H7) by reflexivity.
    unfold derive_seasonality. rewrite Hd5. cbv zeta. fold months.
    now frame_simpl. }
  split; [exact Hs |]. split; [exact Hm |].
  split; [unfold months; now rewrite !length_map |].
  split; [unfold months; now rewrite length_map |].
  intros i Hi.
  assert (Hmi : nth i months None =
                option_map (fun d => inject_Z (month d)) (nth i ds None))
    by (unfold months; now rewrite (nth_map_lt _ ds i None None Hi)).
  rewrite (nth_map_lt (fun m => Some (_get_season m)) months i None None)
    by (unfold months; now rewrite length_map).
  rewrite Hmi. destruct (nth i ds None) as [d |]; cbn [option_map].
  - split; [reflexivity |]. now rewrite get_season_of_date.
  - split; reflexivity.
Qed.

Lemma issue_season_of_missing_date_is_automne_witness :
  get_col "issue_d" dated_loans =
    Some (DatetimeS [Some (mkDate 2019 1 1); None; Some (mkDate 2019 7 1)]) /\
  exists df' seasons months,
    _create_derived_features dated_loans = Ok df' /\
    get_col "issue_season" df' = Some (ObjectS seasons) /\
    get_col "issue_month" df' = Some (NumericS months) /\
    nth 0 seasons None = Some "Hiver" /\
    nth 1 months None = None /\
    nth 1 seasons None = Some "Automne" /\
    nth 2 seasons None = Some "Été".
Proof.
  split; [reflexivity |].
  destruct (_create_derived_features dated_loans) as [df' | e] eqn:E;
    [| exfalso; vm_compute in E; discriminate].
  destruct (issue_season_of_missing_date_is_automne dated_loans df'
              [Some (mkDate 2019 1 1); None; Some (mkDate 2019 7 1)]
              eq_refl E) as (seasons & months & Hs & Hm & _ & _ & Hrow).
  exists df', seasons, months.
  split; [reflexivity |]. split; [exact Hs |]. split; [exact Hm |].
  pose proof (Hrow 0%nat ltac:(simpl; lia)) as (_ & H0).
  pose proof (Hrow 1%nat ltac:(simpl; lia)) as (H1m & H1).
  pose proof (Hrow 2%nat ltac:(simpl; lia)) as (_ & H2).
  split; [exact H0 |]. split; [exact H1m |]. split; [exact H1 | exact H2].
Defined.

Lemma pd_cut_income (q : Q) :
  let cut := pd_cut true 0 [30000 # 1; 60000 # 1; 100000 # 1; 200000 # 1]
               ["Très faible"; "Faible"; "Moyen"; "Élevé"; "Très élevé"]
               (Some q) in
  ((q < 0)%Q -> cut = None) /\
  ((0 <= q)%Q -> (q <= 30000 # 1)%Q -> cut = Some "Très faible") /\
  ((30000 # 1 < q)%Q -> (q <= 60000 # 1)%Q -> cut = Some "Faible") /\
  ((60000 # 1 < q)%Q -> (q <= 100000 # 1)%Q -> cut = Some "Moyen") /\
  ((100000 # 1 < q)%Q -> (q <= 200000 # 1)%Q -> cut = Some "Élevé") /\
  ((200000 # 1 < q)%Q -> cut = Some "Très élevé").
Proof.
  cbv zeta. unfold pd_cut. cbn [andb bucket].
  destruct (Qlt_bool 0 q) eqn:E0;
    [apply Qlt_bool_iff in E0
    | assert (N0 : ~ (0 < q)%Q) by (rewrite <- Qlt_bool_iff; congruence) ];
  (destruct (Qeq_bool q 0) eqn:Ez;
    [apply Qeq_bool_iff in Ez
    | assert (Nz : ~ (q == 0)%Q) by (rewrite <- Qeq_bool_iff; congruence) ]);
  (destruct (Qle_bool q (30000 # 1)) eqn:E1;
    [apply Qle_bool_iff in E1
    | assert (N1 : ~ (q <= 30000 # 1)%Q) by (rewrite <- Qle_bool_iff; congruence) ]);
  (destruct (Qle_bool q (60000 # 1)) eqn:E2;
    [apply Qle_bool_iff in E2
    | assert (N2 : ~ (q <= 60000 # 1)%Q) by (rewrite <- Qle_bool_iff; congruence) ]);
  (destruct (Qle_bool q (100000 # 1)) eqn:E3;
    [apply Qle_bool_iff in E3
    | assert (N3 : ~ (q <= 100000 # 1)%Q) by (rewrite <- Qle_bool_iff; congruence) ]);
  (destruct (Qle_bool q (200000 # 1)) eqn:E4;
    [apply Qle_bool_iff in E4
    | assert (N4 : ~ (q <= 200000 # 1)%Q) by (rewrite <- Qle_bool_iff; congruence) ]);
  cbn [orb]; destruct q as [n d]; unfold Qlt, Qle, Qeq in *;
  cbn [Qnum Qden] in *;
  repeat split; intros; try reflexivity; exfalso; lia.
Qed.

(** X14. [income_category] follows the brackets of [pd.cut] with
    [include_lowest]: a missing income and a negative income have no
    bracket, an income of zero is in the lowest bracket [Très faible], and
    each bracket is closed on its upper edge (30000, 60000, 100000,
    200000). *)
Theorem income_category_brackets
  (df df' : DataFrame) (xs : list (option Q)) :
  get_col "annual_inc" df = Some (NumericS xs) ->
  _create_derived_features df = Ok df' ->
  exists cats : list (option scalar),
    get_col "income_category" df' = Some (CategoryS cats) /\
    length cats = length xs /\
    forall i : nat, (i < length xs)%nat ->
      match nth i xs None with
      | None => nth i cats None = None
      | Some q =>
          ((q < 0)%Q -> nth i cats None = None) /\
          ((0 <= q)%Q -> (q <= 30000 # 1)%Q ->
           nth i cats None = Some (SText "Très faible")) /\
          ((30000 # 1 < q)%Q -> (q <= 60000 # 1)%Q ->
           nth i cats None = Some (SText "Faible")) /\
          ((60000 # 1 < q)%Q -> (q <= 100000 # 1)%Q ->
           nth i cats None = Some (SText "Moyen")) /\
          ((100000 # 1 < q)%Q -> (q <= 200000 # 1)%Q ->
           nth i cats None = Some (SText "Élevé")) /\
          ((200000 # 1 < q)%Q -> nth i cats None = Some (SText "Très élevé"))
      end.
Proof.
  intros Hinc H.
  destruct (create_derived_features_steps df df' H) as (df2 & df3 & H2 & H3 & H7).
  set (cut := pd_cut true 0 [30000 # 1; 60000 # 1; 100000 # 1; 200000 # 1]
                ["Très faible"; "Faible"; "Moyen"; "Élevé"; "Très élevé"]).
  exists (map (option_map SText) (map cut xs)).
  assert (Hcat : get_col "income_category" df' =
                 Some (CategoryS (map (option_map SText) (map cut xs)))).
  { rewrite (derive_int_rate_category_get _ df' "income_category" H7) by reflexivity.
    rewrite derive_seasonality_get, derive_risk_category_get,
      derive_credit_age_get by reflexivity.
    rewrite (derive_ratio_get df2 df3 "income_category" H3) by reflexivity.
    unfold derive_income_category in H2.
    rewrite derive_labels_get, Hinc in H2 by reflexivity.
    cbn [numeric_cells bind] in H2. injection H2 as <-.
    now frame_simpl. }
  split; [exact Hcat |]. split; [now rewrite !length_map |].
  intros i Hi.
  rewrite (nth_map_lt (option_map SText) (map cut xs) i None None)
    by (now rewrite length_map).
  rewrite (nth_map_lt cut xs i None None Hi).
  destruct (nth i xs None) as [q |]; [| reflexivity].
  destruct (pd_cut_income q) as (P0 & P1 & P2 & P3 & P4 & P5). fold cut in P0, P1, P2, P3, P4, P5.
  repeat split; intros.
  - now rewrite P0.
  - now rewrite P1.
  - now rewrite P2.
  - now rewrite P3.
  - now rewrite P4.
  - now rewrite P5.
Qed.

Lemma income_category_brackets_witness :
  get_col "annual_inc" dated_loans =
    Some (NumericS [Some 0%Q; Some (-(5 # 1))%Q; None]) /\
  exists df' cats,
    _create_derived_features dated_loans = Ok df' /\
    get_col "income_category" df' = Some (CategoryS cats) /\
    nth 0 cats None = Some (SText "Très faible") /\
    nth 1 cats None = None /\
    nth 2 cats None = None.
Proof.
  split; [reflexivity |].
  destruct (_create_derived_features dated_loans) as [df' | e] eqn:E;
    [| exfalso; vm_compute in E; discriminate].
  destruct (income_category_brackets dated_loans df'
              [Some 0%Q; Some (-(5 # 1))%Q; None] eq_refl E)
    as (cats & Hcats & _ & Hrow).
  exists df', cats. split; [reflexivity |]. split; [exact Hcats |].
  pose proof (Hrow 0%nat ltac:(simpl; lia)) as (_ & H0 & _).
  pose proof (Hrow 1%nat ltac:(simpl; lia)) as (H1 & _).
  pose proof (Hrow 2%nat ltac:(simpl; lia)) as H2.
  split; [apply H0; unfold Qle; simpl; lia |].
  split; [apply H1; unfold Qlt; simpl; lia | exact H2].
Defined.

(* ------------------------------------------------------------------ *)
(** ** The standard names of the columns *)

Lemma label_char_not_space (c : ascii) : label_char c = true -> is_space c = false.
Proof.
  destruct c as [[] [] [] [] [] [] [] []]; vm_compute; congruence.
Qed.

Lemma label_char_is_word (c : ascii) : label_char c = true -> is_word c = true.
Proof. unfold label_char. intros H. now apply andb_true_iff in H. Qed.

Lemma label_char_not_upper (c : ascii) : label_char c = true -> is_upper c = false.
Proof.
  unfold label_char. intros H. apply andb_true_iff in H as (_ & H).
  now apply negb_true_iff.
Qed.

(** A lowered character, with an underscore for what is neither of [\w]
    nor a blank, is a blank or a character of a label. *)
Lemma lowered_char (c : ascii) :
  let c1 := lower_char c in
  let c2 := if is_word c1 || is_space c1 then c1 else "_"%char in
  is_space c2 || label_char c2 = true.
Proof.
  destruct c as [[] [] [] [] [] [] [] []]; vm_compute; reflexivity.
Qed.

Lemma all_chars_map_string (p : ascii -> bool) (f : ascii -> ascii) (s : string) :
  all_chars p (map_string f s) = all_chars (fun c => p (f c)) s.
Proof. induction s as [| c t IH]; simpl; [reflexivity | now rewrite IH]. Qed.

Lemma all_chars_true (p : ascii -> bool) (s : string) :
  (forall c, p c = true) -> all_chars p s = true.
Proof.
  intros H. induction s as [| c t IH]; simpl; [reflexivity |].
  now rewrite H, IH.
Qed.

Lemma all_chars_weaken (p q : ascii -> bool) (s : string) :
  (forall c, p c = true -> q c = true) ->
  all_chars p s = true -> all_chars q s = true.
Proof.
  intros H. induction s as [| c t IH]; simpl; [reflexivity |].
  intros Hs. apply andb_true_iff in Hs as (Hc & Ht).
  now rewrite (H c Hc), IH.
Qed.

Lemma sub_spaces_label_chars (in_run : bool) (s : string) :
  all_chars (fun c => is_space c || label_char c) s = true ->
  all_chars label_char (sub_spaces in_run s) = true.
Proof.
  revert in_run. induction s as [| c t IH]; intros in_run; simpl;
    [reflexivity |].
  intros H. apply andb_true_iff in H as (Hc & Ht).
  destruct (is_space c) eqn:Es.
  - destruct in_run; [now apply IH |]. cbn [all_chars].
    rewrite IH by exact Ht. reflexivity.
  - cbn [orb] in Hc. cbn [all_chars]. rewrite Hc, IH by exact Ht. reflexivity.
Qed.

Lemma standard_name_label_chars (col : string) :
  all_chars label_char (standard_name col) = true.
Proof.
  unfold standard_name, sub_special, lower. apply sub_spaces_label_chars.
  rewrite !all_chars_map_string. apply all_chars_true. apply lowered_char.
Qed.

Lemma lstrip_without_space (s : string) :
  all_chars (fun c => negb (is_space c)) s = true -> lstrip s = s.
Proof.
  destruct s as [| c t]; simpl; [reflexivity |].
  intros H. apply andb_true_iff in H as (Hc & _).
  apply negb_true_iff in Hc. now rewrite Hc.
Qed.

Lemma all_chars_rev_string (p : ascii -> bool) (acc s : string) :
  all_chars p (rev_string acc s) = all_chars p acc && all_chars p s.
Proof.
  revert acc. induction s as [| c t IH]; intros acc; simpl.
  - now rewrite andb_true_r.
  - rewrite IH. simpl. destruct (p c), (all_chars p acc), (all_chars p t);
      reflexivity.
Qed.

Lemma append_empty (s : string) : String.append s EmptyString = s.
Proof. induction s as [| c t IH]; simpl; [reflexivity | now rewrite IH]. Qed.

Lemma rev_string_rev_string (a b s : string) :
  rev_string b (rev_string a s) = rev_string (String.append s b) a.
Proof.
  revert a. induction s as [| c t IH]; intros a; simpl; [reflexivity |].
  now rewrite IH.
Qed.

Lemma strip_without_space (s : string) :
  all_chars (fun c => negb (is_space c)) s = true -> strip s = s.
Proof.
  intros H. unfold strip, rstrip. rewrite (lstrip_without_space s H).
  rewrite lstrip_without_space.
  - rewrite rev_string_rev_string. simpl. apply append_empty.
  - rewrite all_chars_rev_string. simpl. exact H.
Qed.

Lemma map_string_fixed (f : ascii -> ascii) (p : ascii -> bool) (s : string) :
  (forall c, p c = true -> f c = c) ->
  all_chars p s = true -> map_string f s = s.
Proof.
  intros Hf. induction s as [| c t IH]; simpl; [reflexivity |].
  intros H. apply andb_true_iff in H as (Hc & Ht).
  now rewrite (Hf c Hc), IH.
Qed.

Lemma sub_spaces_without_space (in_run : bool) (s : string) :
  all_chars (fun c => negb (is_space c)) s = true -> sub_spaces in_run s = s.
Proof.
  revert in_run. induction s as [| c t IH]; intros in_run; simpl;
    [reflexivity |].
  intros H. apply andb_true_iff in H as (Hc & Ht).
  apply negb_true_iff in Hc. rewrite Hc. now rewrite IH.
Qed.

Lemma standard_name_fixed (s : string) :
  all_chars label_char s = true -> standard_name s = s.
Proof.
  intros H.
  assert (Hns : all_chars (fun c => negb (is_space c)) s = true).
  { apply (all_chars_weaken label_char); [| exact H].
    intros c Hc. apply negb_true_iff. now apply label_char_not_space. }
  unfold standard_name. rewrite (strip_without_space s Hns).
  assert (Hl : lower s = s).
  { apply (map_string_fixed lower_char label_char); [| exact H].
    intros c Hc. unfold lower_char. now rewrite (label_char_not_upper c Hc). }
  rewrite Hl.
  assert (Hsp : sub_special s = s).
  { apply (map_string_fixed _ label_char); [| exact H].
    intros c Hc. now rewrite (label_char_is_word c Hc). }
  rewrite Hsp. now apply sub_spaces_without_space.
Qed.

(** X15. [_standardize_column_names] renames and does nothing else: the
    columns keep their order and their data. Every new label is made of
    lower-case letters, digits, underscores and bytes of non-ASCII
    characters only (no blank, no upper-case letter, no other sign), and a
    label of this kind is its own standard name, so that standardizing a
    second time changes nothing. *)
Theorem standardize_column_names_idempotent (df : DataFrame) :
  _standardize_column_names (_standardize_column_names df) =
    _standardize_column_names df /\
  map snd (_standardize_column_names df) = map snd df /\
  length (columns (_standardize_column_names df)) = length (columns df) /\
  (forall c, In c (columns (_standardize_column_names df)) ->
             all_chars label_char c = true /\ standard_name c = c).
Proof.
  unfold _standardize_column_names, columns. repeat split.
  - rewrite map_map. apply map_ext. intros [c s]. cbn [fst snd].
    now rewrite standard_name_fixed by apply standard_name_label_chars.
  - rewrite map_map. apply map_ext. now intros [c s].
  - now rewrite !length_map.
  - rewrite map_map in H. apply in_map_iff in H as ([c' s] & <- & _).
    apply standard_name_label_chars.
  - rewrite map_map in H. apply in_map_iff in H as ([c' s] & <- & _).
    apply standard_name_fixed. apply standard_name_label_chars.
Qed.

(* ------------------------------------------------------------------ *)
(** ** The cleaning of the text columns *)

Lemma clean_text_cells_length (na : nat -> string) (i : nat)
  (xs : list (option string)) :
  length (clean_text_cells na i xs) = length xs.
Proof.
  revert i. induction xs as [| x xs IH]; intros i; simpl;
    [reflexivity | now rewrite IH].
Qed.

Lemma nth_clean_text_cells (na : nat -> string) (i k : nat)
  (xs : list (option string)) :
  (k < length xs)%nat ->
  nth k (clean_text_cells na i xs) None = clean_text_cell (na (i + k)%nat) (nth k xs None).
Proof.
  revert i k. induction xs as [| x xs IH]; intros i k Hk; simpl in Hk; [lia |].
  destruct k as [| k]; cbn [clean_text_cells nth].
  - now rewrite Nat.add_0_r.
  - rewrite IH by lia. now rewrite Nat.add_succ_r.
Qed.

Lemma forallb_isnull_nth {A : Type} (l : list (option A)) :
  forallb isnull l = true <->
  forall i, (i < length l)%nat -> nth i l None = None.
Proof.
  induction l as [| x l IH]; simpl.
  - split; [intros _ i Hi; lia | reflexivity].
  - rewrite andb_true_iff, IH. split.
    + intros [Hx Hl] [| i] Hi.
      * now destruct x.
      * apply Hl. lia.
    + intros H. split.
      * specialize (H 0%nat ltac:(lia)). simpl in H. now rewrite H.
      * intros i Hi. apply (H (S i)). lia.
Qed.

Lemma map_constant {A B : Type} (v : B) (l : list A) :
  map (fun _ => v) l = repeat v (length l).
Proof. induction l as [| x l IH]; simpl; [reflexivity | now rewrite IH]. Qed.

(** The replacement leaves no text in a column that has rows. *)
Lemma emptied_iff (na : nat -> string) (xs : list (option string)) :
  negb (length xs =? 0)%nat && forallb isnull (clean_text_cells na 0 xs) = true <->
  xs <> [] /\
  forall i, (i < length xs)%nat ->
    In (strip (match nth i xs None with
               | Some t => t
               | None => na i
               end)) null_values.
Proof.
  rewrite andb_true_iff, negb_true_iff, Nat.eqb_neq, forallb_isnull_nth.
  rewrite clean_text_cells_length.
  assert (Hcell : forall i, (i < length xs)%nat ->
            (nth i (clean_text_cells na 0 xs) None = None <->
             In (strip (match nth i xs None with
                        | Some t => t
                        | None => na i
                        end)) null_values)).
  { intros i Hi. rewrite (nth_clean_text_cells na 0 i xs Hi). cbn [Nat.add].
    unfold clean_text_cell. cbv zeta. rewrite <- mem_true_iff.
    destruct (mem _ null_values); split; intros H; try reflexivity;
      discriminate. }
  split.
  - intros [Hlen Hall]. split.
    + intros ->. now apply Hlen.
    + intros i Hi. apply Hcell; [exact Hi |]. now apply Hall.
  - intros [Hne Hall]. split.
    + intros Hlen. apply Hne. now apply length_zero_iff_nil.
    + intros i Hi. apply Hcell; [exact Hi |]. now apply Hall.
Qed.

Lemma clean_text_series_cases (na : nat -> string) (col : string)
  (xs : list (option string)) :
  let emptied := negb (length xs =? 0)%nat &&
                 forallb isnull (clean_text_cells na 0 xs) in
  clean_text_series na col xs =
  if emptied
  then if mem col upper_columns
       then Raise AttributeError
       else Ok (NumericS (repeat None (length xs)))
  else Ok (ObjectS (if mem col upper_columns
                    then map (option_map upper) (clean_text_cells na 0 xs)
                    else clean_text_cells na 0 xs)).
Proof.
  cbv zeta. unfold clean_text_series. cbv zeta.
  now rewrite map_constant, clean_text_cells_length.
Qed.

Lemma cleaned_column_fst (na_repr : string -> nat -> string) (cs : string * Series) :
  fst (cleaned_column na_repr cs) = fst cs.
Proof.
  destruct cs as [c [xs | xs | xs | xs]]; try reflexivity.
  unfold cleaned_column. cbn [fst snd].
  destruct (clean_text_series (na_repr c) c xs); reflexivity.
Qed.

Lemma left_without_text_raises (na_repr : string -> nat -> string) (c : string)
  (xs : list (option string)) :
  (left_without_text na_repr (c, ObjectS xs) = true /\
   clean_text_series (na_repr c) c xs = Raise AttributeError) \/
  (left_without_text na_repr (c, ObjectS xs) = false /\
   clean_text_series (na_repr c) c xs =
   Ok (snd (cleaned_column na_repr (c, ObjectS xs)))).
Proof.
  unfold left_without_text, cleaned_column. cbn [fst snd].
  rewrite clean_text_series_cases. cbv zeta.
  destruct (negb (length xs =? 0)%nat &&
            forallb isnull (clean_text_cells (na_repr c) 0 xs)) eqn:E;
    destruct (mem c upper_columns) eqn:Eu; cbn [andb];
    [left | right | right | right]; now split.
Qed.

Lemma clean_text_loop_columns (na_repr : string -> nat -> string)
  (suf pre : DataFrame) :
  NoDup (columns (pre ++ suf)) ->
  clean_text_loop na_repr (text_columns suf) (pre ++ suf) =
  if existsb (left_without_text na_repr) suf
  then Raise AttributeError
  else Ok (pre ++ map (cleaned_column na_repr) suf).
Proof.
  revert pre. induction suf as [| [c s] suf IH]; intros pre Hnd.
  - reflexivity.
  - assert (Hget : get_col c (pre ++ (c, s) :: suf) = Some s).
    { apply In_get_col; [exact Hnd |]. apply in_or_app. right. now left. }
    assert (Hnext : forall s', NoDup (columns ((pre ++ [(c, s')]) ++ suf))).
    { intros s'. rewrite <- app_assoc. cbn [app].
      rewrite columns_app in Hnd |- *. exact Hnd. }
    assert (Hother : is_object s = false ->
              clean_text_loop na_repr (text_columns ((c, s) :: suf))
                (pre ++ (c, s) :: suf) =
              if existsb (left_without_text na_repr) ((c, s) :: suf)
              then Raise AttributeError
              else Ok (pre ++ map (cleaned_column na_repr) ((c, s) :: suf))).
    { intros Hs.
      assert (Hleft : left_without_text na_repr (c, s) = false)
        by (destruct s; [discriminate | reflexivity ..]).
      assert (Hclean : cleaned_column na_repr (c, s) = (c, s))
        by (destruct s; [discriminate | reflexivity ..]).
      unfold text_columns. cbn [filter snd map existsb]. rewrite Hs, Hleft, Hclean.
      fold (text_columns suf). cbn [orb].
      change (pre ++ (c, s) :: suf) with (pre ++ [(c, s)] ++ suf).
      rewrite app_assoc, (IH _ (Hnext _)), <- app_assoc. reflexivity. }
    destruct s as [xs | xs | xs | xs]; try (apply Hother; reflexivity).
    clear Hother.
    unfold text_columns. cbn [filter snd is_object map fst existsb].
    fold (text_columns suf). cbn [clean_text_loop]. rewrite Hget.
    destruct (left_without_text_raises na_repr c xs) as [[Hl Hr] | [Hl Hr]];
      rewrite Hl, Hr; cbn [bind orb]; [reflexivity |].
    rewrite (set_col_middle pre suf c _ _ Hnd).
    set (s' := snd (cleaned_column na_repr (c, ObjectS xs))).
    assert (Hcol : cleaned_column na_repr (c, ObjectS xs) = (c, s')).
    { unfold s'.
      rewrite (surjective_pairing (cleaned_column na_repr (c, ObjectS xs))) at 1.
      now rewrite cleaned_column_fst. }
    rewrite Hcol.
    change (pre ++ (c, s') :: suf) with (pre ++ [(c, s')] ++ suf).
    rewrite app_assoc, (IH _ (Hnext _)), <- app_assoc. reflexivity.
Qed.

Lemma clean_text_columns_unfold (na_repr : string -> nat -> string) (df : DataFrame) :
  NoDup (columns df) ->
  _clean_text_columns na_repr df =
  if existsb (left_without_text na_repr) df
  then Raise AttributeError
  else Ok (map (cleaned_column na_repr) df).
Proof. intros Hnd. exact (clean_text_loop_columns na_repr df [] Hnd). Qed.

Lemma get_col_map_cleaned (na_repr : string -> nat -> string) (c : string)
  (df : DataFrame) :
  get_col c (map (cleaned_column na_repr) df) =
  option_map (fun s => snd (cleaned_column na_repr (c, s))) (get_col c df).
Proof.
  induction df as [| [c0 s0] df IH]; [reflexivity |].
  cbn [map get_col].
  destruct (cleaned_column na_repr (c0, s0)) as [c1 s1] eqn:Es.
  assert (Hc : c1 = c0)
    by (pose proof (cleaned_column_fst na_repr (c0, s0)) as H; now rewrite Es in H).
  subst c1. destruct (String.eqb c0 c) eqn:E; [| exact IH].
  apply String.eqb_eq in E. subst c0. cbn [option_map]. now rewrite Es.
Qed.

Lemma existsb_false_in {A : Type} (f : A -> bool) (l : list A) (x : A) :
  existsb f l = false -> In x l -> f x = false.
Proof.
  intros H Hx. destruct (f x) eqn:E; [| reflexivity].
  assert (Ht : existsb f l = true) by (apply existsb_exists; now exists x).
  congruence.
Qed.

(** X16. [_clean_text_columns] on a frame with distinct labels. A cell of
    a text column is read as its text, a missing cell as what [str] prints
    for it ([nan] for NaN, [None] for the object [None]), stripped of the
    blanks around it. The cell becomes missing when this text is one of
    [nan], [none], [null], [na] or the empty text, compared in lower case
    only, and holds the text otherwise, in upper case for [loan_status],
    [grade], [sub_grade] and [emp_title]: a missing NaN stays missing, a
    missing [None] is filled with the text [None]. When no text is left in
    a column that has rows, the column comes back numeric, all missing,
    and for one of the four columns put in upper case the method raises
    [AttributeError], the only exception it raises. The labels, their
    order, the lengths and the columns of another dtype are kept. *)
Theorem clean_text_columns_per_column
  (na_repr : string -> nat -> string) (df : DataFrame) :
  NoDup (columns df) ->
  let text := fun (c : string) (i : nat) (x : option string) =>
                strip (match x with
                       | Some t => t
                       | None => na_repr c i
                       end) in
  let emptied := fun (c : string) (xs : list (option string)) =>
                   xs <> [] /\
                   forall i, (i < length xs)%nat ->
                     In (text c i (nth i xs None)) null_values in
  (_clean_text_columns na_repr df = Raise AttributeError <->
   exists c xs, In (c, ObjectS xs) df /\ In c upper_columns /\ emptied c xs) /\
  (forall e, _clean_text_columns na_repr df = Raise e -> e = AttributeError) /\
  (forall df', _clean_text_columns na_repr df = Ok df' ->
     columns df' = columns df /\
     (forall c s, In (c, s) df -> is_object s = false -> get_col c df' = Some s) /\
     (forall c xs, In (c, ObjectS xs) df ->
        (emptied c xs ->
         get_col c df' = Some (NumericS (repeat None (length xs)))) /\
        (~ emptied c xs ->
         exists ys,
           get_col c df' = Some (ObjectS ys) /\
           length ys = length xs /\
           forall i : nat, (i < length xs)%nat ->
             nth i ys None =
             if mem (text c i (nth i xs None)) null_values then None
             else Some (if mem c upper_columns
                        then upper (text c i (nth i xs None))
                        else text c i (nth i xs None))))).
Proof.
  intros Hnd text emptied.
  rewrite (clean_text_columns_unfold na_repr df Hnd).
  assert (Hemptied : forall c xs,
            negb (length xs =? 0)%nat &&
            forallb isnull (clean_text_cells (na_repr c) 0 xs) = true <->
            emptied c xs)
    by (intros c xs; apply emptied_iff).
  split; [| split].
  - split.
    + intros H. destruct (existsb (left_without_text na_repr) df) eqn:E;
        [| discriminate].
      apply existsb_exists in E as ([c s] & Hin & Hleft).
      destruct s as [xs | xs | xs | xs]; try discriminate.
      unfold left_without_text in Hleft. cbn [fst snd] in Hleft.
      apply andb_true_iff in Hleft as (Hu & He).
      exists c, xs. split; [exact Hin |]. split; [now apply mem_true_iff |].
      now apply Hemptied.
    + intros (c & xs & Hin & Hu & He).
      assert (E : existsb (left_without_text na_repr) df = true).
      { apply existsb_exists. exists (c, ObjectS xs). split; [exact Hin |].
        unfold left_without_text. cbn [fst snd].
        apply andb_true_iff. split; [now apply mem_true_iff | now apply Hemptied]. }
      now rewrite E.
  - intros e H. destruct (existsb (left_without_text na_repr) df);
      [now injection H as <- | discriminate].
  - intros df' H.
    destruct (existsb (left_without_text na_repr) df) eqn:E; [discriminate |].
    injection H as <-. split; [| split].
    + unfold columns. rewrite map_map. apply map_ext. apply cleaned_column_fst.
    + intros c s Hin Hobj.
      rewrite get_col_map_cleaned, (In_get_col c s df Hnd Hin).
      destruct s; try reflexivity. discriminate.
    + intros c xs Hin.
      pose proof (existsb_false_in _ _ _ E Hin) as Hleft.
      unfold left_without_text in Hleft. cbn [fst snd] in Hleft.
      rewrite get_col_map_cleaned, (In_get_col c _ df Hnd Hin).
      cbn [option_map]. unfold cleaned_column. cbn [fst snd].
      rewrite clean_text_series_cases. cbv zeta.
      destruct (negb (length xs =? 0)%nat &&
                forallb isnull (clean_text_cells (na_repr c) 0 xs)) eqn:Ee.
      * rewrite andb_true_r in Hleft. rewrite Hleft. cbn [snd]. split.
        -- reflexivity.
        -- intros Hn. exfalso. apply Hn. now apply Hemptied.
      * cbn [snd]. split.
        -- intros He. apply Hemptied in He. congruence.
        -- intros _.
           exists (if mem c upper_columns
                   then map (option_map upper) (clean_text_cells (na_repr c) 0 xs)
                   else clean_text_cells (na_repr c) 0 xs).
           split; [reflexivity |].
           split; [destruct (mem c upper_columns);
                   now rewrite ?length_map, clean_text_cells_length |].
           intros i Hi.
           assert (Hcell : nth i (clean_text_cells (na_repr c) 0 xs) None =
                           if mem (text c i (nth i xs None)) null_values then None
                           else Some (text c i (nth i xs None))).
           { rewrite (nth_clean_text_cells (na_repr c) 0 i xs Hi). reflexivity. }
           destruct (mem c upper_columns).
           ++ rewrite (nth_map_lt (option_map upper) _ i None None)
                by (now rewrite clean_text_cells_length).
              rewrite Hcell.
              destruct (mem (text c i (nth i xs None)) null_values); reflexivity.
           ++ exact Hcell.
Qed.

(** The status [ Fully Paid ] is stripped and put in upper case, [na]
    becomes a missing cell and the missing status that holds [None] is
    filled with the text [NONE]; in [purpose] the text [NA] is kept. A
    grade column in which nothing but blanks and null texts is found makes
    the method raise. *)
Lemma clean_text_columns_per_column_witness :
  NoDup (columns status_column) /\
  NoDup (columns blank_grades) /\
  (exists df',
     _clean_text_columns none_in_status status_column = Ok df' /\
     get_col "loan_status" df' =
       Some (ObjectS [Some "FULLY PAID"; None; Some "NONE"]) /\
     get_col "purpose" df' = Some (ObjectS [Some "car"; Some "NA"; None]) /\
     get_col "loan_amnt" df' =
       Some (NumericS [Some (1000 # 1); None; Some (3000 # 1)])) /\
  _clean_text_columns example_na_repr blank_grades = Raise AttributeError.
Proof.
  assert (Hnd : NoDup (columns status_column))
    by (apply distinct_NoDup; reflexivity).
  assert (Hndg : NoDup (columns blank_grades))
    by (apply distinct_NoDup; reflexivity).
  split; [exact Hnd |]. split; [exact Hndg |]. split.
  - destruct (_clean_text_columns none_in_status status_column)
      as [df' | e] eqn:E; [| exfalso; vm_compute in E; discriminate].
    exists df'. split; [reflexivity |].
    destruct (clean_text_columns_per_column none_in_status status_column Hnd)
      as (_ & _ & Hok).
    destruct (Hok df' E) as (_ & Hother & _).
    split; [vm_compute in E; injection E as <-; reflexivity |].
    split; [vm_compute in E; injection E as <-; reflexivity |].
    apply Hother; [simpl; tauto | reflexivity].
  - destruct (clean_text_columns_per_column example_na_repr blank_grades Hndg)
      as (Hraise & _).
    apply Hraise. exists "grade", [None; Some " "; Some "null"].
    split; [simpl; tauto |]. split; [simpl; tauto |].
    split; [discriminate |].
    intros [| [| [| i]]] Hi; [vm_compute; tauto .. | simpl in Hi; lia].
Defined.

(* ------------------------------------------------------------------ *)
(** ** The handling of the outliers *)

Lemma np_where_below_mask (b : option Q) (xs : list (option Q)) :
  map isnull (np_where (map (fun x => lt_cell x b) xs) b xs) = map isnull xs.
Proof.
  unfold np_where. induction xs as [| x xs IH]; [reflexivity |].
  cbn [map zip_with]. rewrite IH. f_equal.
  destruct x as [q |]; [| reflexivity].
  destruct b as [v |]; [| reflexivity].
  cbn [lt_cell]. destruct (Qlt_bool q v); reflexivity.
Qed.

Lemma np_where_above_mask (b : option Q) (xs : list (option Q)) :
  map isnull (np_where (map (fun x => lt_cell b x) xs) b xs) = map isnull xs.
Proof.
  unfold np_where. induction xs as [| x xs IH]; [reflexivity |].
  cbn [map zip_with]. rewrite IH. f_equal.
  destruct x as [q |]; [| now destruct b].
  destruct b as [v |]; [| reflexivity].
  cbn [lt_cell]. destruct (Qlt_bool v q); reflexivity.
Qed.

Lemma winsorize_null_mask (sqrtQ : Q -> Q) (threshold : Q) (xs : list (option Q)) :
  map isnull (winsorize sqrtQ threshold xs) = map isnull xs.
Proof.
  unfold winsorize. cbv zeta.
  destruct (0 <? count_true _)%nat; [| reflexivity].
  now rewrite np_where_above_mask, np_where_below_mask.
Qed.

Lemma outliers_loop_invariant (sqrtQ : Q -> Q) (cols : list string)
  (threshold : Q) (df df' : DataFrame) :
  outliers_loop sqrtQ cols threshold df = Ok df' ->
  forall c,
    option_map null_mask (get_col c df') = option_map null_mask (get_col c df) /\
    (mem c cols = false \/ mem c ["is_default"; "is_fully_paid"] = true ->
     get_col c df' = get_col c df).
Proof.
  revert df. induction cols as [| col rest IH]; intros df H c.
  - cbn [outliers_loop] in H. injection H as <-. split; reflexivity.
  - cbn [outliers_loop] in H.
    destruct (mem col ["is_default"; "is_fully_paid"]) eqn:Ef.
    + destruct (IH df H c) as (Hmask & Hsame). split; [exact Hmask |].
      intros [Hc | Hc]; apply Hsame; [left | now right].
      rewrite mem_cons in Hc. now apply orb_false_iff in Hc.
    + destruct (get_col col df) as [s |] eqn:Eg; [| discriminate].
      destruct s as [xs | xs | xs | xs]; cbn [numeric_cells bind] in H;
        try discriminate.
      destruct (IH _ H c) as (Hmask & Hsame). split.
      * rewrite Hmask, get_col_set_col.
        destruct (String.eqb col c) eqn:Ec; [| reflexivity].
        apply String.eqb_eq in Ec. subst c. rewrite Eg. cbn [option_map null_mask].
        now rewrite winsorize_null_mask.
      * intros Hc.
        assert (Ec : String.eqb col c = false).
        { destruct (String.eqb col c) eqn:Ec; [| reflexivity].
          apply String.eqb_eq in Ec. subst c. destruct Hc as [Hc | Hc].
          - rewrite mem_cons, (String.eqb_refl col) in Hc. discriminate.
          - congruence. }
        rewrite Hsame, get_col_set_col, Ec; [reflexivity |].
        destruct Hc as [Hc | Hc]; [left | now right].
        rewrite mem_cons in Hc. now apply orb_false_iff in Hc.
Qed.

(** X17. Whatever [_handle_outliers] returns, it has changed values only:
    in every column the missing cells are the same cells as before (no
    cell is filled, none is emptied, no row is dropped), and the columns
    outside [numeric_columns], as well as [is_default] and
    [is_fully_paid], are returned as they were. *)
Theorem handle_outliers_keeps_missing_cells
  (sqrtQ : Q -> Q) (self : DataTransformer) (df df' : DataFrame) (threshold : Q) :
  _handle_outliers sqrtQ self df threshold = Ok df' ->
  (forall c, option_map null_mask (get_col c df') =
             option_map null_mask (get_col c df)) /\
  (forall c, ~ In c (numeric_columns self) \/ In c ["is_default"; "is_fully_paid"] ->
             get_col c df' = get_col c df).
Proof.
  intros H. unfold _handle_outliers in H.
  pose proof (outliers_loop_invariant sqrtQ _ threshold df df' H) as Hinv.
  split.
  - intros c. exact (proj1 (Hinv c)).
  - intros c Hc. apply (proj2 (Hinv c)). destruct Hc as [Hc | Hc].
    + left. now apply mem_false_iff.
    + right. now apply mem_true_iff.
Qed.

(** With the identity for the square root and a threshold of one ten
    thousandth the amounts are brought back to the bounds; the missing
    amount stays missing, the default label and the grade are not touched. *)
Lemma handle_outliers_keeps_missing_cells_witness :
  exists df',
    _handle_outliers example_sqrt amount_transformer five_amounts (1 # 10000) = Ok df' /\
    option_map null_mask (get_col "loan_amnt" df') =
      Some [false; false; true; false; false] /\
    get_col "is_default" df' = get_col "is_default" five_amounts /\
    get_col "grade" df' = get_col "grade" five_amounts /\
    get_col "loan_amnt" df' <> get_col "loan_amnt" five_amounts.
Proof.
  destruct (_handle_outliers example_sqrt amount_transformer five_amounts (1 # 10000))
    as [df' | e] eqn:E.
  - exists df'. split; [reflexivity |].
    destruct (handle_outliers_keeps_missing_cells example_sqrt amount_transformer
                five_amounts df' (1 # 10000) E) as (Hmask & Hsame).
    split; [rewrite Hmask; reflexivity |].
    split; [apply Hsame; right; simpl; tauto |].
    split; [apply Hsame; left; simpl; intuition discriminate |].
    vm_compute in E. injection E as <-. vm_compute. intros Hneq. discriminate Hneq.
  - exfalso. vm_compute in E. discriminate.
Defined.

(* ------------------------------------------------------------------ *)
(** ** The rows bound to the insert statement *)





(* ------------------------------------------------------------------ *)
(** ** The selection of the pipeline followed by the loader *)

Lemma NoDup_firstn {A : Type} (n : nat) (l : list A) : NoDup l -> NoDup (firstn n l).
Proof.
  intros H. rewrite <- (firstn_skipn n l) in H.
  exact (NoDup_app_remove_r _ _ H).
Qed.

Lemma essential_additional_disjoint (c : string) :
  In c essential_columns -> ~ In c additional_columns.
Proof.
  intros Hc Ha.
  assert (Hall : forallb (fun c => negb (mem c additional_columns))
                   essential_columns = true) by reflexivity.
  rewrite forallb_forall in Hall. specialize (Hall c Hc).
  apply mem_true_iff in Ha. rewrite Ha in Hall. discriminate.
Qed.

Lemma selection_NoDup (max_cols : Z) (df : DataFrame) :
  NoDup (columns df) -> NoDup (columns (_select_columns max_cols df)).
Proof.
  intros Hnd. rewrite (columns_of_selection max_cols df Hnd).
  apply NoDup_app.
  - apply NoDup_filter. apply distinct_NoDup. reflexivity.
  - apply NoDup_firstn. apply NoDup_filter. apply distinct_NoDup. reflexivity.
  - intros c Hc Ha. apply in_firstn in Ha.
    apply available_in_columns in Hc as (Hc & _).
    apply available_in_columns in Ha as (Ha & _).
    exact (essential_additional_disjoint c Hc Ha).
Qed.

(** X19. The loader undoes the additional columns of the pipeline: when
    [_select_columns] hands more than 20 columns to the loader and the
    frame has at least 15 essential columns, the table that
    [load_to_sqlite_ultra_simple] stores holds the available essential
    columns and nothing else, so that no additional column of the selection
    is stored, whatever [max_columns] is. *)
Theorem additional_columns_of_the_selection_are_not_stored
  (max_cols : Z) (df : DataFrame) :
  NoDup (columns df) ->
  let available_essential :=
    filter (fun col => mem col (columns df)) essential_columns in
  let selection := _select_columns max_cols df in
  (20 < length (columns selection))%nat ->
  (15 <= length available_essential)%nat ->
  columns (frame_to_store selection) = available_essential /\
  (forall c, In c additional_columns -> ~ In c (columns (frame_to_store selection))).
Proof.
  intros Hnd ess selection Hwide Hess.
  assert (Hsel := columns_of_selection max_cols df Hnd). fold ess selection in Hsel.
  assert (Hnds : NoDup (columns selection)) by (now apply selection_NoDup).
  assert (Hkept : filter (fun col => mem col (columns selection)) priority_cols = ess).
  { unfold ess, essential_columns. apply filter_ext_in. intros p Hp.
    destruct (mem p (columns df)) eqn:E.
    - apply mem_true_iff. rewrite Hsel. apply in_or_app. left.
      apply available_in_columns. split; [exact Hp | now apply mem_true_iff].
    - apply mem_false_iff. intros Hin. rewrite Hsel in Hin.
      apply mem_false_iff in E. apply E.
      apply in_app_or in Hin as [Hin | Hin].
      + apply available_in_columns in Hin as (_ & Hin). exact Hin.
      + apply in_firstn in Hin.
        apply available_in_columns in Hin as (_ & Hin). exact Hin. }
  assert (Hkeep : cols_to_keep selection = ess).
  { unfold cols_to_keep. cbv zeta. rewrite Hkept.
    replace (length ess <? 15)%nat with false
      by (symmetry; apply Nat.ltb_ge; exact Hess).
    reflexivity. }
  assert (Hstored : columns (frame_to_store selection) = ess).
  { unfold frame_to_store.
    replace (20 <? length (columns selection))%nat with true
      by (symmetry; apply Nat.ltb_lt; exact Hwide).
    rewrite Hkeep. apply columns_select_columns; [exact Hnds |].
    intros c Hc. rewrite Hsel. apply in_or_app. now left. }
  split; [exact Hstored |].
  intros c Hc Hin. rewrite Hstored in Hin.
  apply available_in_columns in Hin as (Hin & _).
  exact (essential_additional_disjoint c Hin Hc).
Qed.

(** The wide frame has the 17 essential and the 14 additional columns:
    the pipeline selects 25 of them and the loader stores the 17 essential
    ones. *)
Lemma additional_columns_of_the_selection_are_not_stored_witness :
  NoDup (columns wide_frame) /\
  (20 < length (columns (_select_columns 25 wide_frame)))%nat /\
  (15 <= length (filter (fun col => mem col (columns wide_frame))
                   essential_columns))%nat /\
  columns (frame_to_store (_select_columns 25 wide_frame)) = essential_columns.
Proof.
  assert (Hnd : NoDup (columns wide_frame)) by (apply distinct_NoDup; reflexivity).
  assert (Hwide : (20 < length (columns (_select_columns 25 wide_frame)))%nat)
    by (vm_compute; lia).
  assert (Hess : (15 <= length (filter (fun col => mem col (columns wide_frame))
                              essential_columns))%nat)
    by (vm_compute; lia).
  split; [exact Hnd |]. split; [exact Hwide |]. split; [exact Hess |].
  exact (proj1 (additional_columns_of_the_selection_are_not_stored 25 wide_frame
                  Hnd Hwide Hess)).
Defined.

(* ------------------------------------------------------------------ *)
(** ** The rows that the missing-value step keeps *)

Lemma fillna_null_free {A : Type} (v : A) (xs : list (option A)) :
  count_true (map isnull (fillna v xs)) = 0%nat.
Proof.
  unfold count_true, fillna.
  induction xs as [| [a |] xs IH]; cbn; auto.
Qed.

Lemma insert_by_length {A : Type} (le : A -> A -> bool) (x : A) (l : list A) :
  length (insert_by le x l) = S (length l).
Proof.
  induction l as [| y l IH]; simpl; [reflexivity |].
  destruct (le x y); simpl; [reflexivity | now rewrite IH].
Qed.

Lemma sort_by_length {A : Type} (le : A -> A -> bool) (l : list A) :
  length (sort_by le l) = length l.
Proof.
  induction l as [| x l IH]; simpl; [reflexivity |].
  now rewrite insert_by_length, IH.
Qed.

Lemma median_of_values (xs : list (option Q)) (q : Q) :
  In (Some q) xs -> exists m, median xs = Some m.
Proof.
  intros H. unfold median. cbv zeta. rewrite !sort_by_length.
  apply in_dropna_cells in H.
  destruct (dropna_cells xs) as [| a l] eqn:E; [destruct H |].
  cbn [length Nat.eqb]. destruct (Nat.odd (S (length l))); eauto.
Qed.

Lemma impute_fills (n : nat) (c : string) (s : Series) :
  (isnull_count s = 0%nat \/
   match s with
   | ObjectS _ => True
   | NumericS xs => exists q, In (Some q) xs
   | _ => False
   end) ->
  isnull_count (snd (impute_if_missing n (c, s))) = 0%nat.
Proof.
  intros H. unfold impute_if_missing. cbn [fst snd].
  destruct (isnull_count s =? 0)%nat eqn:E; [now apply Nat.eqb_eq in E |].
  destruct H as [H | H]; [rewrite H in E; discriminate |].
  rewrite impute_column_policy. cbv zeta.
  destruct s as [xs | xs | xs | xs]; [| | destruct H | destruct H].
  - apply fillna_null_free.
  - destruct H as (q & Hq). destruct (median_of_values xs q Hq) as (m & Hm).
    rewrite Hm. cbn [fillna_opt].
    destruct (Qle_bool _ _); [apply fillna_null_free |].
    destruct (rate_like c); apply fillna_null_free.
Qed.

Lemma count_true_zero (m : list bool) :
  count_true m = 0%nat -> m = repeat false (length m).
Proof.
  unfold count_true. induction m as [| [] m IH]; simpl; intros H;
    [reflexivity | discriminate | f_equal; now apply IH].
Qed.

Lemma notnull_rows_all (subset : list string) (df : DataFrame) :
  (forall c, In c subset ->
     exists s, get_col c df = Some s /\ null_mask s = repeat false (len df)) ->
  notnull_rows subset df = repeat true (len df).
Proof.
  induction subset as [| c rest IH]; intros H; cbn [notnull_rows];
    [reflexivity |].
  destruct (H c (or_introl eq_refl)) as (s & Hs & Hm).
  rewrite Hs, Hm, IH by (intros c' Hc'; apply H; now right).
  clear. induction (len df) as [| n IHn]; simpl; [reflexivity | now f_equal].
Qed.

Lemma keep_all {A : Type} (xs : list A) : keep (repeat true (length xs)) xs = xs.
Proof. induction xs as [| x xs IH]; simpl; [reflexivity | now rewrite IH]. Qed.

Lemma frame_keep_all (n : nat) (df : DataFrame) :
  Forall (fun cs => series_len (snd cs) = n) df ->
  frame_keep (repeat true n) df = df.
Proof.
  intros H. unfold frame_keep.
  induction H as [| [c s] l Hs Hl IH]; simpl; [reflexivity |].
  rewrite IH. f_equal. f_equal. simpl in Hs. rewrite <- Hs.
  destruct s; simpl; now rewrite keep_all.
Qed.

(** X20. The row drop of [_handle_missing_values] removes nothing when the
    imputation can fill the critical columns: on a well-formed frame where
    each of [loan_amnt], [issue_d] and [loan_status] is complete, or is a
    text column, or is a numeric column with at least one value, the
    returned frame is the imputed frame with all its rows and all its
    columns. *)
Theorem handle_missing_values_keeps_filled_rows (df df' : DataFrame) :
  well_formed df ->
  _handle_missing_values df = Ok df' ->
  (forall c, In c critical_columns ->
     exists s, get_col c df = Some s /\
       (isnull_count s = 0%nat \/
        match s with
        | ObjectS _ => True
        | NumericS xs => exists q, In (Some q) xs
        | _ => False
        end)) ->
  df' = map (impute_if_missing (len df)) df /\
  len df' = len df /\
  columns df' = columns df.
Proof.
  intros [Hnd Hlen] H Hcrit.
  rewrite (handle_missing_values_unfold df Hnd) in H.
  destruct (existsb has_missing df); [| discriminate].
  apply dropna_subset_ok in H as (-> & _).
  set (dfI := map (impute_if_missing (len df)) df).
  assert (HlenI : len dfI = len df) by apply len_map_impute.
  assert (Hall : notnull_rows critical_columns dfI = repeat true (len dfI)).
  { apply notnull_rows_all. intros c Hc.
    destruct (Hcrit c Hc) as (s & Hs & Hf).
    exists (snd (impute_if_missing (len df) (c, s))). split.
    - unfold dfI. rewrite get_col_map_impute, Hs. reflexivity.
    - pose proof (impute_fills (len df) c s Hf) as H0.
      apply count_true_zero in H0. rewrite H0. f_equal.
      rewrite null_mask_length, impute_if_missing_len. cbn [snd].
      rewrite HlenI. apply (well_formed_col_len df c s); [now split | exact Hs]. }
  assert (Hkeep : frame_keep (notnull_rows critical_columns dfI) dfI = dfI).
  { rewrite Hall, HlenI. apply frame_keep_all. unfold dfI.
    apply Forall_map. revert Hlen. apply Forall_impl.
    intros cs Hcs. now rewrite impute_if_missing_len. }
  rewrite Hkeep. split; [reflexivity |]. split; [exact HlenI |].
  unfold dfI, columns. rewrite map_map. apply map_ext.
  apply impute_if_missing_fst.
Qed.

(** The four raw loans lose no row: the missing amount and the missing
    status are filled before the rows are dropped. *)
Lemma handle_missing_values_keeps_filled_rows_witness :
  well_formed four_raw_loans /\
  exists df',
    _handle_missing_values four_raw_loans = Ok df' /\
    len four_raw_loans = 4%nat /\
    len df' = 4%nat.
Proof.
  split; [exact four_raw_loans_well_formed |].
  destruct (_handle_missing_values four_raw_loans) as [df' | e] eqn:E.
  - exists df'. split; [reflexivity |]. split; [reflexivity |].
    assert (Hcrit : forall c, In c critical_columns ->
              exists s, get_col c four_raw_loans = Some s /\
                (isnull_count s = 0%nat \/
                 match s with
                 | ObjectS _ => True
                 | NumericS xs => exists q, In (Some q) xs
                 | _ => False
                 end)).
    { intros c [<- | [<- | [<- | []]]]; eexists; (split; [reflexivity |]).
      - right. exists (1000 # 1)%Q. simpl. tauto.
      - right. exact I.
      - right. exact I. }
    destruct (handle_missing_values_keeps_filled_rows four_raw_loans df'
                four_raw_loans_well_formed E Hcrit) as (_ & Hlen & _).
    exact Hlen.
  - exfalso. vm_compute in E. discriminate.
Defined.

(* ------------------------------------------------------------------ *)
(** ** The brackets of the interest rate *)

Lemma pd_cut_int_rate (q : Q) :
  let cut := pd_cut false 0 [5 # 1; 10 # 1; 15 # 1; 20 # 1; 30 # 1]
               ["0-5%"; "5-10%"; "10-15%"; "15-20%"; "20-30%"; "30%+"]
               (Some q) in
  ((q <= 0)%Q -> cut = None) /\
  ((0 < q)%Q -> (q <= 5 # 1)%Q -> cut = Some "0-5%") /\
  ((5 # 1 < q)%Q -> (q <= 10 # 1)%Q -> cut = Some "5-10%") /\
  ((10 # 1 < q)%Q -> (q <= 15 # 1)%Q -> cut = Some "10-15%") /\
  ((15 # 1 < q)%Q -> (q <= 20 # 1)%Q -> cut = Some "15-20%") /\
  ((20 # 1 < q)%Q -> (q <= 30 # 1)%Q -> cut = Some "20-30%") /\
  ((30 # 1 < q)%Q -> cut = Some "30%+").
Proof.
  cbv zeta. unfold pd_cut. cbn [andb bucket]. rewrite orb_false_r.
  destruct (Qlt_bool 0 q) eqn:E0;
    [apply Qlt_bool_iff in E0
    | assert (N0 : ~ (0 < q)%Q) by (rewrite <- Qlt_bool_iff; congruence) ];
  (destruct (Qle_bool q (5 # 1)) eqn:E1;
    [apply Qle_bool_iff in E1
    | assert (N1 : ~ (q <= 5 # 1)%Q) by (rewrite <- Qle_bool_iff; congruence) ]);
  (destruct (Qle_bool q (10 # 1)) eqn:E2;
    [apply Qle_bool_iff in E2
    | assert (N2 : ~ (q <= 10 # 1)%Q) by (rewrite <- Qle_bool_iff; congruence) ]);
  (destruct (Qle_bool q (15 # 1)) eqn:E3;
    [apply Qle_bool_iff in E3
    | assert (N3 : ~ (q <= 15 # 1)%Q) by (rewrite <- Qle_bool_iff; congruence) ]);
  (destruct (Qle_bool q (20 # 1)) eqn:E4;
    [apply Qle_bool_iff in E4
    | assert (N4 : ~ (q <= 20 # 1)%Q) by (rewrite <- Qle_bool_iff; congruence) ]);
  (destruct (Qle_bool q (30 # 1)) eqn:E5;
    [apply Qle_bool_iff in E5
    | assert (N5 : ~ (q <= 30 # 1)%Q) by (rewrite <- Qle_bool_iff; congruence) ]);
  destruct q as [n d]; unfold Qlt, Qle in *;
  cbn [Qnum Qden] in *;
  repeat split; intros; try reflexivity; exfalso; lia.
Qed.

(** X21. [int_rate_category] follows the brackets of [pd.cut] without
    [include_lowest]: a missing rate and a rate of zero or below have no
    bracket (unlike an income of zero), each bracket is closed on its upper
    edge (5, 10, 15, 20, 30), and every rate above 30 is in [30%+]. *)
Theorem int_rate_category_brackets
  (df df' : DataFrame) (xs : list (option Q)) :
  get_col "int_rate" df = Some (NumericS xs) ->
  _create_derived_features df = Ok df' ->
  exists cats : list (option scalar),
    get_col "int_rate_category" df' = Some (CategoryS cats) /\
    length cats = length xs /\
    forall i : nat, (i < length xs)%nat ->
      match nth i xs None with
      | None => nth i cats None = None
      | Some q =>
          ((q <= 0)%Q -> nth i cats None = None) /\
          ((0 < q)%Q -> (q <= 5 # 1)%Q -> nth i cats None = Some (SText "0-5%")) /\
          ((5 # 1 < q)%Q -> (q <= 10 # 1)%Q ->
           nth i cats None = Some (SText "5-10%")) /\
          ((10 # 1 < q)%Q -> (q <= 15 # 1)%Q ->
           nth i cats None = Some (SText "10-15%")) /\
          ((15 # 1 < q)%Q -> (q <= 20 # 1)%Q ->
           nth i cats None = Some (SText "15-20%")) /\
          ((20 # 1 < q)%Q -> (q <= 30 # 1)%Q ->
           nth i cats None = Some (SText "20-30%")) /\
          ((30 # 1 < q)%Q -> nth i cats None = Some (SText "30%+"))
      end.
Proof.
  intros Hrate H.
  destruct (create_derived_features_steps df df' H) as (df2 & df3 & H2 & H3 & H7).
  set (cut := pd_cut false 0 [5 # 1; 10 # 1; 15 # 1; 20 # 1; 30 # 1]
                ["0-5%"; "5-10%"; "10-15%"; "15-20%"; "20-30%"; "30%+"]).
  exists (map (option_map SText) (map cut xs)).
  assert (Hcat : get_col "int_rate_category" df' =
                 Some (CategoryS (map (option_map SText) (map cut xs)))).
  { unfold derive_int_rate_category in H7.
    rewrite derive_seasonality_get, derive_risk_category_get,
      derive_credit_age_get in H7 by reflexivity.
    rewrite (derive_ratio_get df2 df3 "int_rate" H3) in H7 by reflexivity.
    rewrite (derive_income_category_get _ df2 "int_rate" H2) in H7 by reflexivity.
    rewrite derive_labels_get, Hrate in H7 by reflexivity.
    cbn [numeric_cells bind] in H7. injection H7 as <-.
    now frame_simpl. }
  split; [exact Hcat |]. split; [now rewrite !length_map |].
  intros i Hi.
  rewrite (nth_map_lt (option_map SText) (map cut xs) i None None)
    by (now rewrite length_map).
  rewrite (nth_map_lt cut xs i None None Hi).
  destruct (nth i xs None) as [q |]; [| reflexivity].
  destruct (pd_cut_int_rate q) as (P0 & P1 & P2 & P3 & P4 & P5 & P6).
  fold cut in P0, P1, P2, P3, P4, P5, P6.
  repeat split; intros.
  - now rewrite P0.
  - now rewrite P1.
  - now rewrite P2.
  - now rewrite P3.
  - now rewrite P4.
  - now rewrite P5.
  - now rewrite P6.
Qed.

Lemma int_rate_category_brackets_witness :
  get_col "int_rate" rated_loans =
    Some (NumericS [Some 0%Q; Some (21 # 2); None; Some (35 # 1)]) /\
  exists df' cats,
    _create_derived_features rated_loans = Ok df' /\
    get_col "int_rate_category" df' = Some (CategoryS cats) /\
    nth 0 cats None = None /\
    nth 1 cats None = Some (SText "10-15%") /\
    nth 2 cats None = None /\
    nth 3 cats None = Some (SText "30%+").
Proof.
  split; [reflexivity |].
  destruct (_create_derived_features rated_loans) as [df' | e] eqn:E;
    [| exfalso; vm_compute in E; discriminate].
  destruct (int_rate_category_brackets rated_loans df'
              [Some 0%Q; Some (21 # 2); None; Some (35 # 1)] eq_refl E)
    as (cats & Hcats & _ & Hrow).
  exists df', cats. split; [reflexivity |]. split; [exact Hcats |].
  pose proof (Hrow 0%nat ltac:(simpl; lia)) as (H0 & _).
  pose proof (Hrow 1%nat ltac:(simpl; lia)) as (_ & _ & _ & H1 & _).
  pose proof (Hrow 2%nat ltac:(simpl; lia)) as H2.
  pose proof (Hrow 3%nat ltac:(simpl; lia)) as (_ & _ & _ & _ & _ & _ & H3).
  split; [apply H0; unfold Qle; simpl; lia |].
  split; [apply H1; [unfold Qlt | unfold Qle]; simpl; lia |].
  split; [exact H2 |]. apply H3. unfold Qlt. simpl. lia.
Defined.

(* ------------------------------------------------------------------ *)
(** ** The columns written as percentages *)

Lemma astype_str_length (py_str : scalar -> string) (s : Series) :
  length (astype_str py_str s) = series_len s.
Proof.
  destruct s; unfold astype_str; rewrite length_map;
    try reflexivity; apply cells_of_length.
Qed.

(** X22. [_convert_data_types] reads [int_rate] and [revol_util] as
    numbers whatever their dtype was: every cell is printed, its percent
    signs are removed and the rest is parsed, a text that is no number
    becoming a missing cell; the column keeps its length. When the column
    was a text column with few distinct values, and so was listed in
    [categorical_columns] before the conversion, the numbers are then made
    a column of categories and the column does not stay numeric. *)
Theorem percent_columns_become_numeric
  (py_str : scalar -> string) (to_numeric : string -> option Q)
  (df : DataFrame) (col : string) (s : Series) :
  In col ["int_rate"; "revol_util"] ->
  get_col col df = Some s ->
  let self := fst (_convert_data_types py_str to_numeric df) in
  let df3 := snd (_convert_data_types py_str to_numeric df) in
  let numbers :=
    NumericS (map (fun t => to_numeric (remove_percent t)) (astype_str py_str s)) in
  get_col col df3 =
    Some (if mem col (categorical_columns self)
          then astype_category numbers
          else numbers) /\
  series_len numbers = series_len s.
Proof.
  intros Hcol Hget self df3 numbers.
  set (self0 := classify (columns df) df
                  {| date_columns := []; categorical_columns := [];
                     numeric_columns := [] |}).
  assert (Hself : self = self0) by reflexivity.
  split.
  - assert (Hdf2 : get_col col
                     (convert_known py_str to_numeric "revol_util"
                        (convert_known py_str to_numeric "int_rate" df)) =
                   Some numbers).
    { destruct Hcol as [<- | [<- | []]].
      - rewrite convert_known_get by reflexivity.
        unfold convert_known. rewrite Hget, get_col_set_col. reflexivity.
      - unfold convert_known at 1.
        rewrite (convert_known_get py_str to_numeric "int_rate" "revol_util" df)
          by reflexivity.
        rewrite Hget, get_col_set_col. reflexivity. }
    unfold df3, _convert_data_types. cbv zeta. cbn [snd]. fold self0.
    rewrite (fold_convert_get astype_category _ _ col astype_category_idempotent).
    rewrite Hdf2, Hself. destruct (mem col (categorical_columns self0)); reflexivity.
  - unfold numbers. cbn [series_len]. rewrite length_map. apply astype_str_length.
Qed.

Lemma percent_columns_become_numeric_witness :
  In "int_rate" ["int_rate"; "revol_util"] /\
  get_col "int_rate" percent_loans =
    Some (ObjectS [Some "10.5%"; Some "n/a"; None]) /\
  get_col "int_rate"
    (snd (_convert_data_types example_py_str percent_to_numeric_example
            percent_loans)) =
    Some (NumericS [Some (21 # 2); None; None]).
Proof.
  split; [simpl; tauto |]. split; [reflexivity |].
  destruct (percent_columns_become_numeric example_py_str
              percent_to_numeric_example percent_loans "int_rate"
              (ObjectS [Some "10.5%"; Some "n/a"; None])
              ltac:(simpl; tauto) eq_refl) as (H & _).
  rewrite H. reflexivity.
Defined.

(* ------------------------------------------------------------------ *)
(** ** The insertion into a missing table *)

Lemma py_range_first (stop step : Z) :
  0 < step -> 0 < stop -> exists rest, py_range stop step = 0 :: rest.
Proof.
  intros Hs Hn. unfold py_range.
  replace (0 <? step) with true by (symmetry; now apply Z.ltb_lt).
  assert (Hq : 1 <= (stop + step - 1) / step)
    by (apply Z.div_le_lower_bound; lia).
  destruct (Z.to_nat ((stop + step - 1) / step)) as [| k] eqn:E; [lia |].
  exists (map (fun k => Z.of_nat k * step) (seq 1 k)). reflexivity.
Qed.

(** X23. When the table does not exist, [_insert_data_simple] with a
    positive batch size and at least one row executes the first batch
    only: the engine refuses it, the handler of the refusal reads
    [batch_num] before any batch was committed, and the outer handler rolls
    back. The method returns [False], no row is stored and no later batch
    is tried. *)
Theorem insert_data_simple_without_table
  (accepts_row : row -> bool) (df : Prepared) (batch_size : Z) (c : Conn) :
  0 < batch_size -> table c = None -> (0 < prepared_len df)%nat ->
  let data : list row := map (map convert_value) (iterrows df) in
  _insert_data_simple accepts_row df batch_size c =
  ({| table := None;
      committed := committed c;
      pending := [];
      journal := journal c ++
                 [EvExecutemany (slice data 0 (0 + batch_size)); EvRollback] |},
   false).
Proof.
  intros Hb Ht Hrows data.
  unfold _insert_data_simple. fold data.
  replace (batch_size =? 0) with false by (symmetry; apply Z.eqb_neq; lia).
  assert (Hlen : 0 < Z.of_nat (length data)).
  { unfold data. rewrite length_map, iterrows_length. lia. }
  destruct (py_range_first (Z.of_nat (length data)) batch_size Hb Hlen)
    as (rest & ->).
  cbn [insert_batches]. unfold executemany, log.
  cbn [table committed pending journal]. rewrite Ht.
  unfold rollback, log. cbn [table committed pending journal].
  rewrite <- app_assoc. reflexivity.
Qed.

Lemma insert_data_simple_without_table_witness :
  0 < 2 /\ table no_table = None /\ (0 < prepared_len five_loans)%nat /\
  _insert_data_simple accepts_all_rows five_loans 2 no_table =
  ({| table := None; committed := []; pending := [];
      journal := [EvExecutemany [[Some (PyInt 1000)]; [Some (PyInt 2000)]];
                  EvRollback] |},
   false).
Proof.
  split; [lia |]. split; [reflexivity |]. split; [simpl; lia |].
  exact (insert_data_simple_without_table accepts_all_rows five_loans 2 no_table
           ltac:(lia) eq_refl ltac:(simpl; lia)).
Defined.

(* ------------------------------------------------------------------ *)
(** ** The width of the stored table *)

(** X24. Whatever frame with distinct labels [load_to_sqlite_ultra_simple]
    is given, the frame it stores has at most 20 columns, each a column of
    the given frame with its data; a frame of at most 20 columns is stored
    as it is. *)
Theorem stored_frame_has_at_most_20_columns (df : DataFrame) :
  NoDup (columns df) ->
  (length (columns (frame_to_store df)) <= 20)%nat /\
  ((length (columns df) <= 20)%nat -> frame_to_store df = df) /\
  (forall c s, get_col c (frame_to_store df) = Some s -> get_col c df = Some s).
Proof.
  intros Hnd. unfold frame_to_store.
  destruct (20 <? length (columns df))%nat eqn:E.
  - apply Nat.ltb_lt in E.
    destruct (cols_to_keep_facts df Hnd E) as (Hincl & Hlen & _).
    split; [| split].
    + now rewrite (columns_select_columns _ df Hnd Hincl).
    + intros Hle. lia.
    + intros c s Hget. apply get_col_In in Hget.
      apply In_get_col; [exact Hnd |].
      exact (select_columns_incl _ df _ Hget).
  - apply Nat.ltb_ge in E. split; [exact E |]. split; [reflexivity |]. auto.
Qed.

Lemma stored_frame_has_at_most_20_columns_witness :
  NoDup (columns wide_frame) /\
  length (columns wide_frame) = 32%nat /\
  (length (columns (frame_to_store wide_frame)) <= 20)%nat.
Proof.
  assert (Hnd : NoDup (columns wide_frame)) by (apply distinct_NoDup; reflexivity).
  split; [exact Hnd |]. split; [reflexivity |].
  exact (proj1 (stored_frame_has_at_most_20_columns wide_frame Hnd)).
Defined.

